(** * The C64 address space and bank switching of emudore (src/c64/memory.cpp)

    A shallow embedding of [Memory]: the two 64 kB buffers, the bank table,
    the CPU-side byte and word accessors, the VIC-side read path and the
    boot-time patches, with the properties of the design document proved
    about them. *)

From Stdlib Require Import ZArith Lia Bool.
From stdpp Require Import base option list.

Local Open Scope Z_scope.

(** ** Fixed-width integers

    [uint8_t] and [uint16_t] values are integers of [Z]; a conversion to
    one of these types is the remainder written out. *)

Definition u8 (x : Z) : Z := x mod 256.
Definition u16 (x : Z) : Z := x mod 65536.

Definition is_u8 (x : Z) : bool := (0 <=? x) && (x <? 256).
Definition is_u16 (x : Z) : bool := (0 <=? x) && (x <? 65536).

(** ** A state and error monad

    Every statement of the source either updates the object it runs on or
    indexes an array; an index outside the array has no defined behaviour
    and is the one error of the model. *)

Definition SE (S A : Type) : Type := S -> option (A * S).

#[global] Instance SE_ret {S} : MRet (SE S) := fun A (a : A) (s : S) => Some (a, s).

#[global] Instance SE_bind {S} : MBind (SE S) :=
  fun A B (k : A -> SE S B) (c : SE S A) (s : S) =>
    match c s with
    | Some (a, s') => k a s'
    | None => None
    end.

(** [lift o] is the result of a partial computation that leaves the state
    alone, such as reading a constant table. *)
Definition lift {S A} (o : option A) : SE S A :=
  fun s => match o with Some a => Some (a, s) | None => None end.

(** ** Arrays indexed by machine integers *)

(** [a[i]] as an rvalue. *)
Definition nth_Z {E} (a : list E) (i : Z) : option E :=
  if 0 <=? i then a !! Z.to_nat i else None.

(** [a[i]] as a computation on the array. *)
Definition load {E} (i : Z) : SE (list E) E :=
  fun a => match nth_Z a i with Some e => Some (e, a) | None => None end.

(** [a[i] = e]. *)
Definition store {E} (i : Z) (e : E) : SE (list E) unit :=
  fun a =>
    if (0 <=? i) && (i <? Z.of_nat (length a))
    then Some (tt, <[Z.to_nat i := e]> a)
    else None.

(** [for (i = lo; ...; i++) acc = body(i, acc)], run [n] times. *)
Fixpoint for_loop {S A} (n : nat) (i : Z) (acc : A) (body : Z -> A -> SE S A)
  : SE S A :=
  match n with
  | O => mret acc
  | S n' => acc' ← body i acc; for_loop n' (i + 1) acc' body
  end.

(** [for (i = lo; i < hi; i++) body(i)]. *)
Definition for_range {S} (lo hi : Z) (body : Z -> SE S unit) : SE S unit :=
  for_loop (Z.to_nat (hi - lo)) lo tt (fun i _ => body i).

(** ** The declarations of memory.h *)

(** Modelled from the spec: [kMemSize] of memory.h, which is not part of
    the sources at hand; the design document fixes both buffers at 65536
    bytes. *)
Definition kMemSize : Z := 65536.

(** [enum kBankCfg]. *)
Inductive kBankCfg : Type := kROM | kRAM | kIO.

#[global] Instance kBankCfg_eq_dec : EqDecision kBankCfg.
Proof. solve_decision. Defined.

(** The constants of memory.h that memory.cpp names. Their values are not
    in the sources at hand, so they are parameters of the development;
    [sizeof_banks_] stands for [sizeof(banks_)], an array of bytes. *)
Class MemoryH : Type := {
  kBaseAddrBasic : Z;
  kBaseAddrKernal : Z;
  kBaseAddrChars : Z;
  kAddrDataDirection : Z;
  kAddrMemoryLayout : Z;
  kAddrZeroPage : Z;
  kAddrVicFirstPage : Z;
  kAddrVicLastPage : Z;
  kAddrCIA1Page : Z;
  kAddrCIA2Page : Z;
  kAddrSIDPage : Z;
  kAddrBasicFirstPage : Z;
  kAddrBasicLastPage : Z;
  kAddrKernalFirstPage : Z;
  kAddrKernalLastPage : Z;
  kLORAM : Z;
  kHIRAM : Z;
  kCHAREN : Z;
  kBankBasic : Z;
  kBankCharen : Z;
  kBankKernal : Z;
  sizeof_banks_ : Z
}.

(** The byte tables of c64rom.h and customrom.h, parameters as well. *)
Class RomImages : Type := {
  basicRomC64 : list Z;
  charRomC64 : list Z;
  kernalRomC64 : list Z;
  micromon : list Z;
  paku_prg : list Z;
  paku_prg_size : Z
}.

(** The four chips behind [vic_], [cia1_], [cia2_] and [sid_]: the entry
    points memory.cpp calls, acting on the state [W] of the chips.
    [sid_read_register] is the entry point the design document requires of
    the sound chip. *)
Class Chips (W : Type) : Type := {
  vic_read_register : Z -> W -> Z * W;
  vic_write_register : Z -> Z -> W -> W;
  cia1_read_register : Z -> W -> Z * W;
  cia1_write_register : Z -> Z -> W -> W;
  cia2_read_register : Z -> W -> Z * W;
  cia2_write_register : Z -> Z -> W -> W;
  cia2_vic_base_address : W -> Z;
  sid_read_register : Z -> W -> Z * W;
  sid_write_register : Z -> Z -> W -> W
}.

(** ** The object *)

Record Memory (W : Type) : Type := mkMemory {
  mem_ram_ : list Z;
  mem_rom_ : list Z;
  banks_ : list kBankCfg;
  chips : W
}.
Arguments mkMemory {W}.
Arguments mem_ram_ {W}.
Arguments mem_rom_ {W}.
Arguments banks_ {W}.
Arguments chips {W}.

Section Accessors.
Context {W : Type}.

(** A statement that touches [mem_ram_] only. *)
Definition on_ram {A} (c : SE (list Z) A) : SE (Memory W) A :=
  fun m => match c (mem_ram_ m) with
           | Some (a, r) => Some (a, mkMemory r (mem_rom_ m) (banks_ m) (chips m))
           | None => None
           end.

(** A statement that touches [mem_rom_] only. *)
Definition on_rom {A} (c : SE (list Z) A) : SE (Memory W) A :=
  fun m => match c (mem_rom_ m) with
           | Some (a, r) => Some (a, mkMemory (mem_ram_ m) r (banks_ m) (chips m))
           | None => None
           end.

(** A statement that touches [banks_] only. *)
Definition on_banks {A} (c : SE (list kBankCfg) A) : SE (Memory W) A :=
  fun m => match c (banks_ m) with
           | Some (a, b) => Some (a, mkMemory (mem_ram_ m) (mem_rom_ m) b (chips m))
           | None => None
           end.

(** A call of a chip that returns a register. *)
Definition chip_read (f : W -> Z * W) : SE (Memory W) Z :=
  fun m => let '(v, w) := f (chips m) in
           Some (u8 v, mkMemory (mem_ram_ m) (mem_rom_ m) (banks_ m) w).

(** A call of a chip that returns nothing. *)
Definition chip_write (f : W -> W) : SE (Memory W) unit :=
  fun m => Some (tt, mkMemory (mem_ram_ m) (mem_rom_ m) (banks_ m) (f (chips m))).
End Accessors.

(** ** memory.cpp *)

Section MemoryCpp.
Context `{MemoryH} `{RomImages} {W : Type} `{Chips W}.

(** [a[i] = v] on an array of [uint8_t]. *)
Definition poke (i v : Z) : SE (list Z) unit := store i (u8 v).

(** [a[hack++] = v], [hack] a [uint16_t]. *)
Definition poke_inc (hack v : Z) : SE (list Z) Z :=
  poke hack v ;; mret (u16 (hack + 1)).

(** [t[i]] for one of the constant tables. *)
Definition table {S} (t : list Z) (i : Z) : SE S Z := lift (nth_Z t i).

(** [Memory::patch_roms], a sequence of stores into [mem_rom_]. *)
Definition patch_roms : SE (list Z) unit :=
  let hack := 0xEB81 in
  poke (hack + 46) 0x5B ;;
  poke (hack + 49) 0x5D ;;
  poke (hack + 50) 0x27 ;;
  poke (hack + 45) 0x3B ;;
  let hack := 0xEBC2 in
  poke (hack + 59) 0x40 ;;
  poke (hack + 19) 0x5E ;;
  poke (hack + 24) 0x26 ;;
  poke (hack + 27) 0x2A ;;
  poke (hack + 32) 0x28 ;;
  poke (hack + 35) 0x29 ;;
  poke (hack + 50) 0x22 ;;
  poke (hack + 45) 0x3A ;;
  poke (hack + 53) 0x2B ;;
  let hack := 0xF4C4 in
  hack ← poke_inc hack 0xA9; hack ← poke_inc hack 0x04;
  hack ← poke_inc hack 0x8D; hack ← poke_inc hack 0x02; hack ← poke_inc hack 0x00;
  hack ← poke_inc hack 0xA5; hack ← poke_inc hack 0x90;
  hack ← poke_inc hack 0x4A;
  hack ← poke_inc hack 0x4A;
  hack ← poke_inc hack 0xB0; hack ← poke_inc hack 0x61;
  hack ← poke_inc hack 0x20; hack ← poke_inc hack 0xD2; hack ← poke_inc hack 0xF5;
  hack ← poke_inc hack 0x18;
  hack ← poke_inc hack 0xA6; hack ← poke_inc hack 0xAE;
  hack ← poke_inc hack 0xA4; hack ← poke_inc hack 0xAF;
  hack ← poke_inc hack 0x60;
  let hack := 0xF605 in
  hack ← poke_inc hack 0xA9; hack ← poke_inc hack 0x05;
  hack ← poke_inc hack 0x8D; hack ← poke_inc hack 0x02; hack ← poke_inc hack 0x00;
  hack ← poke_inc hack 0x18;
  hack ← poke_inc hack 0x60;
  mret tt.

(** [Memory::patch_ram] as compiled: [ML_MON_9000] is defined and
    [ML_MON_C000] is not. A sequence of stores into [mem_ram_]. *)
Definition patch_ram : SE (list Z) unit :=
  for_range 2 4225 (fun i =>
    x ← table micromon i; poke (0x9000 + (i - 2)) x) ;;
  poke 0x0316 0x00 ;;
  poke 0x0317 0x90 ;;
  let sz := u16 paku_prg_size in
  hi ← table paku_prg 1;
  lo ← table paku_prg 0;
  let loadAddr := u16 (Z.shiftl hi 8 + lo) in
  for_loop (Z.to_nat (sz - 2)) 2 loadAddr (fun i loadAddr =>
    x ← table paku_prg i; poke_inc loadAddr x) ;;
  poke 0x2D (Z.land (0x0801 + sz - 2) 0xFF) ;;
  poke 0x2E (Z.shiftr (0x0801 + sz - 2) 8).

(** [Memory::write_byte_no_io]. *)
Definition write_byte_no_io (addr v : Z) : SE (Memory W) unit :=
  on_ram (poke addr v).

(** [Memory::read_byte_no_io]. *)
Definition read_byte_no_io (addr : Z) : SE (Memory W) Z :=
  on_ram (load addr).

(** [Memory::setup_memory_banks]. *)
Definition setup_memory_banks (v : Z) : SE (Memory W) unit :=
  let hiram := negb (Z.land v kHIRAM =? 0) in
  let loram := negb (Z.land v kLORAM =? 0) in
  let charen := negb (Z.land v kCHAREN =? 0) in
  on_banks (for_range 0 sizeof_banks_ (fun i => store i kRAM)) ;;
  on_rom (for_range 0 8192 (fun i =>
    x ← table basicRomC64 i; poke (kBaseAddrBasic + i) x)) ;;
  on_rom (for_range 0 4096 (fun i =>
    x ← table charRomC64 i; poke (kBaseAddrChars + i) x)) ;;
  on_rom (for_range 0 8192 (fun i =>
    x ← table kernalRomC64 i; poke (kBaseAddrKernal + i) x)) ;;
  on_rom patch_roms ;;
  (if hiram then on_banks (store kBankKernal kROM) else mret tt) ;;
  (if loram && hiram then on_banks (store kBankBasic kROM) else mret tt) ;;
  (if charen && (loram || hiram) then on_banks (store kBankCharen kIO)
   else if charen && negb loram && negb hiram
        then on_banks (store kBankCharen kRAM)
        else on_banks (store kBankCharen kROM)) ;;
  write_byte_no_io kAddrMemoryLayout v.

(** [banks_[i] == c]. *)
Definition bank_is (i : Z) (c : kBankCfg) : SE (Memory W) bool :=
  b ← on_banks (load i); mret (bool_decide (b = c)).

(** [Memory::write_byte]. The parameter [v] is a [uint8_t]: the chips
    and the comparison with 255 receive the converted value, as the
    stores do. *)
Definition write_byte (addr v : Z) : SE (Memory W) unit :=
  let page := Z.land addr 0xff00 in
  if page =? kAddrZeroPage then
    if addr =? kAddrMemoryLayout then setup_memory_banks v
    else on_ram (poke addr v)
  else if (kAddrVicFirstPage <=? page) && (page <=? kAddrVicLastPage) then
    io ← bank_is kBankCharen kIO;
    if io : bool then chip_write (vic_write_register (Z.land addr 0x7f) (u8 v))
    else on_ram (poke addr v)
  else if page =? kAddrCIA1Page then
    io ← bank_is kBankCharen kIO;
    if io : bool then chip_write (cia1_write_register (Z.land addr 0x0f) (u8 v))
    else on_ram (poke addr v)
  else if page =? kAddrCIA2Page then
    io ← bank_is kBankCharen kIO;
    if io : bool then chip_write (cia2_write_register (Z.land addr 0x0f) (u8 v))
    else on_ram (poke addr v)
  else if page =? kAddrSIDPage then
    io ← bank_is kBankCharen kIO;
    if io : bool then chip_write (sid_write_register (Z.land addr 0xff) (u8 v))
    else on_ram (poke addr v)
  else
    on_ram (poke addr v) ;;
    if (addr =? 313) && (u8 v =? 255) then on_ram patch_ram else mret tt.

(** [Memory::read_byte]. *)
Definition read_byte (addr : Z) : SE (Memory W) Z :=
  let page := Z.land addr 0xff00 in
  if (kAddrVicFirstPage <=? page) && (page <=? kAddrVicLastPage) then
    io ← bank_is kBankCharen kIO;
    if io : bool then chip_read (vic_read_register (Z.land addr 0x7f))
    else
      rom ← bank_is kBankCharen kROM;
      if rom : bool then on_rom (load addr) else on_ram (load addr)
  else if page =? kAddrCIA1Page then
    io ← bank_is kBankCharen kIO;
    if io : bool then chip_read (cia1_read_register (Z.land addr 0x0f))
    else on_ram (load addr)
  else if page =? kAddrCIA2Page then
    io ← bank_is kBankCharen kIO;
    if io : bool then chip_read (cia2_read_register (Z.land addr 0x0f))
    else on_ram (load addr)
  else if (kAddrBasicFirstPage <=? page) && (page <=? kAddrBasicLastPage) then
    rom ← bank_is kBankBasic kROM;
    if rom : bool then on_rom (load addr) else on_ram (load addr)
  else if (kAddrKernalFirstPage <=? page) && (page <=? kAddrKernalLastPage) then
    rom ← bank_is kBankKernal kROM;
    if rom : bool then on_rom (load addr) else on_ram (load addr)
  else
    on_ram (load addr).

(** [Memory::read_word]; the low byte is read first. *)
Definition read_word (addr : Z) : SE (Memory W) Z :=
  lo ← read_byte addr;
  hi ← read_byte (u16 (addr + 1));
  mret (u16 (Z.lor lo (Z.shiftl hi 8))).

(** [Memory::read_word_no_io]. *)
Definition read_word_no_io (addr : Z) : SE (Memory W) Z :=
  lo ← read_byte_no_io addr;
  hi ← read_byte_no_io (u16 (addr + 1));
  mret (u16 (Z.lor lo (Z.shiftl hi 8))).

(** [Memory::write_word]. *)
Definition write_word (addr v : Z) : SE (Memory W) unit :=
  write_byte addr (u8 v) ;;
  write_byte (u16 (addr + 1)) (u8 (Z.shiftr v 8)).

(** [Memory::write_word_no_io]. *)
Definition write_word_no_io (addr v : Z) : SE (Memory W) unit :=
  write_byte_no_io addr (u8 v) ;;
  write_byte_no_io (u16 (addr + 1)) (u8 (Z.shiftr v 8)).

(** [cia2_->vic_base_address()]. *)
Definition vic_base_address : SE (Memory W) Z :=
  fun m => Some (cia2_vic_base_address (chips m), m).

(** [Memory::vic_read_byte]. *)
Definition vic_read_byte (addr : Z) : SE (Memory W) Z :=
  base ← vic_base_address;
  let vic_addr := u16 (base + Z.land addr 0x3fff) in
  if ((0x1000 <=? vic_addr) && (vic_addr <? 0x2000))
     || ((0x9000 <=? vic_addr) && (vic_addr <? 0xa000))
  then on_rom (load (kBaseAddrChars + Z.land vic_addr 0xfff))
  else read_byte_no_io vic_addr.

(** The object after the first two statements of [Memory::Memory]: both
    buffers allocated and zeroed, [banks_] and the chips as the caller's
    memory [b0] and [w] has them. *)
Definition fresh (b0 : list kBankCfg) (w : W) : Memory W :=
  mkMemory (replicate (Z.to_nat kMemSize) 0) (replicate (Z.to_nat kMemSize) 0)
           b0 w.

(** The rest of [Memory::Memory]. *)
Definition Memory_ctor : SE (Memory W) unit :=
  on_ram (for_range 0 kMemSize (fun i =>
    poke i (if Z.shiftl (Z.shiftr i 1) 1 =? i then 0 else 0xFF))) ;;
  setup_memory_banks (u8 (Z.lor (Z.lor kLORAM kHIRAM) kCHAREN)) ;;
  write_byte_no_io kAddrDataDirection 0x2f.
End MemoryCpp.

(** ** Well-formedness of the parameters and of the object *)

Section WellFormed.
Context `{MemoryH} `{RomImages}.

(** The three bank slots the source names are three different slots of
    [banks_]. *)
Definition banks_ok : bool :=
  (0 <=? kBankBasic) && (kBankBasic <? sizeof_banks_)
  && (0 <=? kBankCharen) && (kBankCharen <? sizeof_banks_)
  && (0 <=? kBankKernal) && (kBankKernal <? sizeof_banks_)
  && negb (kBankBasic =? kBankCharen)
  && negb (kBankBasic =? kBankKernal)
  && negb (kBankCharen =? kBankKernal).

(** The three ROM images fit the buffer at their base addresses. *)
Definition roms_fit : bool :=
  (0 <=? kBaseAddrBasic) && (kBaseAddrBasic + 8192 <=? kMemSize)
  && (0 <=? kBaseAddrChars) && (kBaseAddrChars + 4096 <=? kMemSize)
  && (0 <=? kBaseAddrKernal) && (kBaseAddrKernal + 8192 <=? kMemSize).

(** What every run of the code relies on: the bank slots, the ROM areas,
    and the two zero-page addresses being 16-bit values. *)
Definition layout_ok : bool :=
  banks_ok && roms_fit && is_u16 kAddrMemoryLayout && is_u16 kAddrDataDirection.

(** The bank-configuration address lies in the page [write_byte] treats
    as the zero page. *)
Definition latch_in_zero_page : bool :=
  Z.land kAddrMemoryLayout 0xff00 =? kAddrZeroPage.

(** The three page ranges the source tests with [>=] and [<=]. *)
Definition vic_window (page : Z) : bool :=
  (kAddrVicFirstPage <=? page) && (page <=? kAddrVicLastPage).
Definition basic_window (page : Z) : bool :=
  (kAddrBasicFirstPage <=? page) && (page <=? kAddrBasicLastPage).
Definition kernal_window (page : Z) : bool :=
  (kAddrKernalFirstPage <=? page) && (page <=? kAddrKernalLastPage).

(** [page] is one of the pages [write_byte] hands to a chip when the
    CHAREN slot holds [kIO]. *)
Definition io_window (page : Z) : bool :=
  negb (page =? kAddrZeroPage)
  && (vic_window page || (page =? kAddrCIA1Page) || (page =? kAddrCIA2Page)
      || (page =? kAddrSIDPage)).

(** No test of [write_byte] claims [page]: the write takes the default
    branch. *)
Definition write_default (page : Z) : bool :=
  negb (page =? kAddrZeroPage) && negb (vic_window page)
  && negb (page =? kAddrCIA1Page) && negb (page =? kAddrCIA2Page)
  && negb (page =? kAddrSIDPage).

(** No test of [read_byte] claims [page]: the read takes the default
    branch. *)
Definition read_default (page : Z) : bool :=
  negb (vic_window page)
  && negb (page =? kAddrCIA1Page) && negb (page =? kAddrCIA2Page)
  && negb (basic_window page) && negb (kernal_window page).

(** The write of [v] at [addr] is handed to a chip. *)
Definition to_chip {W} (m : Memory W) (addr : Z) : bool :=
  io_window (Z.land addr 0xff00)
  && bool_decide (nth_Z (banks_ m) kBankCharen = Some kIO).

(** [t[i]], or 0 where the table ends before [i]. *)
Definition byte_at (t : list Z) (i : Z) : Z := default 0 (nth_Z t i).

(** [loadAddr] of [patch_ram] before its loop, and the number of bytes
    the loop copies. *)
Definition payload_address : Z :=
  u16 (Z.shiftl (byte_at paku_prg 1) 8 + byte_at paku_prg 0).
Definition payload_length : Z := u16 paku_prg_size - 2.

(** The loop of [patch_ram] over [paku_prg] stores at [j]. *)
Definition payload_covers (j : Z) : bool :=
  u16 (j - payload_address) <? payload_length.

(** The tables are as long as the loops over them run. *)
Definition images_ok : bool :=
  (8192 <=? Z.of_nat (length basicRomC64))
  && (4096 <=? Z.of_nat (length charRomC64))
  && (8192 <=? Z.of_nat (length kernalRomC64))
  && (4225 <=? Z.of_nat (length micromon))
  && (2 <=? Z.of_nat (length paku_prg))
  && (u16 paku_prg_size <=? Z.of_nat (length paku_prg)).

(** The sizes of the three arrays of the object. *)
Definition wf {W} (m : Memory W) : bool :=
  (Z.of_nat (length (mem_ram_ m)) =? kMemSize)
  && (Z.of_nat (length (mem_rom_ m)) =? kMemSize)
  && (Z.of_nat (length (banks_ m)) =? sizeof_banks_).

(** Both buffers hold bytes. *)
Definition bytes_ok {W} (m : Memory W) : bool :=
  forallb is_u8 (mem_ram_ m) && forallb is_u8 (mem_rom_ m).

(** Nothing [setup_memory_banks] writes into [mem_rom_] after the
    character ROM falls into the area of the character ROM: the KERNAL
    image and the patched addresses 0xEBAE to 0xF60B lie elsewhere. *)
Definition chars_kept : bool :=
  ((kBaseAddrChars + 4096 <=? kBaseAddrKernal)
   || (kBaseAddrKernal + 8192 <=? kBaseAddrChars))
  && ((kBaseAddrChars + 4096 <=? 0xEBAE) || (0xF60B <? kBaseAddrChars)).
End WellFormed.

(** ** Instances for the examples *)

(** The Commodore 64 memory map, for the constants of memory.h. *)
Definition c64_layout : MemoryH := {|
  kBaseAddrBasic := 0xa000;
  kBaseAddrKernal := 0xe000;
  kBaseAddrChars := 0xd000;
  kAddrDataDirection := 0x0000;
  kAddrMemoryLayout := 0x0001;
  kAddrZeroPage := 0x0000;
  kAddrVicFirstPage := 0xd000;
  kAddrVicLastPage := 0xd300;
  kAddrCIA1Page := 0xdc00;
  kAddrCIA2Page := 0xdd00;
  kAddrSIDPage := 0xd400;
  kAddrBasicFirstPage := 0xa000;
  kAddrBasicLastPage := 0xbf00;
  kAddrKernalFirstPage := 0xe000;
  kAddrKernalLastPage := 0xff00;
  kLORAM := 1;
  kHIRAM := 2;
  kCHAREN := 4;
  kBankBasic := 3;
  kBankCharen := 5;
  kBankKernal := 6;
  sizeof_banks_ := 7
|}.

(** Small stand-ins for the tables: constant ROM images and a program of
    three bytes that loads at 0x0801. *)
Definition demo_images : RomImages := {|
  basicRomC64 := replicate (Z.to_nat 8192) 0xB0;
  charRomC64 := replicate (Z.to_nat 4096) 0xC0;
  kernalRomC64 := replicate (Z.to_nat 8192) 0xE0;
  micromon := replicate (Z.to_nat 4225) 0x4D;
  paku_prg := [0x01; 0x08; 0xA9; 0x2A; 0x60];
  paku_prg_size := 5
|}.

(** Chips that only record the calls they receive. *)
Inductive chip : Type := VIC | CIA1 | CIA2 | SID.

Inductive io_event : Type :=
  | RegRead (c : chip) (reg : Z)
  | RegWrite (c : chip) (reg v : Z).

Definition logging_chips : Chips (list io_event) := {|
  vic_read_register reg w := (0x56, w ++ [RegRead VIC reg]);
  vic_write_register reg v w := w ++ [RegWrite VIC reg v];
  cia1_read_register reg w := (0x31, w ++ [RegRead CIA1 reg]);
  cia1_write_register reg v w := w ++ [RegWrite CIA1 reg v];
  cia2_read_register reg w := (0x32, w ++ [RegRead CIA2 reg]);
  cia2_write_register reg v w := w ++ [RegWrite CIA2 reg v];
  cia2_vic_base_address w := 0;
  sid_read_register reg w := (0x1D, w ++ [RegRead SID reg]);
  sid_write_register reg v w := w ++ [RegWrite SID reg v]
|}.

(** An object with the buffer sizes of the constructor: RAM and ROM filled
    with one byte each, every bank slot holding [c]. *)
Definition flat_memory (ram rom : Z) (c : kBankCfg) : Memory (list io_event) :=
  mkMemory (replicate (Z.to_nat 65536) ram) (replicate (Z.to_nat 65536) rom)
           (replicate 7 c) [].

(** ** Vocabulary of the proofs *)

(** [c] runs on every array of [n] elements, returns [a] and leaves an
    array of [n] elements that holds [e] at each index [j] with
    [g j = Some e] and is unchanged elsewhere: a sequence of stores whose
    indices and values do not depend on the array. *)
Definition overwrites {E A} (n : Z) (c : SE (list E) A) (a : A)
    (g : Z -> option E) : Prop :=
  forall b, Z.of_nat (length b) = n ->
    exists b', c b = Some (a, b') /\ Z.of_nat (length b') = n /\
      forall j, 0 <= j < n ->
        nth_Z b' j = match g j with Some e => Some e | None => nth_Z b j end.

(** [c] leaves an array of bytes an array of bytes. *)
Definition keeps_bytes {A} (c : SE (list Z) A) : Prop :=
  forall b a b',
    forallb is_u8 b = true -> c b = Some (a, b') -> forallb is_u8 b' = true.

(** The object with the state of the chips replaced. *)
Definition with_chips {W} (m : Memory W) (w : W) : Memory W :=
  mkMemory (mem_ram_ m) (mem_rom_ m) (banks_ m) w.

(** The chips with the sound chip's [read_register] replaced. *)
Definition with_sid_read {W} (C : Chips W) (f : Z -> W -> Z * W) : Chips W := {|
  vic_read_register := vic_read_register;
  vic_write_register := vic_write_register;
  cia1_read_register := cia1_read_register;
  cia1_write_register := cia1_write_register;
  cia2_read_register := cia2_read_register;
  cia2_write_register := cia2_write_register;
  cia2_vic_base_address := cia2_vic_base_address;
  sid_read_register := f;
  sid_write_register := sid_write_register
|}.

(** The later of two sequences of stores wins. *)
Definition over {E} (g2 g1 : Z -> option E) (j : Z) : option E :=
  match g2 j with Some e => Some e | None => g1 j end.

(** The object after [mem_ram_[addr] = v]. *)
Definition ram_set {W} (m : Memory W) (addr v : Z) : Memory W :=
  mkMemory (<[Z.to_nat addr := u8 v]> (mem_ram_ m)) (mem_rom_ m) (banks_ m)
           (chips m).

(** [v & mask] is not zero. *)
Definition bit_set (v mask : Z) : bool := negb (Z.land v mask =? 0).

(** The rule table of the design document (section 4.2), in its words:
    KERNAL is ROM if HIRAM is set, else RAM; BASIC is ROM only if both
    LORAM and HIRAM are set, else RAM; CHAREN is IO if CHAREN is set and
    LORAM or HIRAM is set, RAM if CHAREN is set and neither is, ROM
    otherwise. *)
Definition rule_kernal (loram hiram charen : bool) : kBankCfg :=
  if hiram then kROM else kRAM.
Definition rule_basic (loram hiram charen : bool) : kBankCfg :=
  if loram && hiram then kROM else kRAM.
Definition rule_charen (loram hiram charen : bool) : kBankCfg :=
  if charen then (if loram || hiram then kIO else kRAM) else kROM.

Section Split.
Context `{MemoryH} `{RomImages}.

(** The statements of [setup_memory_banks] on [banks_], in their order. *)
Definition setup_banks (v : Z) : SE (list kBankCfg) unit :=
  let hiram := bit_set v kHIRAM in
  let loram := bit_set v kLORAM in
  let charen := bit_set v kCHAREN in
  for_range 0 sizeof_banks_ (fun i => store i kRAM) ;;
  (if hiram then store kBankKernal kROM else mret tt) ;;
  (if loram && hiram then store kBankBasic kROM else mret tt) ;;
  (if charen && (loram || hiram) then store kBankCharen kIO
   else if charen && negb loram && negb hiram
        then store kBankCharen kRAM
        else store kBankCharen kROM).

(** The content of slot [j] of [banks_] once [setup_banks v] has run,
    read off its statements. *)
Definition banks_after (v : Z) (j : Z) : kBankCfg :=
  let hiram := bit_set v kHIRAM in
  let loram := bit_set v kLORAM in
  let charen := bit_set v kCHAREN in
  if j =? kBankCharen then
    if charen && (loram || hiram) then kIO
    else if charen && negb loram && negb hiram then kRAM else kROM
  else if j =? kBankBasic then
    if loram && hiram then kROM else kRAM
  else if j =? kBankKernal then
    if hiram then kROM else kRAM
  else kRAM.

(** The statements of [setup_memory_banks] on [mem_rom_], in their
    order. *)
Definition setup_rom : SE (list Z) unit :=
  for_range 0 8192 (fun i =>
    x ← table basicRomC64 i; poke (kBaseAddrBasic + i) x) ;;
  for_range 0 4096 (fun i =>
    x ← table charRomC64 i; poke (kBaseAddrChars + i) x) ;;
  for_range 0 8192 (fun i =>
    x ← table kernalRomC64 i; poke (kBaseAddrKernal + i) x) ;;
  patch_roms.
End Split.

(** [mem_rom_] is as a run of [setup_memory_banks] leaves it. *)
Definition rom_loaded `{MemoryH} `{RomImages} {W} (m : Memory W) : Prop :=
  exists r0, Z.of_nat (length r0) = 65536 /\ setup_rom r0 = Some (tt, mem_rom_ m).

(** The design document's test of the RAM payload: the program is read
    back from its load address on and the two pointer bytes hold the
    little-endian 0x0801 plus its length. *)
Definition payload_injected `{RomImages} {W} (m : Memory W) : Prop :=
  (forall k, 0 <= k < payload_length ->
     read_byte_no_io (payload_address + k) m
     = Some (byte_at paku_prg (2 + k), m))
  /\ read_byte_no_io 0x2D m = Some ((0x0801 + payload_length) mod 256, m)
  /\ read_byte_no_io 0x2E m = Some ((0x0801 + payload_length) / 256 mod 256, m).

(** The calls a client of [Memory] makes once the object is built. *)
Inductive access : Type :=
  | ReadByte (addr : Z)
  | WriteByte (addr v : Z)
  | ReadByteNoIo (addr : Z)
  | WriteByteNoIo (addr v : Z)
  | ReadWord (addr : Z)
  | WriteWord (addr v : Z)
  | ReadWordNoIo (addr : Z)
  | WriteWordNoIo (addr v : Z)
  | VicReadByte (addr : Z).

(** The address of a call is a [uint16_t]. *)
Definition typed (x : access) : bool :=
  match x with
  | ReadByte a | WriteByte a _ | ReadByteNoIo a | WriteByteNoIo a _
  | ReadWord a | WriteWord a _ | ReadWordNoIo a | WriteWordNoIo a _
  | VicReadByte a => is_u16 a
  end.

Section Reachable.
Context `{MemoryH} `{RomImages} {W : Type} `{Chips W}.

(** A call, its result dropped. *)
Definition perform (x : access) : SE (Memory W) unit :=
  match x with
  | ReadByte a => read_byte a ;; mret tt
  | WriteByte a v => write_byte a v
  | ReadByteNoIo a => read_byte_no_io a ;; mret tt
  | WriteByteNoIo a v => write_byte_no_io a v
  | ReadWord a => read_word a ;; mret tt
  | WriteWord a v => write_word a v
  | ReadWordNoIo a => read_word_no_io a ;; mret tt
  | WriteWordNoIo a v => write_word_no_io a v
  | VicReadByte a => vic_read_byte a ;; mret tt
  end.

(** The objects a program can hold: what the constructor leaves, changed
    by calls of the accessors and by the chips changing state on their
    own. *)
Inductive reachable (b0 : list kBankCfg) (w0 : W) : Memory W -> Prop :=
  | reachable_new m :
      Memory_ctor (fresh b0 w0) = Some (tt, m) -> reachable b0 w0 m
  | reachable_access m x m' :
      reachable b0 w0 m -> typed x = true -> perform x m = Some (tt, m') ->
      reachable b0 w0 m'
  | reachable_chips m w :
      reachable b0 w0 m -> reachable b0 w0 (with_chips m w).
End Reachable.

(** ** Vocabulary of the further properties *)

(** The first value paired with [j] in [t]. *)
Fixpoint assoc_Z (j : Z) (t : list (Z * Z)) : option Z :=
  match t with
  | [] => None
  | (k, v) :: t' => if j =? k then Some v else assoc_Z j t'
  end.

(** The stores of [patch_roms] as address and byte, in the order of the
    source: the two keyboard tables at 0xEB81 and 0xEBC2, the LOAD hook at
    0xF4C4 and the SAVE hook at 0xF605. No address occurs twice. *)
Definition patch_table : list (Z * Z) :=
  [ (0xEB81 + 46, 0x5B); (0xEB81 + 49, 0x5D); (0xEB81 + 50, 0x27);
    (0xEB81 + 45, 0x3B);
    (0xEBC2 + 59, 0x40); (0xEBC2 + 19, 0x5E); (0xEBC2 + 24, 0x26);
    (0xEBC2 + 27, 0x2A); (0xEBC2 + 32, 0x28); (0xEBC2 + 35, 0x29);
    (0xEBC2 + 50, 0x22); (0xEBC2 + 45, 0x3A); (0xEBC2 + 53, 0x2B);
    (0xF4C4 + 0, 0xA9); (0xF4C4 + 1, 0x04); (0xF4C4 + 2, 0x8D);
    (0xF4C4 + 3, 0x02); (0xF4C4 + 4, 0x00); (0xF4C4 + 5, 0xA5);
    (0xF4C4 + 6, 0x90); (0xF4C4 + 7, 0x4A); (0xF4C4 + 8, 0x4A);
    (0xF4C4 + 9, 0xB0); (0xF4C4 + 10, 0x61); (0xF4C4 + 11, 0x20);
    (0xF4C4 + 12, 0xD2); (0xF4C4 + 13, 0xF5); (0xF4C4 + 14, 0x18);
    (0xF4C4 + 15, 0xA6); (0xF4C4 + 16, 0xAE); (0xF4C4 + 17, 0xA4);
    (0xF4C4 + 18, 0xAF); (0xF4C4 + 19, 0x60);
    (0xF605 + 0, 0xA9); (0xF605 + 1, 0x05); (0xF605 + 2, 0x8D);
    (0xF605 + 3, 0x02); (0xF605 + 4, 0x00); (0xF605 + 5, 0x18);
    (0xF605 + 6, 0x60) ].

Section FurtherVocabulary.
Context `{MemoryH} `{RomImages} {W : Type} `{Chips W}.

(** The three masks are non-zero and their union is a byte, so that the
    argument of the constructor's call of [setup_memory_banks] has the
    three bits set. *)
Definition masks_ok : bool :=
  negb (kLORAM =? 0) && negb (kHIRAM =? 0) && negb (kCHAREN =? 0)
  && is_u8 (Z.lor (Z.lor kLORAM kHIRAM) kCHAREN).

(** Nothing [setup_memory_banks] writes into [mem_rom_] after the BASIC
    ROM falls into the area of the BASIC ROM. *)
Definition basic_kept : bool :=
  ((kBaseAddrBasic + 8192 <=? kBaseAddrChars)
   || (kBaseAddrChars + 4096 <=? kBaseAddrBasic))
  && ((kBaseAddrBasic + 8192 <=? kBaseAddrKernal)
      || (kBaseAddrKernal + 8192 <=? kBaseAddrBasic))
  && ((kBaseAddrBasic + 8192 <=? 0xEBAE) || (0xF60B <? kBaseAddrBasic)).

(** The calls of a program, one after the other. *)
Fixpoint perform_all (xs : list access) : SE (Memory W) unit :=
  match xs with
  | [] => mret tt
  | x :: xs' => perform x ;; perform_all xs'
  end.
End FurtherVocabulary.

(** * Properties *)

(** ** Fixed-width integers *)

Lemma u8_range x : 0 <= u8 x < 256.
Proof. unfold u8. apply Z.mod_pos_bound. lia. Qed.

Lemma u16_range x : 0 <= u16 x < 65536.
Proof. unfold u16. apply Z.mod_pos_bound. lia. Qed.

Lemma u8_id x : 0 <= x < 256 -> u8 x = x.
Proof. intros. unfold u8. apply Z.mod_small. lia. Qed.

Lemma u16_id x : 0 <= x < 65536 -> u16 x = x.
Proof. intros. unfold u16. apply Z.mod_small. lia. Qed.

Lemma is_u8_spec x : is_u8 x = true <-> 0 <= x < 256.
Proof. unfold is_u8. rewrite andb_true_iff, Z.leb_le, Z.ltb_lt. tauto. Qed.

Lemma is_u16_spec x : is_u16 x = true <-> 0 <= x < 65536.
Proof. unfold is_u16. rewrite andb_true_iff, Z.leb_le, Z.ltb_lt. tauto. Qed.

Lemma is_u8_u8 x : is_u8 (u8 x) = true.
Proof. apply is_u8_spec, u8_range. Qed.

Lemma u16_bits_above a n : 0 <= a < 65536 -> 16 <= n -> Z.testbit a n = false.
Proof.
  intros Ha Hn. destruct (Z.eq_dec a 0) as [->|Hnz]; [apply Z.bits_0|].
  apply Z.bits_above_log2; [lia|].
  assert (Z.log2 a < 16) by (apply Z.log2_lt_pow2; lia). lia.
Qed.

(** The page of a 16-bit address, [addr & 0xff00], is the address with its
    low byte cleared. *)
Lemma page_of a : 0 <= a < 65536 -> Z.land a 0xff00 = a - a mod 256.
Proof.
  intros Ha.
  assert (E : a - a mod 256 = Z.ldiff a (Z.ones 8)).
  { rewrite Z.ldiff_ones_r, Z.shiftr_div_pow2, Z.shiftl_mul_pow2 by lia.
    change (2 ^ 8) with 256. Z.div_mod_to_equations. lia. }
  rewrite E. apply Z.bits_inj'. intros n Hn.
  rewrite Z.land_spec, Z.ldiff_spec.
  change 0xff00 with (Z.shiftl (Z.ones 8) 8).
  rewrite Z.shiftl_spec, !Z.testbit_ones by lia.
  destruct (Z.leb_spec 0 (n - 8)), (Z.ltb_spec (n - 8) 8), (Z.leb_spec 0 n),
    (Z.ltb_spec n 8); simpl; try lia; rewrite ?andb_true_r, ?andb_false_r;
    trivial.
  symmetry. apply u16_bits_above; lia.
Qed.

(** ** The monad *)

Lemma bind_eq {S A B} (c : SE S A) (k : A -> SE S B) s :
  (c ≫= k) s = match c s with Some (a, s') => k a s' | None => None end.
Proof. reflexivity. Qed.

Lemma bind_Some {S A B} (c : SE S A) (k : A -> SE S B) s a s' :
  c s = Some (a, s') -> (c ≫= k) s = k a s'.
Proof. intros E. rewrite bind_eq, E. reflexivity. Qed.

Lemma ret_eq {S A} (a : A) (s : S) : (mret a : SE S A) s = Some (a, s).
Proof. reflexivity. Qed.

Lemma for_loop_S {S A} n i (acc : A) (body : Z -> A -> SE S A) :
  for_loop (Datatypes.S n) i acc body
  = (body i acc ≫= fun acc' => for_loop n (i + 1) acc' body).
Proof. reflexivity. Qed.

(** ** Arrays *)

Lemma nth_Z_Some {E} (a : list E) i :
  0 <= i < Z.of_nat (length a) -> exists e, nth_Z a i = Some e.
Proof.
  intros Hi. unfold nth_Z.
  destruct (Z.leb_spec 0 i); [|lia].
  apply lookup_lt_is_Some. lia.
Qed.

Lemma nth_Z_of_nat {E} (a : list E) (j : nat) : nth_Z a (Z.of_nat j) = a !! j.
Proof.
  unfold nth_Z. destruct (Z.leb_spec 0 (Z.of_nat j)); [|lia].
  now rewrite Nat2Z.id.
Qed.

Lemma nth_Z_insert_eq {E} (a : list E) i e :
  0 <= i < Z.of_nat (length a) -> nth_Z (<[Z.to_nat i := e]> a) i = Some e.
Proof.
  intros Hi. unfold nth_Z. destruct (Z.leb_spec 0 i); [|lia].
  apply list_lookup_insert_eq. lia.
Qed.

Lemma nth_Z_insert_ne {E} (a : list E) i j e :
  0 <= i -> i <> j -> nth_Z (<[Z.to_nat i := e]> a) j = nth_Z a j.
Proof.
  intros Hi Hne. unfold nth_Z. destruct (Z.leb_spec 0 j); [|reflexivity].
  apply list_lookup_insert_ne. lia.
Qed.

Lemma nth_Z_ext {E} (a b : list E) :
  length a = length b ->
  (forall j, 0 <= j < Z.of_nat (length a) -> nth_Z a j = nth_Z b j) -> a = b.
Proof.
  intros Hlen Hnth. apply list_eq. intros i.
  destruct (Nat.lt_ge_cases i (length a)) as [Hlt|Hge].
  - rewrite <- !nth_Z_of_nat. apply Hnth. lia.
  - rewrite !lookup_ge_None_2; [reflexivity| lia | lia].
Qed.

Lemma store_eq {E} i (e : E) a :
  0 <= i < Z.of_nat (length a) ->
  store i e a = Some (tt, <[Z.to_nat i := e]> a).
Proof.
  intros Hi. unfold store.
  destruct (Z.leb_spec 0 i); [|lia].
  destruct (Z.ltb_spec i (Z.of_nat (length a))); [reflexivity|lia].
Qed.

Lemma store_inv {E} i (e : E) a u a' :
  store i e a = Some (u, a') ->
  0 <= i < Z.of_nat (length a) /\ a' = <[Z.to_nat i := e]> a.
Proof.
  unfold store.
  destruct (Z.leb_spec 0 i); [|discriminate].
  destruct (Z.ltb_spec i (Z.of_nat (length a))); [|discriminate].
  intros [= _ <-]. split; [lia | reflexivity].
Qed.

Lemma load_eq {E} i (a : list E) e : nth_Z a i = Some e -> load i a = Some (e, a).
Proof. intros Hn. unfold load. now rewrite Hn. Qed.

Lemma poke_eq i v a :
  0 <= i < Z.of_nat (length a) ->
  poke i v a = Some (tt, <[Z.to_nat i := u8 v]> a).
Proof. apply store_eq. Qed.

Lemma forallb_insert {E} (p : E -> bool) (a : list E) i e :
  forallb p a = true -> p e = true -> forallb p (<[i := e]> a) = true.
Proof.
  revert i. induction a as [|x a IH]; intros i Ha He; [reflexivity|].
  simpl in Ha. apply andb_true_iff in Ha as [Hx Ha].
  destruct i as [|i]; simpl.
  - now rewrite He, Ha.
  - now rewrite Hx, IH.
Qed.

Lemma forallb_nth_Z {E} (p : E -> bool) (a : list E) i e :
  forallb p a = true -> nth_Z a i = Some e -> p e = true.
Proof.
  unfold nth_Z. destruct (0 <=? i); [|discriminate].
  intros Ha Hl. rewrite forallb_forall in Ha. apply Ha.
  apply list_elem_of_In. eapply list_elem_of_lookup_2. exact Hl.
Qed.

(** ** Sequences of stores *)

Section Overwrites.
Context {E : Type}.
Implicit Types (g : Z -> option E) (n : Z).

Lemma overwrites_ret {A} n (a : A) :
  overwrites (E := E) n (mret a) a (fun _ => None).
Proof. intros b Hb. exists b. repeat split; trivial. Qed.

Lemma overwrites_lift {A} n (o : option A) a :
  o = Some a -> overwrites (E := E) n (lift o) a (fun _ => None).
Proof. intros -> b Hb. exists b. repeat split; trivial. Qed.

Lemma overwrites_store n i (e : E) :
  0 <= i < n ->
  overwrites n (store i e) tt (fun j => if j =? i then Some e else None).
Proof.
  intros Hi b Hb. exists (<[Z.to_nat i := e]> b).
  rewrite store_eq, length_insert by lia. repeat split; trivial.
  intros j Hj. destruct (Z.eqb_spec j i) as [->|Hne].
  - apply nth_Z_insert_eq. lia.
  - apply nth_Z_insert_ne; lia.
Qed.

Lemma overwrites_bind {A B} n (c : SE (list E) A) (k : A -> SE (list E) B)
    a b g1 g2 :
  overwrites n c a g1 -> overwrites n (k a) b g2 ->
  overwrites n (c ≫= k) b (over g2 g1).
Proof.
  intros Hc Hk x Hx.
  destruct (Hc x Hx) as (y & Ey & Hy & Hg1).
  destruct (Hk y Hy) as (z & Ez & Hz & Hg2).
  exists z. rewrite (bind_Some _ _ _ _ _ Ey). repeat split; trivial.
  intros j Hj. unfold over. rewrite Hg2 by trivial.
  destruct (g2 j); [reflexivity|]. now apply Hg1.
Qed.

Lemma overwrites_ext {A} n (c : SE (list E) A) a g g' :
  (forall j, 0 <= j < n -> g j = g' j) ->
  overwrites n c a g -> overwrites n c a g'.
Proof.
  intros Hg Hc b Hb. destruct (Hc b Hb) as (b' & Eb & Hb' & Hl).
  exists b'. repeat split; trivial.
  intros j Hj. rewrite <- Hg by trivial. now apply Hl.
Qed.

(** A loop that stores [h i] at each [i] from [lo] on. *)
Lemma overwrites_tabulate n (h : Z -> E) k :
  forall lo, 0 <= lo -> lo + Z.of_nat k <= n ->
  overwrites n (for_loop k lo tt (fun i _ => store i (h i))) tt
    (fun j => if (lo <=? j) && (j <? lo + Z.of_nat k) then Some (h j) else None).
Proof.
  induction k as [|k IH]; intros lo Hlo Hn.
  - eapply overwrites_ext; [|apply overwrites_ret].
    intros j Hj. simpl.
    destruct (Z.leb_spec lo j), (Z.ltb_spec j (lo + Z.of_nat 0)); trivial; lia.
  - rewrite for_loop_S.
    eapply overwrites_ext;
      [|eapply overwrites_bind;
         [apply overwrites_store; lia | apply (IH (lo + 1)); lia]].
    intros j Hj. unfold over. simpl.
    destruct (Z.leb_spec (lo + 1) j), (Z.ltb_spec j (lo + 1 + Z.of_nat k)),
      (Z.eqb_spec j lo), (Z.leb_spec lo j),
      (Z.ltb_spec j (lo + Z.of_nat (S k))); simpl; subst; trivial; lia.
Qed.

(** Running such a sequence a second time changes nothing. *)
Lemma overwrites_idem {A} n (c : SE (list E) A) a g b b' :
  overwrites n c a g -> Z.of_nat (length b) = n ->
  c b = Some (a, b') -> c b' = Some (a, b').
Proof.
  intros Hc Hb Eb.
  destruct (Hc b Hb) as (y & Ey & Hy & Hg). rewrite Eb in Ey.
  injection Ey as <-.
  destruct (Hc b' Hy) as (z & Ez & Hz & Hg'). rewrite Ez.
  f_equal. f_equal. apply nth_Z_ext; [lia|].
  intros j Hj. rewrite Hg', Hg by lia. now destruct (g j).
Qed.
End Overwrites.

(** ** Loops that copy a table *)

Lemma overwrites_poke n i v :
  0 <= i < n ->
  overwrites n (poke i v) tt (fun j => if j =? i then Some (u8 v) else None).
Proof. apply overwrites_store. Qed.

Lemma overwrites_poke_inc n hack v :
  0 <= hack < n ->
  overwrites n (poke_inc hack v) (u16 (hack + 1))
    (fun j => if j =? hack then Some (u8 v) else None).
Proof.
  intros Hh. unfold poke_inc.
  eapply overwrites_ext;
    [|eapply overwrites_bind; [apply overwrites_poke, Hh | apply overwrites_ret]].
  intros j Hj. reflexivity.
Qed.

(** [for (i = lo; ...; i++) a[d + i] = t[i]]. *)
Lemma overwrites_copy n (t : list Z) (f : Z -> Z) d k :
  (forall i, f i = d + i) ->
  forall lo, 0 <= lo -> 0 <= d + lo -> d + lo + Z.of_nat k <= n ->
  lo + Z.of_nat k <= Z.of_nat (length t) ->
  overwrites n (for_loop k lo tt (fun i _ => x ← table t i; poke (f i) x)) tt
    (fun j => if (d + lo <=? j) && (j <? d + lo + Z.of_nat k)
              then u8 <$> nth_Z t (j - d) else None).
Proof.
  intros Hf. induction k as [|k IH]; intros lo Hlo Hd Hn Ht.
  - eapply overwrites_ext; [|apply overwrites_ret].
    intros j Hj. simpl.
    destruct (Z.leb_spec (d + lo) j), (Z.ltb_spec j (d + lo + Z.of_nat 0));
      trivial; lia.
  - rewrite for_loop_S.
    destruct (nth_Z_Some t lo) as [x Hx]; [lia|].
    eapply overwrites_ext;
      [|eapply overwrites_bind;
         [eapply overwrites_bind;
            [apply overwrites_lift, Hx | rewrite Hf; apply overwrites_poke; lia]
         | apply (IH (lo + 1)); lia]].
    intros j Hj. unfold over. simpl.
    destruct (Z.leb_spec (d + (lo + 1)) j),
      (Z.ltb_spec j (d + (lo + 1) + Z.of_nat k)),
      (Z.eqb_spec j (d + lo)), (Z.leb_spec (d + lo) j),
      (Z.ltb_spec j (d + lo + Z.of_nat (S k))); simpl; trivial; try lia.
    + now destruct (nth_Z t (j - d)).
    + subst j. replace (d + lo - d) with lo by lia. now rewrite Hx.
Qed.

(** [for (...; i++) a[loadAddr++] = t[i]], [loadAddr] wrapping at 16
    bits. *)
Lemma overwrites_copy_wrap (t : list Z) k :
  forall i la, 0 <= i -> i + Z.of_nat k <= Z.of_nat (length t) ->
  0 <= la < 65536 -> Z.of_nat k <= 65536 ->
  overwrites 65536
    (for_loop k i la (fun i la => x ← table t i; poke_inc la x))
    (u16 (la + Z.of_nat k))
    (fun j => if u16 (j - la) <? Z.of_nat k
              then u8 <$> nth_Z t (i + u16 (j - la)) else None).
Proof.
  induction k as [|k IH]; intros i la Hi Ht Hla Hk.
  - replace (u16 (la + Z.of_nat 0)) with la
      by (rewrite Z.add_0_r, u16_id; trivial).
    eapply overwrites_ext; [|apply overwrites_ret].
    intros j Hj. simpl. pose proof (u16_range (j - la)).
    destruct (Z.ltb_spec (u16 (j - la)) (Z.of_nat 0)); trivial; lia.
  - rewrite for_loop_S.
    destruct (nth_Z_Some t i) as [x Hx]; [lia|].
    pose proof (u16_range (la + 1)) as Hla'.
    replace (u16 (la + Z.of_nat (S k))) with (u16 (u16 (la + 1) + Z.of_nat k)).
    2:{ unfold u16. rewrite Zplus_mod_idemp_l. f_equal. lia. }
    eapply overwrites_ext;
      [|eapply overwrites_bind;
         [eapply overwrites_bind;
            [apply overwrites_lift, Hx | apply overwrites_poke_inc; lia]
         | apply (IH (i + 1)); lia]].
    intros j Hj. unfold over. simpl.
    assert (Hstep : u16 (j - u16 (la + 1))
                    = if j =? la then 65535 else u16 (j - la) - 1).
    { destruct (Z.eqb_spec j la); unfold u16 in *;
        Z.div_mod_to_equations; lia. }
    rewrite Hstep. pose proof (u16_range (j - la)) as Hr.
    destruct (Z.eqb_spec j la) as [->|Hne].
    + destruct (Z.ltb_spec 65535 (Z.of_nat k)); [lia|].
      replace (u16 (la - la)) with 0 by (now rewrite Z.sub_diag).
      destruct (Z.ltb_spec 0 (Z.of_nat (S k))); [|lia].
      rewrite Z.add_0_r, Hx. reflexivity.
    + destruct (Z.ltb_spec (u16 (j - la) - 1) (Z.of_nat k)),
        (Z.ltb_spec (u16 (j - la)) (Z.of_nat (S k))); try lia.
      * replace (i + 1 + (u16 (j - la) - 1)) with (i + u16 (j - la)) by lia.
        now destruct (nth_Z t (i + u16 (j - la))).
      * reflexivity.
Qed.

(** ** Stores of bytes *)

Lemma keeps_bytes_ret {A} (a : A) : keeps_bytes (mret a).
Proof. intros b x b' Hb [= _ <-]. exact Hb. Qed.

Lemma keeps_bytes_table t i : keeps_bytes (table t i).
Proof.
  intros b x b' Hb. unfold table, lift.
  destruct (nth_Z t i); [|discriminate]. intros [= _ <-]. exact Hb.
Qed.

Lemma keeps_bytes_poke i v : keeps_bytes (poke i v).
Proof.
  intros b x b' Hb Hs. apply store_inv in Hs as [_ ->].
  apply forallb_insert; [exact Hb | apply is_u8_u8].
Qed.

Lemma keeps_bytes_bind {A B} (c : SE (list Z) A) (k : A -> SE (list Z) B) :
  keeps_bytes c -> (forall a, keeps_bytes (k a)) -> keeps_bytes (c ≫= k).
Proof.
  intros Hc Hk b x b' Hb. rewrite bind_eq.
  destruct (c b) as [[a b1]|] eqn:E; [|discriminate].
  intros Hkb. exact (Hk a b1 x b' (Hc b a b1 Hb E) Hkb).
Qed.

Lemma keeps_bytes_poke_inc hack v : keeps_bytes (poke_inc hack v).
Proof.
  apply keeps_bytes_bind; [apply keeps_bytes_poke | intros; apply keeps_bytes_ret].
Qed.

Lemma keeps_bytes_for_loop {A} (body : Z -> A -> SE (list Z) A) n :
  (forall i acc, keeps_bytes (body i acc)) ->
  forall i acc, keeps_bytes (for_loop n i acc body).
Proof.
  intros Hbody. induction n as [|n IH]; intros i acc.
  - apply keeps_bytes_ret.
  - rewrite for_loop_S. apply keeps_bytes_bind; [apply Hbody | intros; apply IH].
Qed.

Ltac keeps_bytes :=
  repeat match goal with
    | |- keeps_bytes (mret _) => apply keeps_bytes_ret
    | |- keeps_bytes (table _ _) => apply keeps_bytes_table
    | |- keeps_bytes (poke _ _) => apply keeps_bytes_poke
    | |- keeps_bytes (poke_inc _ _) => apply keeps_bytes_poke_inc
    | |- keeps_bytes (for_loop _ _ _ _) => apply keeps_bytes_for_loop; intros
    | |- keeps_bytes (_ ≫= _) => apply keeps_bytes_bind; [|intros]
    end.

Lemma keeps_bytes_patch_roms : keeps_bytes patch_roms.
Proof. unfold patch_roms. cbv zeta. keeps_bytes. Qed.

Lemma keeps_bytes_setup_rom `{MemoryH} `{RomImages} : keeps_bytes setup_rom.
Proof.
  unfold setup_rom, for_range. keeps_bytes. apply keeps_bytes_patch_roms.
Qed.

Lemma keeps_bytes_patch_ram `{RomImages} : keeps_bytes patch_ram.
Proof. unfold patch_ram, for_range. cbv zeta. keeps_bytes. Qed.

(** ** [patch_roms] *)

(** [patch_roms] is a sequence of stores at fixed addresses, all of them
    between 0xEBAE and 0xF60B. *)
Lemma patch_roms_overwrites :
  exists g, overwrites 65536 patch_roms tt g
            /\ forall j, ~ (0xEBAE <= j <= 0xF60B) -> g j = None.
Proof.
  eexists. split.
  - unfold patch_roms. cbv zeta.
    repeat (eapply overwrites_bind;
      [first [ apply overwrites_poke; lia
             | apply overwrites_poke_inc; first [lia | apply u16_range] ]|]).
    apply overwrites_ret.
  - intros j Hj. unfold over.
    repeat match goal with
      | |- context [j =? ?c] =>
          let c' := eval vm_compute in c in
          change c with c';
          destruct (Z.eqb_spec j c') as [E|_]; [exfalso; lia|]
      end.
    reflexivity.
Qed.

(** Boolean side conditions as propositions. *)
Ltac to_prop H :=
  unfold is_u16, is_u8 in H;
  repeat rewrite ?andb_true_iff, ?orb_true_iff, ?negb_true_iff, ?orb_false_iff,
    ?andb_false_iff, ?Z.leb_le, ?Z.ltb_lt, ?Z.eqb_eq, ?Z.eqb_neq,
    ?Z.leb_gt, ?Z.ltb_ge in H.

(** ** [setup_memory_banks] *)

Section SetupMemoryBanks.
Context {L : MemoryH} {R : RomImages} {W : Type} {C : Chips W}.

(** The three arrays are updated independently of each other. *)
Lemma setup_memory_banks_split v (m : Memory W) :
  setup_memory_banks v m =
  match setup_banks v (banks_ m), setup_rom (mem_rom_ m),
        poke kAddrMemoryLayout v (mem_ram_ m) with
  | Some (_, b), Some (_, r), Some (_, a) => Some (tt, mkMemory a r b (chips m))
  | _, _, _ => None
  end.
Proof.
  unfold setup_memory_banks, setup_banks, setup_rom, write_byte_no_io, bit_set.
  destruct m as [ram rom banks w].
  destruct (negb (Z.land v kHIRAM =? 0)), (negb (Z.land v kLORAM =? 0)),
    (negb (Z.land v kCHAREN =? 0));
    unfold on_banks, on_rom, on_ram;
    repeat first
      [ progress rewrite ?bind_eq, ?ret_eq
      | progress simpl
      | match goal with
        | E : ?c ?x = _
          |- context [match ?c ?x with Some _ => _ | None => _ end] =>
            rewrite E
        | |- context [match ?c ?x with Some _ => _ | None => _ end] =>
            lazymatch c with
            | for_range _ _ _ => idtac
            | patch_roms => idtac
            | store _ _ => idtac
            | poke _ _ => idtac
            end;
            destruct (c x) as [[[] ?]|] eqn:?
        end ]; reflexivity.
Qed.

Lemma setup_banks_overwrites v :
  banks_ok = true ->
  overwrites sizeof_banks_ (setup_banks v) tt (fun j => Some (banks_after v j)).
Proof.
  intros Hok. unfold banks_ok in Hok. to_prop Hok.
  assert (Hinit : overwrites sizeof_banks_
            (for_range 0 sizeof_banks_ (fun i => store i kRAM)) tt
            (fun j => if (0 <=? j) && (j <? 0 + Z.of_nat (Z.to_nat (sizeof_banks_ - 0)))
                      then Some kRAM else None)).
  { apply (overwrites_tabulate sizeof_banks_ (fun _ => kRAM)); lia. }
  unfold setup_banks, banks_after.
  destruct (bit_set v kHIRAM), (bit_set v kLORAM), (bit_set v kCHAREN); simpl;
    (eapply overwrites_ext;
      [|eapply overwrites_bind; [exact Hinit|];
        repeat (eapply overwrites_bind;
                  [first [apply overwrites_store; lia | apply overwrites_ret]|]);
        first [apply overwrites_store; lia | apply overwrites_ret]]);
    intros j Hj; unfold over; simpl;
    destruct (Z.eqb_spec j kBankCharen), (Z.eqb_spec j kBankBasic),
      (Z.eqb_spec j kBankKernal), (Z.leb_spec 0 j),
      (Z.ltb_spec j (0 + Z.of_nat (Z.to_nat (sizeof_banks_ - 0))));
    simpl; trivial; lia.
Qed.

Lemma setup_rom_overwrites :
  roms_fit = true -> images_ok = true ->
  exists g, overwrites 65536 setup_rom tt g
    /\ (chars_kept = true ->
        forall j, kBaseAddrChars <= j < kBaseAddrChars + 4096 ->
          g j = u8 <$> nth_Z charRomC64 (j - kBaseAddrChars)).
Proof.
  intros Hfit Himg. unfold roms_fit, kMemSize in Hfit. to_prop Hfit.
  unfold images_ok in Himg. to_prop Himg.
  destruct patch_roms_overwrites as (gp & Hgp & Hfoot).
  eexists. split.
  - unfold setup_rom, for_range.
    eapply overwrites_bind;
      [apply (overwrites_copy 65536 basicRomC64 _ kBaseAddrBasic);
         [reflexivity|lia..]|].
    eapply overwrites_bind;
      [apply (overwrites_copy 65536 charRomC64 _ kBaseAddrChars);
         [reflexivity|lia..]|].
    eapply overwrites_bind;
      [apply (overwrites_copy 65536 kernalRomC64 _ kBaseAddrKernal);
         [reflexivity|lia..]|].
    exact Hgp.
  - intros Hkept j Hj. unfold chars_kept in Hkept. to_prop Hkept.
    unfold over. rewrite Hfoot by lia.
    destruct (Z.leb_spec (kBaseAddrKernal + 0) j),
      (Z.ltb_spec j (kBaseAddrKernal + 0 + Z.of_nat (Z.to_nat (8192 - 0))));
      simpl; try lia;
      destruct (Z.leb_spec (kBaseAddrChars + 0) j),
        (Z.ltb_spec j (kBaseAddrChars + 0 + Z.of_nat (Z.to_nat (4096 - 0))));
      simpl; try lia;
      (destruct (nth_Z_Some charRomC64 (j - kBaseAddrChars)) as [x ->];
        [lia | reflexivity]).
Qed.

Lemma wf_spec (m : Memory W) :
  wf m = true <->
  Z.of_nat (length (mem_ram_ m)) = 65536
  /\ Z.of_nat (length (mem_rom_ m)) = 65536
  /\ Z.of_nat (length (banks_ m)) = sizeof_banks_.
Proof.
  unfold wf, kMemSize. rewrite !andb_true_iff, !Z.eqb_eq. tauto.
Qed.

(** What one call of [setup_memory_banks] does to each part of the
    object. *)
Lemma setup_memory_banks_spec v (m : Memory W) :
  layout_ok = true -> images_ok = true -> wf m = true ->
  exists r b,
    setup_rom (mem_rom_ m) = Some (tt, r)
    /\ setup_banks v (banks_ m) = Some (tt, b)
    /\ setup_memory_banks v m
       = Some (tt, mkMemory (<[Z.to_nat kAddrMemoryLayout := u8 v]> (mem_ram_ m))
                            r b (chips m))
    /\ Z.of_nat (length r) = 65536
    /\ Z.of_nat (length b) = sizeof_banks_
    /\ forall j, 0 <= j < sizeof_banks_ -> nth_Z b j = Some (banks_after v j).
Proof.
  intros Hlay Himg Hwf. apply wf_spec in Hwf as (Hram & Hrom & Hbanks).
  unfold layout_ok in Hlay. apply andb_true_iff in Hlay as [Hlay Hdd].
  apply andb_true_iff in Hlay as [Hlay Hml].
  apply andb_true_iff in Hlay as [Hbk Hfit]. to_prop Hml.
  destruct (setup_rom_overwrites Hfit Himg) as (g & Hg & _).
  destruct (Hg _ Hrom) as (r & Er & Hr & _).
  destruct (setup_banks_overwrites v Hbk _ Hbanks) as (b & Eb & Hb & Hbv).
  exists r, b. rewrite setup_memory_banks_split, Er, Eb, poke_eq by lia.
  repeat split; trivial.
Qed.
(** The three slots the source names hold what the rule table says. *)
Lemma banks_after_rule_table v :
  banks_ok = true ->
  let loram := bit_set v kLORAM in
  let hiram := bit_set v kHIRAM in
  let charen := bit_set v kCHAREN in
  banks_after v kBankKernal = rule_kernal loram hiram charen
  /\ banks_after v kBankBasic = rule_basic loram hiram charen
  /\ banks_after v kBankCharen = rule_charen loram hiram charen.
Proof.
  intros Hok. unfold banks_ok in Hok. to_prop Hok.
  unfold banks_after, rule_kernal, rule_basic, rule_charen. simpl.
  rewrite (Z.eqb_refl kBankCharen), (Z.eqb_refl kBankBasic),
    (Z.eqb_refl kBankKernal).
  destruct (Z.eqb_spec kBankKernal kBankCharen); [lia|].
  destruct (Z.eqb_spec kBankKernal kBankBasic); [lia|].
  destruct (Z.eqb_spec kBankBasic kBankCharen); [lia|].
  destruct (bit_set v kLORAM), (bit_set v kHIRAM), (bit_set v kCHAREN);
    repeat split.
Qed.

Lemma layout_ok_banks : layout_ok = true -> banks_ok = true.
Proof.
  unfold layout_ok. rewrite !andb_true_iff. tauto.
Qed.

Lemma banks_ok_range :
  banks_ok = true ->
  0 <= kBankKernal < sizeof_banks_ /\ 0 <= kBankBasic < sizeof_banks_
  /\ 0 <= kBankCharen < sizeof_banks_.
Proof. intros Hok. unfold banks_ok in Hok. to_prop Hok. lia. Qed.

(** C1: for every latch value handed to [setup_memory_banks] the call
    returns, and afterwards the KERNAL slot of [banks_] is ROM if HIRAM
    is set and RAM otherwise, the BASIC slot is ROM if both LORAM and
    HIRAM are set and RAM otherwise, and the CHAREN slot is IO if CHAREN
    and one of LORAM and HIRAM are set, RAM if CHAREN is set and both
    LORAM and HIRAM are clear, and ROM if CHAREN is clear. *)
Theorem setup_memory_banks_rule_table v (m : Memory W) :
  layout_ok = true -> images_ok = true -> wf m = true ->
  exists m',
    setup_memory_banks v m = Some (tt, m')
    /\ nth_Z (banks_ m') kBankKernal
       = Some (if bit_set v kHIRAM then kROM else kRAM)
    /\ nth_Z (banks_ m') kBankBasic
       = Some (if bit_set v kLORAM && bit_set v kHIRAM then kROM else kRAM)
    /\ nth_Z (banks_ m') kBankCharen
       = Some (if bit_set v kCHAREN
               then if bit_set v kLORAM || bit_set v kHIRAM then kIO else kRAM
               else kROM).
Proof.
  intros Hlay Himg Hwf.
  destruct (setup_memory_banks_spec v m Hlay Himg Hwf)
    as (r & b & _ & _ & Em & _ & _ & Hb).
  pose proof (layout_ok_banks Hlay) as Hbk.
  destruct (banks_ok_range Hbk) as (Hk & Hb' & Hc).
  destruct (banks_after_rule_table v Hbk) as (Rk & Rb & Rc).
  eexists. split; [exact Em|]. cbn [banks_].
  unfold rule_kernal, rule_basic, rule_charen in Rk, Rb, Rc.
  rewrite <- Rk, <- Rb, <- Rc. repeat split; apply Hb; lia.
Qed.

(** C7: [setup_memory_banks] returns for every value, and what it leaves
    in [banks_] is fixed by the value alone: every slot holds
    [banks_after v], the three named slots the entries [kROM], [kRAM] or
    [kIO] of the rule table for the bits of [v], whatever the slots held
    before and on whichever object the call is made; the latch byte of
    RAM holds [v] as a byte and the chips are not touched. Run a second
    time with the same value it leaves the object (RAM, ROM, bank slots
    and chips) exactly as the first run left it. *)
Theorem setup_memory_banks_idempotent v (m : Memory W) :
  layout_ok = true -> images_ok = true -> wf m = true ->
  exists m',
    setup_memory_banks v m = Some (tt, m')
    /\ setup_memory_banks v m' = Some (tt, m')
    /\ nth_Z (banks_ m') kBankKernal
       = Some (rule_kernal (bit_set v kLORAM) (bit_set v kHIRAM) (bit_set v kCHAREN))
    /\ nth_Z (banks_ m') kBankBasic
       = Some (rule_basic (bit_set v kLORAM) (bit_set v kHIRAM) (bit_set v kCHAREN))
    /\ nth_Z (banks_ m') kBankCharen
       = Some (rule_charen (bit_set v kLORAM) (bit_set v kHIRAM) (bit_set v kCHAREN))
    /\ (forall j, 0 <= j < sizeof_banks_ ->
          nth_Z (banks_ m') j = Some (banks_after v j))
    /\ (forall m2 : Memory W, wf m2 = true ->
          exists m2', setup_memory_banks v m2 = Some (tt, m2')
                      /\ banks_ m2' = banks_ m')
    /\ mem_ram_ m' = <[Z.to_nat kAddrMemoryLayout := u8 v]> (mem_ram_ m)
    /\ rom_loaded m'
    /\ chips m' = chips m.
Proof.
  intros Hlay Himg Hwf.
  destruct (setup_memory_banks_spec v m Hlay Himg Hwf)
    as (r & b & Er & Eb & Em & Hr & Hbl & Hb).
  pose proof (layout_ok_banks Hlay) as Hbk.
  destruct (banks_ok_range Hbk) as (Hk & Hb' & Hc).
  destruct (banks_after_rule_table v Hbk) as (Rk & Rb & Rc).
  cbv zeta in Rk, Rb, Rc.
  pose proof Hwf as Hwf0. apply wf_spec in Hwf0 as (Hram & Hrom & Hbanks).
  eexists. split; [exact Em|]. cbn [banks_ mem_ram_ chips].
  split; [|split; [|split; [|split; [|split; [|split; [|split; [|split]]]]]]].
  - set (m' := mkMemory _ r b (chips m)).
    assert (Hwf' : wf m' = true).
    { apply wf_spec. simpl. rewrite length_insert. auto. }
    destruct (setup_memory_banks_spec v m' Hlay Himg Hwf')
      as (r2 & b2 & Er2 & Eb2 & Em2 & _).
    simpl in Er2, Eb2, Em2.
    assert (Hfit : roms_fit = true).
    { unfold layout_ok in Hlay. rewrite !andb_true_iff in Hlay. tauto. }
    destruct (setup_rom_overwrites Hfit Himg) as (g & Hg & _).
    rewrite (overwrites_idem _ _ _ _ _ _ Hg Hrom Er) in Er2.
    rewrite (overwrites_idem _ _ _ _ _ _ (setup_banks_overwrites v Hbk) Hbanks Eb)
      in Eb2.
    injection Er2 as <-. injection Eb2 as <-.
    rewrite Em2, list_insert_insert_eq. reflexivity.
  - rewrite <- Rk. apply Hb. lia.
  - rewrite <- Rb. apply Hb. lia.
  - rewrite <- Rc. apply Hb. lia.
  - exact Hb.
  - intros m2 Hwf2.
    destruct (setup_memory_banks_spec v m2 Hlay Himg Hwf2)
      as (r2 & b2 & _ & _ & Em2 & _ & Hbl2 & Hb2).
    eexists. split; [exact Em2|]. cbn [banks_].
    apply nth_Z_ext; [lia|]. intros j Hj. rewrite Hb2, Hb by lia. reflexivity.
  - reflexivity.
  - exists (mem_rom_ m). auto.
  - reflexivity.
Qed.
End SetupMemoryBanks.

(** ** [patch_ram] *)

Section PatchRam.
Context {R : RomImages}.

Lemma byte_at_nth_Z t i x : nth_Z t i = Some x -> byte_at t i = x.
Proof. unfold byte_at. now intros ->. Qed.

(** [patch_ram] is a sequence of stores; the last of them set the two
    pointer bytes, the ones before copy the program, and nothing below
    0x9000 is touched apart from the program's area, the BRK vector and
    the pointer bytes. *)
Lemma patch_ram_overwrites :
  images_ok = true ->
  exists g, overwrites 65536 patch_ram tt g
    /\ g 0x2D = Some (u8 (Z.land (0x0801 + u16 paku_prg_size - 2) 0xFF))
    /\ g 0x2E = Some (u8 (Z.shiftr (0x0801 + u16 paku_prg_size - 2) 8))
    /\ (forall j, j <> 0x2D -> j <> 0x2E -> payload_covers j = true ->
          g j = u8 <$> nth_Z paku_prg (2 + u16 (j - payload_address)))
    /\ (forall j, j < 0x9000 -> j <> 0x2D -> j <> 0x2E -> j <> 0x316 ->
          j <> 0x317 -> payload_covers j = false -> g j = None).
Proof.
  intros Himg. unfold images_ok in Himg. to_prop Himg.
  destruct (nth_Z_Some paku_prg 1) as [hi Hhi]; [lia|].
  destruct (nth_Z_Some paku_prg 0) as [lo Hlo]; [lia|].
  pose proof (u16_range paku_prg_size) as Hsz.
  pose proof (u16_range (Z.shiftl hi 8 + lo)) as HL.
  assert (HLeq : payload_address = u16 (Z.shiftl hi 8 + lo)).
  { unfold payload_address.
    now rewrite (byte_at_nth_Z _ _ _ Hhi), (byte_at_nth_Z _ _ _ Hlo). }
  eexists. split; [|split; [|split; [|split]]].
  - unfold patch_ram, for_range.
    eapply overwrites_bind;
      [apply (overwrites_copy 65536 micromon _ 0x8FFE); [intros; lia|lia..]|].
    eapply overwrites_bind; [apply overwrites_poke; lia|].
    eapply overwrites_bind; [apply overwrites_poke; lia|].
    eapply overwrites_bind; [apply overwrites_lift, Hhi|].
    eapply overwrites_bind; [apply overwrites_lift, Hlo|].
    cbv zeta.
    eapply overwrites_bind;
      [apply (overwrites_copy_wrap paku_prg); lia|].
    eapply overwrites_bind; [apply overwrites_poke; lia|].
    apply overwrites_poke; lia.
  - unfold over. simpl. reflexivity.
  - unfold over. simpl. reflexivity.
  - intros j H2D H2E Hcov. unfold over.
    destruct (Z.eqb_spec j 46); [lia|]. destruct (Z.eqb_spec j 45); [lia|].
    unfold payload_covers, payload_length in Hcov. rewrite HLeq in *.
    apply Z.ltb_lt in Hcov.
    pose proof (u16_range (j - u16 (Z.shiftl hi 8 + lo))) as Hoff.
    destruct (Z.ltb_spec (u16 (j - u16 (Z.shiftl hi 8 + lo)))
                (Z.of_nat (Z.to_nat (u16 paku_prg_size - 2)))); [|lia].
    destruct (nth_Z_Some paku_prg (2 + u16 (j - u16 (Z.shiftl hi 8 + lo))))
      as [x ->]; [lia|]. reflexivity.
  - intros j H9 H2D H2E H316 H317 Hcov. unfold over.
    destruct (Z.eqb_spec j 46); [lia|]. destruct (Z.eqb_spec j 45); [lia|].
    unfold payload_covers, payload_length in Hcov. rewrite HLeq in *.
    apply Z.ltb_ge in Hcov.
    pose proof (u16_range (j - u16 (Z.shiftl hi 8 + lo))) as Hoff.
    destruct (Z.ltb_spec (u16 (j - u16 (Z.shiftl hi 8 + lo)))
                (Z.of_nat (Z.to_nat (u16 paku_prg_size - 2)))); [lia|].
    destruct (Z.eqb_spec j 791); [lia|]. destruct (Z.eqb_spec j 790); [lia|].
    destruct (Z.leb_spec (36862 + 2) j); [lia|]. reflexivity.
Qed.
End PatchRam.

(** ** The byte accessors *)

Section ByteAccess.
Context {L : MemoryH} {R : RomImages} {W : Type} {C : Chips W}.
Implicit Types (m : Memory W).

Lemma on_ram_load a m x :
  nth_Z (mem_ram_ m) a = Some x -> on_ram (load a) m = Some (x, m).
Proof. intros Hx. unfold on_ram. rewrite (load_eq _ _ _ Hx). now destruct m. Qed.

Lemma on_rom_load a m x :
  nth_Z (mem_rom_ m) a = Some x -> on_rom (load a) m = Some (x, m).
Proof. intros Hx. unfold on_rom. rewrite (load_eq _ _ _ Hx). now destruct m. Qed.

Lemma bank_is_eq i c m b :
  nth_Z (banks_ m) i = Some b -> bank_is i c m = Some (bool_decide (b = c), m).
Proof.
  intros Hb. unfold bank_is, on_banks. rewrite bind_eq, (load_eq _ _ _ Hb).
  now destruct m.
Qed.

Lemma on_ram_poke a v m :
  0 <= a < Z.of_nat (length (mem_ram_ m)) ->
  on_ram (poke a v) m = Some (tt, ram_set m a v).
Proof. intros Ha. unfold on_ram. now rewrite poke_eq. Qed.

(** [read_byte] with its reads of [banks_] and of the buffers resolved. *)
Lemma read_byte_eq a m cb bb kb ra ro :
  nth_Z (banks_ m) kBankCharen = Some cb ->
  nth_Z (banks_ m) kBankBasic = Some bb ->
  nth_Z (banks_ m) kBankKernal = Some kb ->
  nth_Z (mem_ram_ m) a = Some ra ->
  nth_Z (mem_rom_ m) a = Some ro ->
  read_byte a m =
    let page := Z.land a 0xff00 in
    if vic_window page then
      if bool_decide (cb = kIO)
      then chip_read (vic_read_register (Z.land a 0x7f)) m
      else if bool_decide (cb = kROM) then Some (ro, m) else Some (ra, m)
    else if page =? kAddrCIA1Page then
      if bool_decide (cb = kIO)
      then chip_read (cia1_read_register (Z.land a 0x0f)) m
      else Some (ra, m)
    else if page =? kAddrCIA2Page then
      if bool_decide (cb = kIO)
      then chip_read (cia2_read_register (Z.land a 0x0f)) m
      else Some (ra, m)
    else if basic_window page then
      if bool_decide (bb = kROM) then Some (ro, m) else Some (ra, m)
    else if kernal_window page then
      if bool_decide (kb = kROM) then Some (ro, m) else Some (ra, m)
    else Some (ra, m).
Proof.
  intros Hcb Hbb Hkb Hra Hro. unfold read_byte, vic_window, basic_window,
    kernal_window. cbv zeta.
  repeat first
    [ reflexivity
    | rewrite (bind_Some _ _ _ _ _ (bank_is_eq _ _ _ _ Hcb))
    | rewrite (bind_Some _ _ _ _ _ (bank_is_eq _ _ _ _ Hbb))
    | rewrite (bind_Some _ _ _ _ _ (bank_is_eq _ _ _ _ Hkb))
    | apply on_ram_load, Hra
    | apply on_rom_load, Hro
    | match goal with
      | |- context [if ?c then _ else _] => destruct c
      end ].
Qed.

(** [write_byte] with its reads of [banks_] and its stores resolved. *)
Lemma write_byte_eq a v m cb :
  nth_Z (banks_ m) kBankCharen = Some cb ->
  0 <= a < Z.of_nat (length (mem_ram_ m)) ->
  write_byte a v m =
    let page := Z.land a 0xff00 in
    if page =? kAddrZeroPage then
      if a =? kAddrMemoryLayout then setup_memory_banks v m
      else Some (tt, ram_set m a v)
    else if vic_window page then
      if bool_decide (cb = kIO)
      then chip_write (vic_write_register (Z.land a 0x7f) (u8 v)) m
      else Some (tt, ram_set m a v)
    else if page =? kAddrCIA1Page then
      if bool_decide (cb = kIO)
      then chip_write (cia1_write_register (Z.land a 0x0f) (u8 v)) m
      else Some (tt, ram_set m a v)
    else if page =? kAddrCIA2Page then
      if bool_decide (cb = kIO)
      then chip_write (cia2_write_register (Z.land a 0x0f) (u8 v)) m
      else Some (tt, ram_set m a v)
    else if page =? kAddrSIDPage then
      if bool_decide (cb = kIO)
      then chip_write (sid_write_register (Z.land a 0xff) (u8 v)) m
      else Some (tt, ram_set m a v)
    else if (a =? 313) && (u8 v =? 255)
         then on_ram patch_ram (ram_set m a v)
         else Some (tt, ram_set m a v).
Proof.
  intros Hcb Ha. unfold write_byte, vic_window. cbv zeta.
  repeat first
    [ reflexivity
    | rewrite (bind_Some _ _ _ _ _ (bank_is_eq _ _ _ _ Hcb))
    | rewrite (bind_Some _ _ _ _ _ (on_ram_poke _ _ _ Ha))
    | apply on_ram_poke, Ha
    | match goal with
      | |- context [if ?c then _ else _] => destruct c
      end ].
Qed.

(** The reads the accessors make succeed on an object of the right
    sizes. *)
Lemma wf_reads m a :
  wf m = true -> banks_ok = true -> 0 <= a < 65536 ->
  exists cb bb kb ra ro,
    nth_Z (banks_ m) kBankCharen = Some cb
    /\ nth_Z (banks_ m) kBankBasic = Some bb
    /\ nth_Z (banks_ m) kBankKernal = Some kb
    /\ nth_Z (mem_ram_ m) a = Some ra
    /\ nth_Z (mem_rom_ m) a = Some ro.
Proof.
  intros Hwf Hbk Ha. apply wf_spec in Hwf as (Hram & Hrom & Hbanks).
  destruct (banks_ok_range Hbk) as (Hk & Hb & Hc).
  destruct (nth_Z_Some (banks_ m) kBankCharen) as [cb Hcb]; [lia|].
  destruct (nth_Z_Some (banks_ m) kBankBasic) as [bb Hbb]; [lia|].
  destruct (nth_Z_Some (banks_ m) kBankKernal) as [kb Hkb]; [lia|].
  destruct (nth_Z_Some (mem_ram_ m) a) as [ra Hra]; [lia|].
  destruct (nth_Z_Some (mem_rom_ m) a) as [ro Hro]; [lia|].
  exists cb, bb, kb, ra, ro. auto.
Qed.

Lemma read_default_spec page :
  read_default page = true ->
  vic_window page = false /\ (page =? kAddrCIA1Page) = false
  /\ (page =? kAddrCIA2Page) = false /\ basic_window page = false
  /\ kernal_window page = false.
Proof.
  unfold read_default. rewrite !andb_true_iff, !negb_true_iff. tauto.
Qed.

Lemma write_default_spec page :
  write_default page = true ->
  (page =? kAddrZeroPage) = false /\ vic_window page = false
  /\ (page =? kAddrCIA1Page) = false /\ (page =? kAddrCIA2Page) = false
  /\ (page =? kAddrSIDPage) = false.
Proof.
  unfold write_default. rewrite !andb_true_iff, !negb_true_iff. tauto.
Qed.

(** A read through the default branch returns the RAM byte. *)
Lemma read_byte_default a m ra :
  wf m = true -> banks_ok = true -> 0 <= a < 65536 ->
  read_default (Z.land a 0xff00) = true ->
  nth_Z (mem_ram_ m) a = Some ra -> read_byte a m = Some (ra, m).
Proof.
  intros Hwf Hbk Ha Hdef Hra.
  destruct (wf_reads m a Hwf Hbk Ha) as (cb & bb & kb & ra' & ro & Hcb & Hbb & Hkb & Hra' & Hro).
  rewrite (read_byte_eq a m cb bb kb ra ro) by assumption. cbv zeta.
  destruct (read_default_spec _ Hdef) as (-> & -> & -> & -> & ->).
  reflexivity.
Qed.

(** C3: writing [v] to the bank-configuration address runs
    [setup_memory_banks v] instead of a plain store; afterwards a read of
    that address returns [v], and the three slots of [banks_] hold what
    the rule table gives for the bits of [v]. *)
Theorem write_byte_latch v m :
  layout_ok = true -> images_ok = true -> latch_in_zero_page = true ->
  read_default kAddrZeroPage = true ->
  wf m = true -> is_u8 v = true ->
  exists m',
    write_byte kAddrMemoryLayout v m = Some (tt, m')
    /\ setup_memory_banks v m = Some (tt, m')
    /\ read_byte kAddrMemoryLayout m' = Some (v, m')
    /\ read_byte_no_io kAddrMemoryLayout m' = Some (v, m')
    /\ nth_Z (banks_ m') kBankKernal
       = Some (rule_kernal (bit_set v kLORAM) (bit_set v kHIRAM) (bit_set v kCHAREN))
    /\ nth_Z (banks_ m') kBankBasic
       = Some (rule_basic (bit_set v kLORAM) (bit_set v kHIRAM) (bit_set v kCHAREN))
    /\ nth_Z (banks_ m') kBankCharen
       = Some (rule_charen (bit_set v kLORAM) (bit_set v kHIRAM) (bit_set v kCHAREN)).
Proof.
  intros Hlay Himg Hzp Hplain Hwf Hv.
  pose proof (layout_ok_banks Hlay) as Hbk.
  assert (Hml : 0 <= kAddrMemoryLayout < 65536).
  { unfold layout_ok in Hlay. to_prop Hlay. lia. }
  unfold latch_in_zero_page in Hzp. apply Z.eqb_eq in Hzp.
  apply is_u8_spec in Hv.
  destruct (wf_reads m _ Hwf Hbk Hml) as (cb & _ & _ & _ & _ & Hcb & _).
  pose proof Hwf as Hwf0. apply wf_spec in Hwf0 as (Hram & Hrom & Hbanks).
  destruct (setup_memory_banks_spec v m Hlay Himg Hwf)
    as (r & b & _ & _ & Em & Hr & Hbl & Hb).
  destruct (banks_ok_range Hbk) as (Hk & Hb' & Hc).
  destruct (banks_after_rule_table v Hbk) as (Rk & Rb & Rc).
  set (m' := mkMemory (<[Z.to_nat kAddrMemoryLayout := u8 v]> (mem_ram_ m))
                      r b (chips m)) in *.
  exists m'. rewrite (write_byte_eq _ v m cb Hcb) by lia. cbv zeta.
  rewrite Hzp, !Z.eqb_refl.
  assert (Hra : nth_Z (mem_ram_ m') kAddrMemoryLayout = Some v).
  { cbn [m' mem_ram_]. rewrite nth_Z_insert_eq by lia. now rewrite u8_id. }
  assert (Hwf' : wf m' = true).
  { apply wf_spec. cbn [m' mem_ram_ mem_rom_ banks_].
    rewrite length_insert. auto. }
  repeat split; trivial.
  - apply read_byte_default; trivial. now rewrite Hzp.
  - now apply on_ram_load.
  - rewrite <- Rk. apply Hb. lia.
  - rewrite <- Rb. apply Hb. lia.
  - rewrite <- Rc. apply Hb. lia.
Qed.

Lemma read_byte_no_io_ram_set a v m :
  0 <= a < Z.of_nat (length (mem_ram_ m)) -> 0 <= v < 256 ->
  read_byte_no_io a (ram_set m a v) = Some (v, ram_set m a v).
Proof.
  intros Ha Hv. apply on_ram_load. simpl.
  rewrite nth_Z_insert_eq by lia. now rewrite u8_id.
Qed.

(** [to_chip] is the case in which [write_byte] calls a chip: the object
    keeps its three arrays and only the chips change. *)
Lemma write_byte_to_chip a v m :
  wf m = true -> banks_ok = true -> 0 <= a < 65536 -> to_chip m a = true ->
  exists w, write_byte a v m = Some (tt, with_chips m w).
Proof.
  intros Hwf Hbk Ha Hchip.
  destruct (wf_reads m a Hwf Hbk Ha) as (cb & _ & _ & _ & _ & Hcb & _).
  apply wf_spec in Hwf as (Hram & _).
  rewrite (write_byte_eq a v m cb Hcb) by lia. cbv zeta.
  unfold to_chip, io_window in Hchip. rewrite Hcb in Hchip.
  apply andb_true_iff in Hchip as [Hwin Hio].
  apply bool_decide_eq_true in Hio. injection Hio as ->.
  apply andb_true_iff in Hwin as [Hzp Hwin]. apply negb_true_iff in Hzp.
  rewrite Hzp.
  destruct (vic_window (Z.land a 0xff00)); [eexists; reflexivity|].
  destruct (Z.land a 0xff00 =? kAddrCIA1Page); [eexists; reflexivity|].
  destruct (Z.land a 0xff00 =? kAddrCIA2Page); [eexists; reflexivity|].
  destruct (Z.land a 0xff00 =? kAddrSIDPage); [eexists; reflexivity|].
  discriminate Hwin.
Qed.

(** C2: a write that is neither the write to the bank-configuration
    address nor handed to a chip is read back by [read_byte_no_io],
    whatever the page of the address decodes to for reads. The write of
    255 at 313 runs [patch_ram] after its store; it is read back as long
    as the program [patch_ram] copies does not cover address 313. *)
Theorem write_byte_read_back a v m :
  layout_ok = true -> images_ok = true -> wf m = true ->
  is_u16 a = true -> is_u8 v = true ->
  a <> kAddrMemoryLayout -> to_chip m a = false ->
  (a = 313 -> v = 255 -> payload_covers 313 = false) ->
  exists m',
    write_byte a v m = Some (tt, m')
    /\ read_byte_no_io a m' = Some (v, m').
Proof.
  intros Hlay Himg Hwf Ha Hv Hne Hchip Hpay.
  pose proof (layout_ok_banks Hlay) as Hbk.
  apply is_u16_spec in Ha. apply is_u8_spec in Hv.
  destruct (wf_reads m a Hwf Hbk Ha) as (cb & _ & _ & _ & _ & Hcb & _).
  apply wf_spec in Hwf as (Hram & Hrom & Hbanks).
  rewrite (write_byte_eq a v m cb Hcb) by lia. cbv zeta.
  rewrite (u8_id v Hv).
  assert (Hio : io_window (Z.land a 0xff00) = true ->
                bool_decide (cb = kIO) = false).
  { intros Hw. unfold to_chip in Hchip. rewrite Hw, Hcb in Hchip.
    simpl in Hchip. apply bool_decide_eq_false in Hchip.
    apply bool_decide_eq_false. congruence. }
  unfold io_window in Hio.
  assert (Hback : read_byte_no_io a (ram_set m a v) = Some (v, ram_set m a v))
    by (apply read_byte_no_io_ram_set; lia).
  destruct (Z.land a 0xff00 =? kAddrZeroPage) eqn:Ezp.
  { destruct (Z.eqb_spec a kAddrMemoryLayout); [contradiction|]. eauto. }
  simpl in Hio.
  destruct (vic_window (Z.land a 0xff00)).
  { rewrite Hio by reflexivity. eauto. }
  destruct (Z.land a 0xff00 =? kAddrCIA1Page).
  { rewrite Hio by reflexivity. eauto. }
  destruct (Z.land a 0xff00 =? kAddrCIA2Page).
  { rewrite Hio by reflexivity. eauto. }
  destruct (Z.land a 0xff00 =? kAddrSIDPage).
  { rewrite Hio by reflexivity. eauto. }
  destruct (Z.eqb_spec a 313) as [->|]; [|simpl; eauto].
  destruct (Z.eqb_spec v 255) as [->|]; [|simpl; eauto].
  simpl.
  destruct (patch_ram_overwrites Himg) as (g & Hg & _ & _ & _ & Hfree).
  destruct (Hg (mem_ram_ (ram_set m 313 255))) as (b' & Eb & Hb' & Hnth).
  { simpl. now rewrite length_insert. }
  unfold on_ram. rewrite Eb. eexists. split; [reflexivity|].
  apply on_ram_load. simpl.
  rewrite Hnth, Hfree by (auto; lia). simpl.
  rewrite nth_Z_insert_eq by lia. reflexivity.
Qed.

(** With the CHAREN slot on [kIO], an access in one of the chip pages is
    the call of that chip's entry point with the masked address; the
    sound page is one of them for [write_byte] only. *)
Lemma chip_windows_forwarded a v m :
  wf m = true -> banks_ok = true -> 0 <= a < 65536 ->
  nth_Z (banks_ m) kBankCharen = Some kIO ->
  let page := Z.land a 0xff00 in
  (vic_window page = true ->
     read_byte a m = chip_read (vic_read_register (Z.land a 0x7f)) m
     /\ (page <> kAddrZeroPage ->
         write_byte a v m
         = chip_write (vic_write_register (Z.land a 0x7f) (u8 v)) m))
  /\ (vic_window page = false -> page = kAddrCIA1Page ->
       read_byte a m = chip_read (cia1_read_register (Z.land a 0x0f)) m
       /\ (page <> kAddrZeroPage ->
           write_byte a v m
         = chip_write (cia1_write_register (Z.land a 0x0f) (u8 v)) m))
  /\ (vic_window page = false -> page <> kAddrCIA1Page -> page = kAddrCIA2Page ->
       read_byte a m = chip_read (cia2_read_register (Z.land a 0x0f)) m
       /\ (page <> kAddrZeroPage ->
           write_byte a v m
         = chip_write (cia2_write_register (Z.land a 0x0f) (u8 v)) m))
  /\ (vic_window page = false -> page <> kAddrCIA1Page -> page <> kAddrCIA2Page ->
       page = kAddrSIDPage -> page <> kAddrZeroPage ->
       write_byte a v m
       = chip_write (sid_write_register (Z.land a 0xff) (u8 v)) m).
Proof.
  intros Hwf Hbk Ha Hio page.
  destruct (wf_reads m a Hwf Hbk Ha)
    as (cb & bb & kb & ra & ro & Hcb & Hbb & Hkb & Hra & Hro).
  assert (cb = kIO) as -> by congruence.
  apply wf_spec in Hwf as (Hram & _).
  rewrite (read_byte_eq a m kIO bb kb ra ro) by assumption.
  rewrite (write_byte_eq a v m kIO) by (trivial; lia).
  fold page. cbv zeta. repeat split; intros;
    repeat match goal with
      | E : vic_window page = _ |- _ => rewrite E; clear E
      | E : page <> ?y |- _ =>
          destruct (Z.eqb_spec page y) as [?|_]; [contradiction|]; clear E
      | E : page = ?y |- _ =>
          destruct (Z.eqb_spec page y) as [_|?]; [|contradiction]; clear E
      end; reflexivity.
Qed.

(** C10: with the CHAREN slot on [kROM], [read_byte] returns the ROM byte
    for an address whose page lies in the video window; for an address
    in the CIA1 or CIA2 page, and for an address whose page is outside
    the video, BASIC and KERNAL windows (the sound page and the rest of
    the character area), it returns the RAM byte. *)
Theorem read_byte_charen_rom a m ra ro :
  wf m = true -> banks_ok = true -> is_u16 a = true ->
  nth_Z (banks_ m) kBankCharen = Some kROM ->
  nth_Z (mem_ram_ m) a = Some ra -> nth_Z (mem_rom_ m) a = Some ro ->
  let page := Z.land a 0xff00 in
  (vic_window page = true -> read_byte a m = Some (ro, m))
  /\ (vic_window page = false ->
      page = kAddrCIA1Page \/ page = kAddrCIA2Page
      \/ (basic_window page = false /\ kernal_window page = false) ->
      read_byte a m = Some (ra, m)).
Proof.
  intros Hwf Hbk Ha Hrom Hra Hro page. apply is_u16_spec in Ha.
  destruct (wf_reads m a Hwf Hbk Ha)
    as (cb & bb & kb & ra' & ro' & Hcb & Hbb & Hkb & _).
  assert (cb = kROM) as -> by congruence.
  rewrite (read_byte_eq a m kROM bb kb ra ro) by assumption.
  fold page. cbv zeta. split.
  - intros ->. reflexivity.
  - intros -> [E|[E|[E1 E2]]].
    + rewrite E, Z.eqb_refl. reflexivity.
    + rewrite E, Z.eqb_refl. now destruct (kAddrCIA2Page =? kAddrCIA1Page).
    + rewrite E1, E2.
      now destruct (page =? kAddrCIA1Page), (page =? kAddrCIA2Page).
Qed.
(** [read_byte] does not depend on what the sound chip's [read_register]
    does: no branch of it calls the sound chip. *)
Lemma read_byte_ignores_sid_read f a m :
  @read_byte L W (with_sid_read C f) a m = @read_byte L W C a m.
Proof. reflexivity. Qed.

(** [write_byte] keeps [mem_rom_] a loaded ROM image. *)
Lemma write_byte_rom_loaded a v m m' :
  layout_ok = true -> images_ok = true -> wf m = true -> 0 <= a < 65536 ->
  rom_loaded m -> write_byte a v m = Some (tt, m') -> rom_loaded m'.
Proof.
  intros Hlay Himg Hwf Ha Hrl.
  pose proof (layout_ok_banks Hlay) as Hbk.
  destruct (wf_reads m a Hwf Hbk Ha) as (cb & _ & _ & _ & _ & Hcb & _).
  destruct (setup_memory_banks_spec v m Hlay Himg Hwf)
    as (r & b & Er & _ & Em & _).
  apply wf_spec in Hwf as (Hram & Hrom & Hbanks).
  rewrite (write_byte_eq a v m cb Hcb) by lia. cbv zeta.
  assert (Hsame : forall m1, mem_rom_ m1 = mem_rom_ m ->
            Some (tt, m1) = Some (tt, m') -> rom_loaded m').
  { intros m1 E [= <-]. unfold rom_loaded. now rewrite E. }
  repeat match goal with
    | |- context [if ?c then _ else _] => destruct c
    end;
    try (apply Hsame; reflexivity).
  - rewrite Em. intros [= <-]. exists (mem_rom_ m). auto.
  - unfold on_ram. destruct (patch_ram _) as [[[] ram']|]; [|discriminate].
    apply Hsame. reflexivity.
Qed.

End ByteAccess.

(** ** Every access returns *)

Section Totality.
Context {L : MemoryH} {R : RomImages} {W : Type} {C : Chips W}.
Implicit Types (m : Memory W).

Lemma bytes_ok_spec m :
  bytes_ok m = true <->
  forallb is_u8 (mem_ram_ m) = true /\ forallb is_u8 (mem_rom_ m) = true.
Proof. unfold bytes_ok. apply andb_true_iff. Qed.

Lemma with_chips_same m : with_chips m (chips m) = m.
Proof. now destruct m. Qed.

Lemma ram_set_ok m a v :
  wf m = true -> bytes_ok m = true ->
  wf (ram_set m a v) = true /\ bytes_ok (ram_set m a v) = true.
Proof.
  intros Hwf Hby. apply wf_spec in Hwf as (Hram & Hrom & Hbanks).
  apply bytes_ok_spec in Hby as (Hbr & Hbo). split.
  - apply wf_spec. simpl. rewrite length_insert. auto.
  - apply bytes_ok_spec. simpl. split; [|exact Hbo].
    apply forallb_insert; [exact Hbr | apply is_u8_u8].
Qed.

Lemma setup_memory_banks_total v m :
  layout_ok = true -> images_ok = true -> wf m = true -> bytes_ok m = true ->
  exists m', setup_memory_banks v m = Some (tt, m')
             /\ wf m' = true /\ bytes_ok m' = true.
Proof.
  intros Hlay Himg Hwf Hby.
  destruct (setup_memory_banks_spec v m Hlay Himg Hwf)
    as (r & b & Er & _ & Em & Hr & Hb & _).
  apply wf_spec in Hwf as (Hram & Hrom & Hbanks).
  apply bytes_ok_spec in Hby as (Hbr & Hbo).
  eexists. split; [exact Em|]. split.
  - apply wf_spec. simpl. rewrite length_insert. auto.
  - apply bytes_ok_spec. simpl. split.
    + apply forallb_insert; [exact Hbr | apply is_u8_u8].
    + exact (keeps_bytes_setup_rom _ _ _ Hbo Er).
Qed.

Lemma patch_ram_total m :
  images_ok = true -> wf m = true -> bytes_ok m = true ->
  exists m', on_ram patch_ram m = Some (tt, m')
             /\ wf m' = true /\ bytes_ok m' = true.
Proof.
  intros Himg Hwf Hby.
  apply wf_spec in Hwf as (Hram & Hrom & Hbanks).
  apply bytes_ok_spec in Hby as (Hbr & Hbo).
  destruct (patch_ram_overwrites Himg) as (g & Hg & _).
  destruct (Hg _ Hram) as (b' & Eb & Hb' & _).
  unfold on_ram. rewrite Eb. eexists. split; [reflexivity|]. split.
  - apply wf_spec. simpl. auto.
  - apply bytes_ok_spec. simpl. split; [|exact Hbo].
    exact (keeps_bytes_patch_ram _ _ _ Hbr Eb).
Qed.

Lemma write_byte_total a v m :
  layout_ok = true -> images_ok = true -> wf m = true -> bytes_ok m = true ->
  0 <= a < 65536 ->
  exists m', write_byte a v m = Some (tt, m')
             /\ wf m' = true /\ bytes_ok m' = true.
Proof.
  intros Hlay Himg Hwf Hby Ha.
  pose proof (layout_ok_banks Hlay) as Hbk.
  destruct (wf_reads m a Hwf Hbk Ha) as (cb & _ & _ & _ & _ & Hcb & _).
  pose proof Hwf as Hwf0. apply wf_spec in Hwf0 as (Hram & Hrom & Hbanks).
  rewrite (write_byte_eq a v m cb Hcb) by lia. cbv zeta.
  pose proof (ram_set_ok m a v Hwf Hby) as [Hwf1 Hby1].
  assert (Hchip : forall f, exists m', chip_write f m = Some (tt, m')
                               /\ wf m' = true /\ bytes_ok m' = true).
  { intros f. eexists. split; [reflexivity|]. split; assumption. }
  repeat match goal with
    | |- context [if ?c then _ else _] => destruct c
    end;
    first [ apply Hchip
          | apply setup_memory_banks_total; assumption
          | apply patch_ram_total; assumption
          | eexists; split; [reflexivity|]; split; assumption ].
Qed.

Lemma read_byte_total a m :
  banks_ok = true -> wf m = true -> bytes_ok m = true -> 0 <= a < 65536 ->
  exists x w, read_byte a m = Some (x, with_chips m w) /\ 0 <= x < 256.
Proof.
  intros Hbk Hwf Hby Ha.
  destruct (wf_reads m a Hwf Hbk Ha)
    as (cb & bb & kb & ra & ro & Hcb & Hbb & Hkb & Hra & Hro).
  apply bytes_ok_spec in Hby as (Hbr & Hbo).
  rewrite (read_byte_eq a m cb bb kb ra ro) by assumption. cbv zeta.
  assert (Hram : exists x w, Some (ra, m) = Some (x, with_chips m w)
                             /\ 0 <= x < 256).
  { exists ra, (chips m). rewrite with_chips_same. split; [reflexivity|].
    apply is_u8_spec. exact (forallb_nth_Z _ _ _ _ Hbr Hra). }
  assert (Hrom : exists x w, Some (ro, m) = Some (x, with_chips m w)
                             /\ 0 <= x < 256).
  { exists ro, (chips m). rewrite with_chips_same. split; [reflexivity|].
    apply is_u8_spec. exact (forallb_nth_Z _ _ _ _ Hbo Hro). }
  assert (Hchip : forall f, exists x w, chip_read f m = Some (x, with_chips m w)
                                   /\ 0 <= x < 256).
  { intros f. unfold chip_read. destruct (f (chips m)) as [x w].
    exists (u8 x), w. split; [reflexivity | apply u8_range]. }
  repeat match goal with
    | |- context [if ?c then _ else _] => destruct c
    end; first [apply Hchip | exact Hram | exact Hrom].
Qed.

Lemma wf_with_chips m w :
  wf m = true -> bytes_ok m = true ->
  wf (with_chips m w) = true /\ bytes_ok (with_chips m w) = true.
Proof. intros Hwf Hby. split; assumption. Qed.

Lemma read_byte_no_io_total a m :
  wf m = true -> bytes_ok m = true -> 0 <= a < 65536 ->
  exists x, read_byte_no_io a m = Some (x, m) /\ 0 <= x < 256
            /\ nth_Z (mem_ram_ m) a = Some x.
Proof.
  intros Hwf Hby Ha. apply wf_spec in Hwf as (Hram & _).
  apply bytes_ok_spec in Hby as (Hbr & _).
  destruct (nth_Z_Some (mem_ram_ m) a) as [x Hx]; [lia|].
  exists x. split; [now apply on_ram_load|]. split; [|exact Hx].
  apply is_u8_spec. exact (forallb_nth_Z _ _ _ _ Hbr Hx).
Qed.

Lemma write_byte_no_io_total a v m :
  wf m = true -> bytes_ok m = true -> 0 <= a < 65536 ->
  write_byte_no_io a v m = Some (tt, ram_set m a v)
  /\ wf (ram_set m a v) = true /\ bytes_ok (ram_set m a v) = true.
Proof.
  intros Hwf Hby Ha. split; [|now apply ram_set_ok].
  apply wf_spec in Hwf as (Hram & _). apply on_ram_poke. lia.
Qed.

(** Two bytes make a 16-bit word. *)
Lemma word_of_bytes lo hi :
  0 <= lo < 256 -> 0 <= hi < 256 ->
  u16 (Z.lor lo (Z.shiftl hi 8)) = Z.lor lo (Z.shiftl hi 8).
Proof.
  intros Hlo Hhi. apply u16_id. split.
  - apply Z.lor_nonneg. split; [lia|]. apply Z.shiftl_nonneg. lia.
  - change 65536 with (2 ^ 16).
    destruct (Z.eq_dec (Z.lor lo (Z.shiftl hi 8)) 0) as [->|Hnz]; [lia|].
    apply Z.log2_lt_pow2.
    + assert (0 <= Z.lor lo (Z.shiftl hi 8)).
      { apply Z.lor_nonneg. split; [lia|]. apply Z.shiftl_nonneg. lia. }
      lia.
    + rewrite Z.log2_lor by (try apply Z.shiftl_nonneg; lia).
      apply Z.max_lub_lt.
      * destruct (Z.eq_dec lo 0) as [->|]; [simpl; lia|].
        apply Z.log2_lt_pow2; lia.
      * destruct (Z.eq_dec hi 0) as [->|]; [simpl; lia|].
        rewrite Z.log2_shiftl by lia.
        assert (Z.log2 hi < 8) by (apply Z.log2_lt_pow2; lia). lia.
Qed.

Lemma read_word_total a m :
  banks_ok = true -> wf m = true -> bytes_ok m = true -> 0 <= a < 65536 ->
  exists lo w1 hi w2,
    read_byte a m = Some (lo, with_chips m w1)
    /\ read_byte (u16 (a + 1)) (with_chips m w1) = Some (hi, with_chips m w2)
    /\ read_word a m = Some (Z.lor lo (Z.shiftl hi 8), with_chips m w2)
    /\ 0 <= lo < 256 /\ 0 <= hi < 256.
Proof.
  intros Hbk Hwf Hby Ha.
  destruct (read_byte_total a m Hbk Hwf Hby Ha) as (lo & w1 & E1 & Hlo).
  destruct (wf_with_chips m w1 Hwf Hby) as [Hwf1 Hby1].
  destruct (read_byte_total (u16 (a + 1)) _ Hbk Hwf1 Hby1 (u16_range _))
    as (hi & w2 & E2 & Hhi).
  exists lo, w1, hi, w2. unfold read_word.
  rewrite (bind_Some _ _ _ _ _ E1), (bind_Some _ _ _ _ _ E2), ret_eq.
  rewrite word_of_bytes by assumption. auto.
Qed.

Lemma read_word_no_io_total a m :
  wf m = true -> bytes_ok m = true -> 0 <= a < 65536 ->
  exists lo hi,
    nth_Z (mem_ram_ m) a = Some lo
    /\ nth_Z (mem_ram_ m) (u16 (a + 1)) = Some hi
    /\ read_word_no_io a m = Some (Z.lor lo (Z.shiftl hi 8), m)
    /\ 0 <= lo < 256 /\ 0 <= hi < 256.
Proof.
  intros Hwf Hby Ha.
  destruct (read_byte_no_io_total a m Hwf Hby Ha) as (lo & E1 & Hlo & Hl).
  destruct (read_byte_no_io_total (u16 (a + 1)) m Hwf Hby (u16_range _))
    as (hi & E2 & Hhi & Hh).
  exists lo, hi. unfold read_word_no_io.
  rewrite (bind_Some _ _ _ _ _ E1), (bind_Some _ _ _ _ _ E2), ret_eq.
  rewrite word_of_bytes by assumption. auto.
Qed.

Lemma write_word_total a v m :
  layout_ok = true -> images_ok = true -> wf m = true -> bytes_ok m = true ->
  0 <= a < 65536 ->
  exists m1 m2,
    write_byte a (u8 v) m = Some (tt, m1)
    /\ write_byte (u16 (a + 1)) (u8 (Z.shiftr v 8)) m1 = Some (tt, m2)
    /\ write_word a v m = Some (tt, m2)
    /\ wf m2 = true /\ bytes_ok m2 = true.
Proof.
  intros Hlay Himg Hwf Hby Ha.
  destruct (write_byte_total a (u8 v) m Hlay Himg Hwf Hby Ha)
    as (m1 & E1 & Hwf1 & Hby1).
  destruct (write_byte_total (u16 (a + 1)) (u8 (Z.shiftr v 8)) m1
              Hlay Himg Hwf1 Hby1 (u16_range _)) as (m2 & E2 & Hwf2 & Hby2).
  exists m1, m2. unfold write_word. rewrite (bind_Some _ _ _ _ _ E1). auto.
Qed.

Lemma write_word_no_io_total a v m :
  wf m = true -> bytes_ok m = true -> 0 <= a < 65536 ->
  let m2 := ram_set (ram_set m a (u8 v)) (u16 (a + 1)) (u8 (Z.shiftr v 8)) in
  write_word_no_io a v m = Some (tt, m2)
  /\ wf m2 = true /\ bytes_ok m2 = true.
Proof.
  intros Hwf Hby Ha m2.
  destruct (write_byte_no_io_total a (u8 v) m Hwf Hby Ha) as (E1 & Hwf1 & Hby1).
  destruct (write_byte_no_io_total (u16 (a + 1)) (u8 (Z.shiftr v 8)) _
              Hwf1 Hby1 (u16_range _)) as (E2 & Hwf2 & Hby2).
  unfold write_word_no_io. rewrite (bind_Some _ _ _ _ _ E1). auto.
Qed.

(** C8: on an object with the buffer sizes of the constructor, every
    byte and word accessor returns for every 16-bit address: no index
    leaves an array, every read yields a byte (a 16-bit value for a
    word), and the object keeps its sizes and its bytes. *)
Theorem accessors_total a v m :
  layout_ok = true -> images_ok = true -> wf m = true -> bytes_ok m = true ->
  is_u16 a = true ->
  (exists x w, read_byte a m = Some (x, with_chips m w) /\ is_u8 x = true)
  /\ (exists x, read_byte_no_io a m = Some (x, m) /\ is_u8 x = true)
  /\ (exists x w, read_word a m = Some (x, with_chips m w) /\ is_u16 x = true)
  /\ (exists x, read_word_no_io a m = Some (x, m) /\ is_u16 x = true)
  /\ (exists m', write_byte a v m = Some (tt, m')
                 /\ wf m' = true /\ bytes_ok m' = true)
  /\ (exists m', write_byte_no_io a v m = Some (tt, m')
                 /\ wf m' = true /\ bytes_ok m' = true)
  /\ (exists m', write_word a v m = Some (tt, m')
                 /\ wf m' = true /\ bytes_ok m' = true)
  /\ (exists m', write_word_no_io a v m = Some (tt, m')
                 /\ wf m' = true /\ bytes_ok m' = true).
Proof.
  intros Hlay Himg Hwf Hby Ha. apply is_u16_spec in Ha.
  pose proof (layout_ok_banks Hlay) as Hbk.
  repeat split.
  - destruct (read_byte_total a m Hbk Hwf Hby Ha) as (x & w & E & Hx).
    exists x, w. split; [exact E | now apply is_u8_spec].
  - destruct (read_byte_no_io_total a m Hwf Hby Ha) as (x & E & Hx & _).
    exists x. split; [exact E | now apply is_u8_spec].
  - destruct (read_word_total a m Hbk Hwf Hby Ha)
      as (lo & w1 & hi & w2 & _ & _ & E & Hlo & Hhi).
    eexists _, w2. split; [exact E|]. apply is_u16_spec.
    rewrite <- (word_of_bytes lo hi) by assumption. apply u16_range.
  - destruct (read_word_no_io_total a m Hwf Hby Ha)
      as (lo & hi & _ & _ & E & Hlo & Hhi).
    eexists. split; [exact E|]. apply is_u16_spec.
    rewrite <- (word_of_bytes lo hi) by assumption. apply u16_range.
  - now apply write_byte_total.
  - eexists. exact (write_byte_no_io_total a v m Hwf Hby Ha).
  - destruct (write_word_total a v m Hlay Himg Hwf Hby Ha)
      as (m1 & m2 & _ & _ & E & Hwf2 & Hby2). eauto.
  - eexists. exact (write_word_no_io_total a v m Hwf Hby Ha).
Qed.

(** C9: a word access at 0xFFFF makes its second byte access at 0x0000.
    [read_word] returns the byte read at 0xFFFF or-ed with the byte read
    at 0x0000 shifted left by eight; [write_word] writes the low byte of
    the value at 0xFFFF and then its high byte at 0x0000, and where these
    two writes are stores (the page of 0xFFFF is no chip's, 0x0000 lies
    in the zero page and is not the bank-configuration address) RAM
    holds the low byte at 0xFFFF and the high byte at 0x0000 afterwards
    and is unchanged elsewhere; the variants without I/O do the same on
    the RAM image. *)
Theorem word_access_wraps v m :
  layout_ok = true -> images_ok = true -> wf m = true -> bytes_ok m = true ->
  is_u16 v = true ->
  (exists lo w1 hi w2,
     read_byte 0xFFFF m = Some (lo, with_chips m w1)
     /\ read_byte 0x0000 (with_chips m w1) = Some (hi, with_chips m w2)
     /\ read_word 0xFFFF m = Some (Z.lor lo (Z.shiftl hi 8), with_chips m w2))
  /\ (exists m1 m2,
       write_byte 0xFFFF (Z.land v 0xFF) m = Some (tt, m1)
       /\ write_byte 0x0000 (Z.shiftr v 8) m1 = Some (tt, m2)
       /\ write_word 0xFFFF v m = Some (tt, m2)
       /\ (write_default 0xff00 = true -> kAddrZeroPage = 0 ->
           kAddrMemoryLayout <> 0 ->
           read_byte_no_io 0xFFFF m2 = Some (Z.land v 0xFF, m2)
           /\ read_byte_no_io 0x0000 m2 = Some (Z.shiftr v 8, m2)
           /\ (forall j, j <> 0xFFFF -> j <> 0x0000 ->
                 nth_Z (mem_ram_ m2) j = nth_Z (mem_ram_ m) j)
           /\ mem_rom_ m2 = mem_rom_ m /\ banks_ m2 = banks_ m
           /\ chips m2 = chips m))
  /\ (exists lo hi,
       read_byte_no_io 0xFFFF m = Some (lo, m)
       /\ read_byte_no_io 0x0000 m = Some (hi, m)
       /\ read_word_no_io 0xFFFF m = Some (Z.lor lo (Z.shiftl hi 8), m))
  /\ (exists m2,
       write_word_no_io 0xFFFF v m = Some (tt, m2)
       /\ read_byte_no_io 0xFFFF m2 = Some (Z.land v 0xFF, m2)
       /\ read_byte_no_io 0x0000 m2 = Some (Z.shiftr v 8, m2)
       /\ forall j, j <> 0xFFFF -> j <> 0x0000 ->
            nth_Z (mem_ram_ m2) j = nth_Z (mem_ram_ m) j).
Proof.
  intros Hlay Himg Hwf Hby Hv. apply is_u16_spec in Hv.
  pose proof (layout_ok_banks Hlay) as Hbk.
  assert (Hlo8 : u8 v = Z.land v 0xFF).
  { unfold u8. change 0xFF with (Z.ones 8). now rewrite Z.land_ones by lia. }
  assert (Hhi8 : u8 (Z.shiftr v 8) = Z.shiftr v 8).
  { apply u8_id. rewrite Z.shiftr_div_pow2 by lia. change (2 ^ 8) with 256.
    split; [apply Z.div_pos; lia | apply Z.div_lt_upper_bound; lia]. }
  assert (Hnext : u16 (0xFFFF + 1) = 0x0000) by reflexivity.
  assert (Hlo : 0 <= Z.land v 0xFF < 256).
  { rewrite <- Hlo8. apply u8_range. }
  assert (Hhi : 0 <= Z.shiftr v 8 < 256).
  { rewrite <- Hhi8. apply u8_range. }
  split; [|split; [|split]].
  - destruct (read_word_total 0xFFFF m Hbk Hwf Hby)
      as (lo & w1 & hi & w2 & E1 & E2 & E & _); [lia|].
    rewrite Hnext in E2. exists lo, w1, hi, w2. auto.
  - destruct (write_word_total 0xFFFF v m Hlay Himg Hwf Hby)
      as (m1 & m2 & E1 & E2 & E & _); [lia|].
    rewrite Hnext, Hhi8 in E2. rewrite Hlo8 in E1. exists m1, m2.
    split; [exact E1|]. split; [exact E2|]. split; [exact E|].
    intros Hdef Hzp Hnl.
    destruct (wf_reads m 0xFFFF Hwf Hbk ltac:(lia))
      as (cb & _ & _ & _ & _ & Hcb & _).
    pose proof Hwf as Hwf0. apply wf_spec in Hwf0 as (Hram & _).
    assert (S1 : write_byte 0xFFFF (Z.land v 0xFF) m
                 = Some (tt, ram_set m 0xFFFF (Z.land v 0xFF))).
    { rewrite (write_byte_eq 0xFFFF _ m cb Hcb) by lia. cbv zeta.
      change (Z.land 0xFFFF 0xff00) with 0xff00.
      destruct (write_default_spec _ Hdef) as (-> & -> & -> & -> & ->).
      reflexivity. }
    rewrite S1 in E1. injection E1 as <-.
    assert (S2 : write_byte 0x0000 (Z.shiftr v 8) (ram_set m 0xFFFF (Z.land v 0xFF))
                 = Some (tt, ram_set (ram_set m 0xFFFF (Z.land v 0xFF)) 0x0000
                                     (Z.shiftr v 8))).
    { rewrite (write_byte_eq 0x0000 (Z.shiftr v 8)
                 (ram_set m 0xFFFF (Z.land v 0xFF)) cb Hcb)
        by (cbn [ram_set mem_ram_]; rewrite length_insert; lia).
      cbv zeta. change (Z.land 0x0000 0xff00) with 0. rewrite Hzp.
      change (0 =? 0) with true. cbv iota.
      destruct (Z.eqb_spec 0 kAddrMemoryLayout) as [Heq|_]; [|reflexivity].
      exfalso. apply Hnl. now symmetry. }
    rewrite S2 in E2. injection E2 as <-.
    split; [|split; [|split; [|repeat split]]].
    + apply on_ram_load. cbn [ram_set mem_ram_].
      rewrite nth_Z_insert_ne, nth_Z_insert_eq by lia. now rewrite u8_id.
    + apply on_ram_load. cbn [ram_set mem_ram_].
      rewrite nth_Z_insert_eq by (rewrite length_insert; lia).
      now rewrite u8_id.
    + intros j H1 H2. cbn [ram_set mem_ram_].
      now rewrite !nth_Z_insert_ne by lia.
  - destruct (read_word_no_io_total 0xFFFF m Hwf Hby)
      as (lo & hi & E1 & E2 & E & _); [lia|].
    rewrite Hnext in E2. exists lo, hi.
    repeat split; trivial; now apply on_ram_load.
  - destruct (write_word_no_io_total 0xFFFF v m Hwf Hby) as (E & _); [lia|].
    rewrite Hnext, Hlo8, Hhi8 in E. eexists. split; [exact E|].
    apply wf_spec in Hwf as (Hram & _).
    repeat split.
    + apply on_ram_load. simpl.
      rewrite nth_Z_insert_ne, nth_Z_insert_eq by lia. now rewrite u8_id.
    + apply on_ram_load. simpl.
      rewrite nth_Z_insert_eq by (rewrite length_insert; lia).
      now rewrite u8_id.
    + intros j H1 H2. simpl. now rewrite !nth_Z_insert_ne by lia.
Qed.
End Totality.

(** ** The view of the video chip *)

Section VicView.
Context {L : MemoryH} {R : RomImages} {W : Type} {C : Chips W}.
Implicit Types (m : Memory W).

Lemma land_fff x : 0 <= Z.land x 0xfff < 4096.
Proof.
  change 0xfff with (Z.ones 12). rewrite Z.land_ones by lia.
  apply Z.mod_pos_bound. lia.
Qed.

Lemma vic_read_byte_total addr m :
  roms_fit = true -> wf m = true -> exists x, vic_read_byte addr m = Some (x, m).
Proof.
  intros Hfit Hwf. apply wf_spec in Hwf as (Hram & Hrom & _).
  unfold roms_fit, kMemSize in Hfit. to_prop Hfit.
  unfold vic_read_byte, vic_base_address. rewrite bind_eq.
  set (vic_addr := u16 (cia2_vic_base_address (chips m) + Z.land addr 0x3fff)).
  pose proof (u16_range (cia2_vic_base_address (chips m) + Z.land addr 0x3fff))
    as Hva. fold vic_addr in Hva.
  pose proof (land_fff vic_addr) as Hoff.
  destruct (nth_Z_Some (mem_rom_ m) (kBaseAddrChars + Z.land vic_addr 0xfff))
    as [xo Hxo]; [lia|].
  destruct (nth_Z_Some (mem_ram_ m) vic_addr) as [xa Hxa]; [lia|].
  destruct (((0x1000 <=? vic_addr) && (vic_addr <? 0x2000))
            || ((0x9000 <=? vic_addr) && (vic_addr <? 0xa000))).
  - exists xo. now apply on_rom_load.
  - exists xa. now apply on_ram_load.
Qed.

(** C6: [vic_read_byte] adds the base address the second CIA supplies to
    the low 14 bits of its argument; where the 16-bit sum lies in
    0x1000-0x1FFF or 0x9000-0x9FFF it returns the byte of the ROM image
    at the character ROM's base plus the low 12 bits of the sum, which
    is the byte of the character ROM table at that offset once
    [setup_memory_banks] has loaded it; elsewhere it returns the byte of
    the RAM image at the sum. Neither the object nor the chips change,
    and the content of [banks_] has no part in the result. *)
Theorem vic_read_byte_view addr m :
  roms_fit = true -> wf m = true ->
  let vic_addr := u16 (cia2_vic_base_address (chips m) + Z.land addr 0x3fff) in
  let chargen := (0x1000 <= vic_addr < 0x2000) \/ (0x9000 <= vic_addr < 0xa000) in
  exists x,
    vic_read_byte addr m = Some (x, m)
    /\ (chargen ->
        nth_Z (mem_rom_ m) (kBaseAddrChars + Z.land vic_addr 0xfff) = Some x)
    /\ (chargen -> images_ok = true -> chars_kept = true -> rom_loaded m ->
        Some x = u8 <$> nth_Z charRomC64 (Z.land vic_addr 0xfff))
    /\ (~ chargen -> nth_Z (mem_ram_ m) vic_addr = Some x)
    /\ (forall banks,
          vic_read_byte addr (mkMemory (mem_ram_ m) (mem_rom_ m) banks (chips m))
          = Some (x, mkMemory (mem_ram_ m) (mem_rom_ m) banks (chips m))).
Proof.
  intros Hfit Hwf vic_addr chargen.
  apply wf_spec in Hwf as (Hram & Hrom & _).
  pose proof Hfit as Hfit'. unfold roms_fit, kMemSize in Hfit'. to_prop Hfit'.
  pose proof (u16_range (cia2_vic_base_address (chips m) + Z.land addr 0x3fff))
    as Hva. fold vic_addr in Hva.
  pose proof (land_fff vic_addr) as Hoff.
  destruct (nth_Z_Some (mem_rom_ m) (kBaseAddrChars + Z.land vic_addr 0xfff))
    as [xo Hxo]; [lia|].
  destruct (nth_Z_Some (mem_ram_ m) vic_addr) as [xa Hxa]; [lia|].
  assert (Hrun : forall m', chips m' = chips m -> mem_ram_ m' = mem_ram_ m ->
            mem_rom_ m' = mem_rom_ m ->
            vic_read_byte addr m'
            = if ((0x1000 <=? vic_addr) && (vic_addr <? 0x2000))
                 || ((0x9000 <=? vic_addr) && (vic_addr <? 0xa000))
              then Some (xo, m') else Some (xa, m')).
  { intros m' Ec Ea Eo. unfold vic_read_byte, vic_base_address.
    rewrite bind_eq, Ec. fold vic_addr.
    destruct (((0x1000 <=? vic_addr) && (vic_addr <? 0x2000))
              || ((0x9000 <=? vic_addr) && (vic_addr <? 0xa000))).
    - apply on_rom_load. now rewrite Eo.
    - apply on_ram_load. now rewrite Ea. }
  destruct (((0x1000 <=? vic_addr) && (vic_addr <? 0x2000))
            || ((0x9000 <=? vic_addr) && (vic_addr <? 0xa000))) eqn:Ewin.
  - assert (Hin : chargen) by (unfold chargen; to_prop Ewin; lia).
    exists xo. rewrite (Hrun m) by reflexivity.
    repeat split; trivial.
    + intros _ Himg Hkept (r0 & Hr0 & Er0).
      destruct (setup_rom_overwrites Hfit Himg) as (g & Hg & Hchars).
      destruct (Hg r0 Hr0) as (r & Er & _ & Hnth).
      rewrite Er0 in Er. injection Er as <-.
      rewrite Hnth, (Hchars Hkept) in Hxo by lia.
      replace (kBaseAddrChars + Z.land vic_addr 0xfff - kBaseAddrChars)
        with (Z.land vic_addr 0xfff) in Hxo by lia.
      destruct (nth_Z_Some charRomC64 (Z.land vic_addr 0xfff)) as [c Hc].
      { unfold images_ok in Himg. to_prop Himg. lia. }
      rewrite Hc in *. simpl in *. congruence.
    + intros Hout. contradiction.
    + intros banks. now rewrite Hrun.
  - assert (Hout : ~ chargen) by (unfold chargen; to_prop Ewin; lia).
    exists xa. rewrite (Hrun m) by reflexivity.
    repeat split; trivial; try (intros Hin; contradiction).
    intros banks. now rewrite Hrun.
Qed.
End VicView.

(** ** The constructor and the RAM payload *)

Section Construction.
Context {L : MemoryH} {R : RomImages} {W : Type} {C : Chips W}.
Implicit Types (m : Memory W).

Lemma even_pattern i : (Z.shiftl (Z.shiftr i 1) 1 =? i) = Z.even i.
Proof.
  rewrite Z.shiftr_div_pow2, Z.shiftl_mul_pow2 by lia.
  change (2 ^ 1) with 2.
  destruct (Z.even i) eqn:E.
  - apply Z.even_spec in E as [k ->]. apply Z.eqb_eq.
    Z.div_mod_to_equations. lia.
  - rewrite <- Z.negb_odd in E. apply negb_false_iff, Z.odd_spec in E as [k ->].
    apply Z.eqb_neq. Z.div_mod_to_equations. lia.
Qed.

(** The object the constructor leaves: RAM holds 0x00 at even and 0xFF
    at odd addresses, apart from the data-direction byte and the latch
    byte. *)
Lemma Memory_ctor_spec b0 w :
  layout_ok = true -> images_ok = true ->
  Z.of_nat (length b0) = sizeof_banks_ ->
  exists m,
    Memory_ctor (fresh b0 w) = Some (tt, m)
    /\ wf m = true /\ bytes_ok m = true /\ rom_loaded m
    /\ forall j, 0 <= j < 65536 ->
         nth_Z (mem_ram_ m) j
         = Some (if j =? kAddrDataDirection then 0x2f
                 else if j =? kAddrMemoryLayout
                      then u8 (Z.lor (Z.lor kLORAM kHIRAM) kCHAREN)
                      else if Z.even j then 0x00 else 0xFF).
Proof.
  intros Hlay Himg Hb0.
  pose proof Hlay as Hlay'. unfold layout_ok in Hlay'.
  apply andb_true_iff in Hlay' as [Hlay' Hdd].
  apply andb_true_iff in Hlay' as [_ Hml].
  apply is_u16_spec in Hdd. apply is_u16_spec in Hml.
  set (h := fun i => u8 (if Z.shiftl (Z.shiftr i 1) 1 =? i then 0 else 0xFF)).
  unfold Memory_ctor, fresh, for_range.
  assert (Hzl : Z.of_nat (length (replicate (Z.to_nat kMemSize) 0)) = 65536).
  { rewrite length_replicate. unfold kMemSize. lia. }
  assert (Hzb : forallb is_u8 (replicate (Z.to_nat kMemSize) 0) = true).
  { apply forallb_forall. intros x Hx%list_elem_of_In%elem_of_replicate.
    now destruct Hx as [-> _]. }
  assert (Hn : Z.of_nat (Z.to_nat (kMemSize - 0)) = 65536)
    by (unfold kMemSize; lia).
  revert Hzl Hzb Hn.
  generalize (replicate (Z.to_nat kMemSize) 0), (Z.to_nat (kMemSize - 0)).
  intros zeros n Hzl Hzb Hn.
  destruct (overwrites_tabulate 65536 h n 0 ltac:(lia) ltac:(lia) zeros Hzl)
    as (ram1 & E1 & Hl1 & Hn1).
  set (m1 := mkMemory ram1 zeros b0 w).
  assert (Hwf1 : wf m1 = true) by (apply wf_spec; auto).
  assert (Hby1 : bytes_ok m1 = true).
  { apply bytes_ok_spec. split; [|exact Hzb].
    refine (keeps_bytes_for_loop _ _ _ _ _ _ _ _ Hzb E1).
    intros i acc. apply keeps_bytes_poke. }
  destruct (setup_memory_banks_spec (u8 (Z.lor (Z.lor kLORAM kHIRAM) kCHAREN))
              m1 Hlay Himg Hwf1) as (r & b & Er & _ & E2 & Hr & Hb & _).
  destruct (setup_memory_banks_total (u8 (Z.lor (Z.lor kLORAM kHIRAM) kCHAREN))
              m1 Hlay Himg Hwf1 Hby1) as (m2 & E2' & Hwf2 & Hby2).
  rewrite E2 in E2'. injection E2' as Em2.
  rewrite <- Em2 in Hwf2, Hby2. clear Em2 m2.
  set (m2 := mkMemory _ r b (chips m1)) in *.
  destruct (write_byte_no_io_total kAddrDataDirection 0x2f m2 Hwf2 Hby2 Hdd)
    as (E3 & Hwf3 & Hby3).
  exists (ram_set m2 kAddrDataDirection 0x2f).
  split; [|split; [exact Hwf3|split; [exact Hby3|split]]].
  - rewrite bind_eq. unfold on_ram at 1. cbn [mem_ram_ mem_rom_ banks_ chips].
    change (for_loop n 0 ()
              (fun i _ => poke i (if Z.shiftl (Z.shiftr i 1) 1 =? i then 0 else 255)))
      with (for_loop n 0 () (fun (i : Z) (_ : ()) => store i (h i))).
    rewrite E1. fold m1. rewrite bind_eq, E2. exact E3.
  - exists zeros. split; [exact Hzl | exact Er].
  - intros j Hj. unfold m2. cbn [ram_set mem_ram_ m1].
    destruct (Z.eqb_spec j kAddrDataDirection) as [->|Hne1].
    { rewrite nth_Z_insert_eq by (rewrite length_insert; lia). reflexivity. }
    rewrite nth_Z_insert_ne by lia.
    destruct (Z.eqb_spec j kAddrMemoryLayout) as [->|Hne2].
    { rewrite nth_Z_insert_eq by lia. unfold u8. now rewrite Z.mod_mod. }
    rewrite nth_Z_insert_ne by lia.
    rewrite Hn1 by lia.
    destruct (Z.leb_spec 0 j), (Z.ltb_spec j (0 + Z.of_nat n));
      cbn [andb]; try lia.
    unfold h. rewrite even_pattern. now destruct (Z.even j).
Qed.

(** C5, as the code has it: the program is not copied by the
    constructor but by [patch_ram], which [write_byte] runs when 255 is
    written to address 313. After that write the bytes of the program
    are read back from the load address on (wrapping at 16 bits, and
    apart from the two pointer bytes should the program cover them), and
    the pointer bytes 0x2D and 0x2E hold the low and the high byte of
    0x0801 plus the length of the program. *)
Theorem write_byte_trigger_injects m :
  layout_ok = true -> images_ok = true -> wf m = true ->
  write_default (Z.land 313 0xff00) = true ->
  forallb is_u8 paku_prg = true ->
  exists m',
    write_byte 313 255 m = Some (tt, m')
    /\ (forall k, 0 <= k < payload_length ->
          let j := u16 (payload_address + k) in
          j <> 0x2D -> j <> 0x2E ->
          exists x, nth_Z paku_prg (2 + k) = Some x
                    /\ read_byte_no_io j m' = Some (x, m'))
    /\ read_byte_no_io 0x2D m'
       = Some ((0x0801 + payload_length) mod 256, m')
    /\ read_byte_no_io 0x2E m'
       = Some ((0x0801 + payload_length) / 256 mod 256, m').
Proof.
  intros Hlay Himg Hwf Hdef Hbytes.
  pose proof (layout_ok_banks Hlay) as Hbk.
  destruct (wf_reads m 313 Hwf Hbk ltac:(lia)) as (cb & _ & _ & _ & _ & Hcb & _).
  apply wf_spec in Hwf as (Hram & Hrom & Hbanks).
  rewrite (write_byte_eq 313 255 m cb Hcb) by lia. cbv zeta.
  destruct (write_default_spec _ Hdef) as (-> & -> & -> & -> & ->).
  change ((313 =? 313) && (255 =? 255)) with true. cbv iota.
  destruct (patch_ram_overwrites Himg) as (g & Hg & H2D & H2E & Hprg & _).
  destruct (Hg (mem_ram_ (ram_set m 313 255))) as (b' & Eb & Hb' & Hnth).
  { cbn [ram_set mem_ram_]. now rewrite length_insert. }
  unfold on_ram. rewrite Eb. eexists. split; [reflexivity|].
  pose proof (u16_range paku_prg_size) as Hsz.
  unfold images_ok in Himg. to_prop Himg.
  split; [|split].
  - intros k Hk Hj1 Hj2. set (j := u16 (payload_address + k)) in *.
    unfold payload_length in Hk.
    assert (Hoff : u16 (j - payload_address) = k).
    { unfold j, u16. Z.div_mod_to_equations. lia. }
    destruct (nth_Z_Some paku_prg (2 + k)) as [x Hx]; [lia|].
    exists x. split; [exact Hx|]. apply on_ram_load. cbn [mem_ram_].
    pose proof (u16_range (payload_address + k)) as Hjr. fold j in Hjr.
    assert (Hcov : payload_covers j = true).
    { unfold payload_covers, payload_length. rewrite Hoff.
      apply Z.ltb_lt. lia. }
    rewrite Hnth by lia. rewrite (Hprg j Hj1 Hj2 Hcov).
    rewrite Hoff, Hx. cbn [fmap option_fmap option_map]. f_equal.
    apply u8_id, is_u8_spec. exact (forallb_nth_Z _ _ _ _ Hbytes Hx).
  - apply on_ram_load. cbn [mem_ram_]. rewrite Hnth, H2D by lia.
    f_equal. unfold u8, payload_length.
    change 0xFF with (Z.ones 8). rewrite Z.land_ones by lia.
    change (2 ^ 8) with 256. rewrite Z.mod_mod by lia. f_equal. lia.
  - apply on_ram_load. cbn [mem_ram_]. rewrite Hnth, H2E by lia.
    f_equal. unfold u8, payload_length.
    rewrite Z.shiftr_div_pow2 by lia. change (2 ^ 8) with 256.
    f_equal. f_equal. lia.
Qed.
End Construction.

(** ** The objects a program can hold *)

Section ReachableObjects.
Context {L : MemoryH} {R : RomImages} {W : Type} {C : Chips W}.
Implicit Types (m : Memory W).

(** Every call returns on an object of the right sizes that holds bytes
    and a loaded ROM image, and leaves such an object. *)
Lemma perform_invariant x m :
  layout_ok = true -> images_ok = true -> typed x = true ->
  wf m = true -> bytes_ok m = true -> rom_loaded m ->
  exists m', perform x m = Some (tt, m')
             /\ wf m' = true /\ bytes_ok m' = true /\ rom_loaded m'.
Proof.
  intros Hlay Himg Hx Hwf Hby Hrl.
  pose proof (layout_ok_banks Hlay) as Hbk.
  assert (Hfit : roms_fit = true).
  { unfold layout_ok in Hlay. rewrite !andb_true_iff in Hlay. tauto. }
  assert (Hself : exists m', Some (tt, m) = Some (tt, m')
                    /\ wf m' = true /\ bytes_ok m' = true /\ rom_loaded m')
    by eauto.
  assert (Hchips : forall w, exists m', Some (tt, with_chips m w) = Some (tt, m')
                    /\ wf m' = true /\ bytes_ok m' = true /\ rom_loaded m').
  { intros w. exists (with_chips m w). auto. }
  destruct x as [a|a v|a|a v|a|a v|a|a v|a]; simpl in Hx;
    apply is_u16_spec in Hx; unfold perform.
  - destruct (read_byte_total a m Hbk Hwf Hby Hx) as (x & w & E & _).
    rewrite (bind_Some _ _ _ _ _ E). apply Hchips.
  - destruct (write_byte_total a v m Hlay Himg Hwf Hby Hx) as (m' & E & ? & ?).
    exists m'. repeat split; trivial.
    exact (write_byte_rom_loaded a v m m' Hlay Himg Hwf Hx Hrl E).
  - destruct (read_byte_no_io_total a m Hwf Hby Hx) as (x & E & _).
    rewrite (bind_Some _ _ _ _ _ E). apply Hself.
  - destruct (write_byte_no_io_total a v m Hwf Hby Hx) as (E & ? & ?).
    eexists. split; [exact E|]. repeat split; trivial.
  - destruct (read_word_total a m Hbk Hwf Hby Hx)
      as (lo & w1 & hi & w2 & _ & _ & E & _).
    rewrite (bind_Some _ _ _ _ _ E). apply Hchips.
  - destruct (write_word_total a v m Hlay Himg Hwf Hby Hx)
      as (m1 & m2 & E1 & E2 & E & ? & ?).
    exists m2. repeat split; trivial.
    destruct (write_byte_total a (u8 v) m Hlay Himg Hwf Hby Hx)
      as (m1' & E1' & Hwf1 & _).
    rewrite E1 in E1'. injection E1' as <-.
    pose proof (write_byte_rom_loaded _ _ _ _ Hlay Himg Hwf Hx Hrl E1) as Hrl1.
    exact (write_byte_rom_loaded _ _ _ _ Hlay Himg Hwf1 (u16_range _) Hrl1 E2).
  - destruct (read_word_no_io_total a m Hwf Hby Hx) as (lo & hi & _ & _ & E & _).
    rewrite (bind_Some _ _ _ _ _ E). apply Hself.
  - destruct (write_word_no_io_total a v m Hwf Hby Hx) as (E & ? & ?).
    eexists. split; [exact E|]. repeat split; trivial.
  - destruct (vic_read_byte_total a m Hfit Hwf) as (x & E).
    rewrite (bind_Some _ _ _ _ _ E). apply Hself.
Qed.

(** The hypotheses of the theorems on an object are met by every object
    a program can hold. *)
Lemma reachable_invariant b0 w0 m :
  layout_ok = true -> images_ok = true ->
  Z.of_nat (length b0) = sizeof_banks_ ->
  reachable b0 w0 m ->
  wf m = true /\ bytes_ok m = true /\ rom_loaded m.
Proof.
  intros Hlay Himg Hb0 Hreach.
  induction Hreach as [m E|m x m' _ IH Hx E|m w _ IH].
  - destruct (Memory_ctor_spec b0 w0 Hlay Himg Hb0) as (m1 & E1 & ? & ? & ? & _).
    rewrite E in E1. injection E1 as <-. auto.
  - destruct IH as (Hwf & Hby & Hrl).
    destruct (perform_invariant x m Hlay Himg Hx Hwf Hby Hrl)
      as (m1 & E1 & ? & ? & ?).
    rewrite E in E1. injection E1 as <-. auto.
  - destruct IH as (Hwf & Hby & Hrl). auto.
Qed.
End ReachableObjects.

(** ** The Commodore 64 memory map *)

Section C64Map.
#[local] Existing Instance c64_layout.
Context {W : Type} {C : Chips W}.
Implicit Types (m : Memory W).

(** On the C64 map [read_byte] takes its default branch below 0xA000, in
    0xC000-0xCFFF, in 0xD400-0xDBFF and in 0xDE00-0xDFFF. *)
Lemma c64_read_default a :
  0 <= a < 0xA000 \/ 0xC000 <= a < 0xD000 \/ 0xD400 <= a < 0xDC00
  \/ 0xDE00 <= a < 0xE000 ->
  read_default (Z.land a 0xff00) = true.
Proof.
  intros Ha. rewrite page_of by lia.
  unfold read_default, vic_window, basic_window, kernal_window.
  cbv [c64_layout kAddrVicFirstPage kAddrVicLastPage kAddrCIA1Page
       kAddrCIA2Page kAddrBasicFirstPage kAddrBasicLastPage
       kAddrKernalFirstPage kAddrKernalLastPage].
  rewrite !andb_true_iff, !negb_true_iff, !andb_false_iff, !Z.leb_gt, !Z.eqb_neq.
  Z.div_mod_to_equations. lia.
Qed.

(** On the C64 map the video window is 0xD000-0xD3FF. *)
Lemma c64_vic_window a :
  0xD000 <= a <= 0xD3FF -> vic_window (Z.land a 0xff00) = true.
Proof.
  intros Ha. rewrite page_of by lia. unfold vic_window.
  cbv [c64_layout kAddrVicFirstPage kAddrVicLastPage].
  rewrite andb_true_iff, !Z.leb_le. Z.div_mod_to_equations. lia.
Qed.

(** On the C64 map, over the whole sound page 0xD400-0xD4FF, for every
    object and whatever the CHAREN slot holds, [read_byte] returns the RAM
    byte and leaves the chips alone. *)
Lemma c64_sound_page_reads_ram a m ra :
  wf m = true -> 0xD400 <= a <= 0xD4FF ->
  nth_Z (mem_ram_ m) a = Some ra -> read_byte a m = Some (ra, m).
Proof.
  intros Hwf Ha Hra.
  apply read_byte_default; trivial; [lia|]. apply c64_read_default. lia.
Qed.

(** On the C64 map, with the CHAREN slot on [kROM], the ROM image is read
    in 0xD000-0xD3FF and the RAM image in 0xD400-0xDFFF. *)
Lemma c64_charen_rom_reads a m ra ro :
  wf m = true -> nth_Z (banks_ m) kBankCharen = Some kROM ->
  nth_Z (mem_ram_ m) a = Some ra -> nth_Z (mem_rom_ m) a = Some ro ->
  (0xD000 <= a <= 0xD3FF -> read_byte a m = Some (ro, m))
  /\ (0xD400 <= a <= 0xDFFF -> read_byte a m = Some (ra, m)).
Proof.
  intros Hwf Hrom Hra Hro.
  assert (Hcases : 0xD000 <= a <= 0xDFFF ->
            read_byte a m
            = if vic_window (Z.land a 0xff00) then Some (ro, m) else Some (ra, m)).
  { intros Ha.
    destruct (wf_reads m a Hwf eq_refl ltac:(lia))
      as (cb & bb & kb & _ & _ & Hcb & Hbb & Hkb & _).
    assert (cb = kROM) as -> by congruence.
    rewrite (read_byte_eq a m kROM bb kb ra ro) by assumption. cbv zeta.
    destruct (vic_window (Z.land a 0xff00)); [reflexivity|].
    assert (Hb : basic_window (Z.land a 0xff00) = false).
    { rewrite page_of by lia. unfold basic_window.
      cbv [c64_layout kAddrBasicFirstPage kAddrBasicLastPage].
      rewrite andb_false_iff, !Z.leb_gt. Z.div_mod_to_equations. lia. }
    assert (Hk : kernal_window (Z.land a 0xff00) = false).
    { rewrite page_of by lia. unfold kernal_window.
      cbv [c64_layout kAddrKernalFirstPage kAddrKernalLastPage].
      rewrite andb_false_iff, !Z.leb_gt. Z.div_mod_to_equations. lia. }
    rewrite Hb, Hk.
    now destruct (Z.land a 0xff00 =? kAddrCIA1Page),
      (Z.land a 0xff00 =? kAddrCIA2Page). }
  split; intros Ha.
  - rewrite Hcases, c64_vic_window by lia. reflexivity.
  - rewrite Hcases by lia.
    assert (Hv : vic_window (Z.land a 0xff00) = false).
    { rewrite page_of by lia. unfold vic_window.
      cbv [c64_layout kAddrVicFirstPage kAddrVicLastPage].
      rewrite andb_false_iff, !Z.leb_gt. Z.div_mod_to_equations. lia. }
    now rewrite Hv.
Qed.
End C64Map.

(** ** Examples *)

Section C64.
#[local] Existing Instance c64_layout.
#[local] Existing Instance demo_images.
#[local] Existing Instance logging_chips.

(** C5, as stated: the constructor returns, and the object it leaves
    fails the test of the RAM payload. With the three-byte program that
    loads at 0x0801, address 0x0801 still holds the 0xFF of the power-on
    pattern and the pointer bytes hold 0xFF and 0x00 instead of 0x04 and
    0x08. *)
Lemma Memory_ctor_leaves_payload_out :
  exists m,
    Memory_ctor (fresh (replicate 7 kROM) ([] : list io_event)) = Some (tt, m)
    /\ read_byte_no_io 0x0801 m = Some (0xFF, m)
    /\ read_byte_no_io 0x2D m = Some (0xFF, m)
    /\ read_byte_no_io 0x2E m = Some (0x00, m)
    /\ ~ payload_injected m.
Proof.
  destruct (Memory_ctor_spec (replicate 7 kROM) ([] : list io_event))
    as (m & E & _ & _ & _ & Hram); [vm_compute; reflexivity..|].
  exists m. split; [exact E|].
  assert (H0801 : read_byte_no_io 0x0801 m = Some (0xFF, m)).
  { apply on_ram_load. now rewrite Hram by lia. }
  assert (H2D : read_byte_no_io 0x2D m = Some (0xFF, m)).
  { apply on_ram_load. now rewrite Hram by lia. }
  assert (H2E : read_byte_no_io 0x2E m = Some (0x00, m)).
  { apply on_ram_load. now rewrite Hram by lia. }
  repeat split; trivial.
  intros (_ & Hlo & _). rewrite H2D in Hlo. discriminate Hlo.
Qed.

(** C4 at an address of the sound page, with the CHAREN slot on [kIO]:
    [read_byte] returns the RAM byte and no chip is called, where the
    sound chip's [read_register] would have answered 0x1D; [write_byte]
    at the same address does call the sound chip. *)
Theorem read_byte_sound_page_not_forwarded :
  let m := flat_memory 0xAA 0x00 kIO in
  read_byte 0xD400 m = Some (0xAA, m)
  /\ chip_read (sid_read_register (Z.land 0xD400 0xff)) m
     = Some (0x1D, with_chips m [RegRead SID 0])
  /\ write_byte 0xD400 0x0F m = Some (tt, with_chips m [RegWrite SID 0 0x0F]).
Proof.
  intros m. split; [|split].
  - apply (read_byte_default 0xD400 m 0xAA);
      first [lia | vm_compute; reflexivity].
  - reflexivity.
  - destruct (chip_windows_forwarded 0xD400 0x0F m) as (_ & _ & _ & Hsid);
      [vm_compute; reflexivity | vm_compute; reflexivity | lia
      | vm_compute; reflexivity |].
    apply Hsid; vm_compute; congruence.
Qed.

(** The latch value 5 (LORAM and CHAREN) on an object with all slots on
    [kROM]. *)
Lemma setup_memory_banks_rule_table_witness :
  exists m',
    setup_memory_banks 5 (flat_memory 0 0 kROM) = Some (tt, m')
    /\ nth_Z (banks_ m') kBankKernal = Some kRAM
    /\ nth_Z (banks_ m') kBankBasic = Some kRAM
    /\ nth_Z (banks_ m') kBankCharen = Some kIO.
Proof.
  refine (setup_memory_banks_rule_table 5 (flat_memory 0 0 kROM) _ _ _);
    vm_compute; reflexivity.
Defined.

(** The write of 255 at 313, which runs [patch_ram]. *)
Lemma write_byte_read_back_witness :
  exists m',
    write_byte 313 255 (flat_memory 0 0 kIO) = Some (tt, m')
    /\ read_byte_no_io 313 m' = Some (255, m').
Proof.
  refine (write_byte_read_back 313 255 (flat_memory 0 0 kIO) _ _ _ _ _ _ _ _);
    first [ vm_compute; reflexivity
          | vm_compute; congruence
          | intros _ _; vm_compute; reflexivity ].
Defined.

(** The latch value 6 (HIRAM and CHAREN) written through [write_byte]. *)
Lemma write_byte_latch_witness :
  exists m',
    write_byte kAddrMemoryLayout 6 (flat_memory 0 0 kRAM) = Some (tt, m')
    /\ setup_memory_banks 6 (flat_memory 0 0 kRAM) = Some (tt, m')
    /\ read_byte kAddrMemoryLayout m' = Some (6, m')
    /\ read_byte_no_io kAddrMemoryLayout m' = Some (6, m')
    /\ nth_Z (banks_ m') kBankKernal = Some kROM
    /\ nth_Z (banks_ m') kBankBasic = Some kRAM
    /\ nth_Z (banks_ m') kBankCharen = Some kIO.
Proof.
  refine (write_byte_latch 6 (flat_memory 0 0 kRAM) _ _ _ _ _ _);
    vm_compute; reflexivity.
Defined.

Lemma write_byte_trigger_injects_witness :
  exists m',
    write_byte 313 255 (flat_memory 0 0 kRAM) = Some (tt, m')
    /\ (forall k, 0 <= k < payload_length ->
          let j := u16 (payload_address + k) in
          j <> 0x2D -> j <> 0x2E ->
          exists x, nth_Z paku_prg (2 + k) = Some x
                    /\ read_byte_no_io j m' = Some (x, m'))
    /\ read_byte_no_io 0x2D m' = Some ((0x0801 + payload_length) mod 256, m')
    /\ read_byte_no_io 0x2E m'
       = Some ((0x0801 + payload_length) / 256 mod 256, m').
Proof.
  refine (write_byte_trigger_injects (flat_memory 0 0 kRAM) _ _ _ _ _);
    vm_compute; reflexivity.
Defined.

(** The relative address 0x1234 with base address 0 lies in the first
    character window. *)
Lemma vic_read_byte_view_witness :
  let m := flat_memory 0xAA 0x55 kIO in
  let vic_addr := u16 (cia2_vic_base_address (chips m) + Z.land 0x1234 0x3fff) in
  let chargen := (0x1000 <= vic_addr < 0x2000) \/ (0x9000 <= vic_addr < 0xa000) in
  exists x,
    vic_read_byte 0x1234 m = Some (x, m)
    /\ (chargen ->
        nth_Z (mem_rom_ m) (kBaseAddrChars + Z.land vic_addr 0xfff) = Some x)
    /\ (chargen -> images_ok = true -> chars_kept = true -> rom_loaded m ->
        Some x = u8 <$> nth_Z charRomC64 (Z.land vic_addr 0xfff))
    /\ (~ chargen -> nth_Z (mem_ram_ m) vic_addr = Some x)
    /\ (forall banks,
          vic_read_byte 0x1234 (mkMemory (mem_ram_ m) (mem_rom_ m) banks (chips m))
          = Some (x, mkMemory (mem_ram_ m) (mem_rom_ m) banks (chips m))).
Proof.
  refine (vic_read_byte_view 0x1234 (flat_memory 0xAA 0x55 kIO) _ _);
    vm_compute; reflexivity.
Defined.

(** The value 5 (LORAM and CHAREN) on an object whose slots all hold
    [kROM]: KERNAL and BASIC become RAM, the CHAREN slot I/O. *)
Lemma setup_memory_banks_idempotent_witness :
  exists m',
    setup_memory_banks 5 (flat_memory 0 0 kROM) = Some (tt, m')
    /\ setup_memory_banks 5 m' = Some (tt, m')
    /\ nth_Z (banks_ m') kBankKernal = Some kRAM
    /\ nth_Z (banks_ m') kBankBasic = Some kRAM
    /\ nth_Z (banks_ m') kBankCharen = Some kIO
    /\ (forall j, 0 <= j < sizeof_banks_ ->
          nth_Z (banks_ m') j = Some (banks_after 5 j))
    /\ (forall m2 : Memory (list io_event), wf m2 = true ->
          exists m2', setup_memory_banks 5 m2 = Some (tt, m2')
                      /\ banks_ m2' = banks_ m')
    /\ mem_ram_ m'
       = <[Z.to_nat kAddrMemoryLayout := u8 5]> (mem_ram_ (flat_memory 0 0 kROM))
    /\ rom_loaded m'
    /\ chips m' = chips (flat_memory 0 0 kROM).
Proof.
  refine (setup_memory_banks_idempotent 5 (flat_memory 0 0 kROM) _ _ _);
    vm_compute; reflexivity.
Defined.

Lemma accessors_total_witness :
  let m := flat_memory 0xAA 0x55 kIO in
  (exists x w, read_byte 0xD400 m = Some (x, with_chips m w) /\ is_u8 x = true)
  /\ (exists x, read_byte_no_io 0xD400 m = Some (x, m) /\ is_u8 x = true)
  /\ (exists x w, read_word 0xD400 m = Some (x, with_chips m w) /\ is_u16 x = true)
  /\ (exists x, read_word_no_io 0xD400 m = Some (x, m) /\ is_u16 x = true)
  /\ (exists m', write_byte 0xD400 0x0F m = Some (tt, m')
                 /\ wf m' = true /\ bytes_ok m' = true)
  /\ (exists m', write_byte_no_io 0xD400 0x0F m = Some (tt, m')
                 /\ wf m' = true /\ bytes_ok m' = true)
  /\ (exists m', write_word 0xD400 0x0F m = Some (tt, m')
                 /\ wf m' = true /\ bytes_ok m' = true)
  /\ (exists m', write_word_no_io 0xD400 0x0F m = Some (tt, m')
                 /\ wf m' = true /\ bytes_ok m' = true).
Proof.
  refine (accessors_total 0xD400 0x0F (flat_memory 0xAA 0x55 kIO) _ _ _ _ _);
    vm_compute; reflexivity.
Defined.

(** On the C64 map the two writes of [write_word 0xFFFF] are stores: the
    page 0xFF00 is no chip's, the zero page is at 0 and the
    bank-configuration address is 1. *)
Lemma word_access_wraps_witness :
  (write_default 0xff00 = true /\ kAddrZeroPage = 0 /\ kAddrMemoryLayout <> 0)
  /\
  let m := flat_memory 0xAA 0x55 kRAM in
  let v := 0x1234 in
  (exists lo w1 hi w2,
     read_byte 0xFFFF m = Some (lo, with_chips m w1)
     /\ read_byte 0x0000 (with_chips m w1) = Some (hi, with_chips m w2)
     /\ read_word 0xFFFF m = Some (Z.lor lo (Z.shiftl hi 8), with_chips m w2))
  /\ (exists m1 m2,
       write_byte 0xFFFF (Z.land v 0xFF) m = Some (tt, m1)
       /\ write_byte 0x0000 (Z.shiftr v 8) m1 = Some (tt, m2)
       /\ write_word 0xFFFF v m = Some (tt, m2)
       /\ (write_default 0xff00 = true -> kAddrZeroPage = 0 ->
           kAddrMemoryLayout <> 0 ->
           read_byte_no_io 0xFFFF m2 = Some (Z.land v 0xFF, m2)
           /\ read_byte_no_io 0x0000 m2 = Some (Z.shiftr v 8, m2)
           /\ (forall j, j <> 0xFFFF -> j <> 0x0000 ->
                 nth_Z (mem_ram_ m2) j = nth_Z (mem_ram_ m) j)
           /\ mem_rom_ m2 = mem_rom_ m /\ banks_ m2 = banks_ m
           /\ chips m2 = chips m))
  /\ (exists lo hi,
       read_byte_no_io 0xFFFF m = Some (lo, m)
       /\ read_byte_no_io 0x0000 m = Some (hi, m)
       /\ read_word_no_io 0xFFFF m = Some (Z.lor lo (Z.shiftl hi 8), m))
  /\ (exists m2,
       write_word_no_io 0xFFFF v m = Some (tt, m2)
       /\ read_byte_no_io 0xFFFF m2 = Some (Z.land v 0xFF, m2)
       /\ read_byte_no_io 0x0000 m2 = Some (Z.shiftr v 8, m2)
       /\ forall j, j <> 0xFFFF -> j <> 0x0000 ->
            nth_Z (mem_ram_ m2) j = nth_Z (mem_ram_ m) j).
Proof.
  split; [vm_compute; split; [reflexivity|split; [reflexivity|discriminate]]|].
  refine (word_access_wraps 0x1234 (flat_memory 0xAA 0x55 kRAM) _ _ _ _ _);
    vm_compute; reflexivity.
Defined.

(** An address of the sound page and the CHAREN slot on [kROM]. *)
Lemma read_byte_charen_rom_witness :
  let m := flat_memory 0xAA 0x55 kROM in
  let page := Z.land 0xD400 0xff00 in
  (vic_window page = true -> read_byte 0xD400 m = Some (0x55, m))
  /\ (vic_window page = false ->
      page = kAddrCIA1Page \/ page = kAddrCIA2Page
      \/ (basic_window page = false /\ kernal_window page = false) ->
      read_byte 0xD400 m = Some (0xAA, m)).
Proof.
  refine (read_byte_charen_rom 0xD400 (flat_memory 0xAA 0x55 kROM) 0xAA 0x55
            _ _ _ _ _ _);
    vm_compute; reflexivity.
Defined.
End C64.

(** * Further properties *)

(** ** The ROM patches *)

(** [patch_roms] stores exactly the bytes of [patch_table]. *)
Lemma patch_roms_writes :
  overwrites 65536 patch_roms tt (fun j => assoc_Z j patch_table).
Proof.
  eapply overwrites_ext.
  2:{ unfold patch_roms. cbv zeta.
      repeat (eapply overwrites_bind;
        [first [ apply overwrites_poke; lia
               | apply overwrites_poke_inc; first [lia | apply u16_range] ]|]).
      apply overwrites_ret. }
  intros j Hj. unfold over, patch_table. cbn [assoc_Z].
  repeat match goal with
    | |- context [j =? ?c] =>
        let c' := eval vm_compute in c in
        change c with c';
        destruct (Z.eqb_spec j c') as [->|?];
          [first [congruence | vm_compute; reflexivity]|]
    end.
  reflexivity.
Qed.

Lemma patch_table_range j p :
  assoc_Z j patch_table = Some p -> 0xEBAE <= j <= 0xF60B /\ 0 <= p < 256.
Proof.
  unfold patch_table. cbn [assoc_Z].
  repeat match goal with
    | |- context [j =? ?c] =>
        let c' := eval vm_compute in c in
        change c with c';
        destruct (Z.eqb_spec j c') as [->|?]; [intros [= <-]; lia|]
    end.
  discriminate.
Qed.

(** X2: on a buffer of 65536 bytes [patch_roms] returns; afterwards each
    address of [patch_table] holds its byte, every other byte of the
    buffer is as before, and a second run changes nothing. *)
Theorem patch_roms_exact (b : list Z) :
  Z.of_nat (length b) = 65536 ->
  exists b',
    patch_roms b = Some (tt, b')
    /\ Z.of_nat (length b') = 65536
    /\ (forall j p, assoc_Z j patch_table = Some p -> nth_Z b' j = Some p)
    /\ (forall j, assoc_Z j patch_table = None -> nth_Z b' j = nth_Z b j)
    /\ patch_roms b' = Some (tt, b').
Proof.
  intros Hb. destruct (patch_roms_writes b Hb) as (b' & E & Hb' & Hnth).
  exists b'. repeat split; trivial.
  - intros j p Hp. destruct (patch_table_range j p Hp) as [Hj _].
    rewrite Hnth, Hp by lia. reflexivity.
  - intros j Hj.
    destruct (Z.leb_spec 0 j) as [H0|H0];
      [destruct (Z.ltb_spec j 65536) as [H1|H1]|].
    + rewrite Hnth, Hj by lia. reflexivity.
    + unfold nth_Z. destruct (0 <=? j); trivial.
      rewrite !lookup_ge_None_2 by lia. reflexivity.
    + unfold nth_Z. destruct (Z.leb_spec 0 j); [lia | reflexivity].
  - exact (overwrites_idem _ _ _ _ _ _ patch_roms_writes Hb E).
Qed.

(** ** The ROM image behind [read_byte] *)

Section RomImage.
Context {L : MemoryH} {R : RomImages} {W : Type} {C : Chips W}.
Implicit Types (m : Memory W).

Lemma byte_at_fmap t i :
  0 <= i < Z.of_nat (length t) -> u8 <$> nth_Z t i = Some (u8 (byte_at t i)).
Proof.
  intros Hi. destruct (nth_Z_Some t i Hi) as [x Hx].
  now rewrite (byte_at_nth_Z _ _ _ Hx), Hx.
Qed.

(** What [setup_memory_banks] leaves in the KERNAL and BASIC areas of
    [mem_rom_]. *)
Lemma setup_rom_image :
  roms_fit = true -> images_ok = true ->
  exists g, overwrites 65536 setup_rom tt g
    /\ (forall j, kBaseAddrKernal <= j < kBaseAddrKernal + 8192 ->
          g j = Some (match assoc_Z j patch_table with
                      | Some p => p
                      | None => u8 (byte_at kernalRomC64 (j - kBaseAddrKernal))
                      end))
    /\ (basic_kept = true ->
        forall j, kBaseAddrBasic <= j < kBaseAddrBasic + 8192 ->
          g j = Some (u8 (byte_at basicRomC64 (j - kBaseAddrBasic)))).
Proof.
  intros Hfit Himg. unfold roms_fit, kMemSize in Hfit. to_prop Hfit.
  unfold images_ok in Himg. to_prop Himg.
  eexists. split; [|split].
  - unfold setup_rom, for_range.
    eapply overwrites_bind;
      [apply (overwrites_copy 65536 basicRomC64 _ kBaseAddrBasic);
         [reflexivity|lia..]|].
    eapply overwrites_bind;
      [apply (overwrites_copy 65536 charRomC64 _ kBaseAddrChars);
         [reflexivity|lia..]|].
    eapply overwrites_bind;
      [apply (overwrites_copy 65536 kernalRomC64 _ kBaseAddrKernal);
         [reflexivity|lia..]|].
    exact patch_roms_writes.
  - intros j Hj. unfold over.
    destruct (assoc_Z j patch_table); [reflexivity|].
    destruct (Z.leb_spec (kBaseAddrKernal + 0) j),
      (Z.ltb_spec j (kBaseAddrKernal + 0 + Z.of_nat (Z.to_nat (8192 - 0))));
      cbn [andb]; try lia.
    rewrite byte_at_fmap by lia. reflexivity.
  - intros Hkept j Hj. unfold basic_kept in Hkept. to_prop Hkept. unfold over.
    destruct (assoc_Z j patch_table) as [p|] eqn:Ep.
    { apply patch_table_range in Ep. lia. }
    destruct (Z.leb_spec (kBaseAddrKernal + 0) j),
      (Z.ltb_spec j (kBaseAddrKernal + 0 + Z.of_nat (Z.to_nat (8192 - 0))));
      cbn [andb]; try lia;
      destruct (Z.leb_spec (kBaseAddrChars + 0) j),
        (Z.ltb_spec j (kBaseAddrChars + 0 + Z.of_nat (Z.to_nat (4096 - 0))));
      cbn [andb]; try lia;
      destruct (Z.leb_spec (kBaseAddrBasic + 0) j),
        (Z.ltb_spec j (kBaseAddrBasic + 0 + Z.of_nat (Z.to_nat (8192 - 0))));
      cbn [andb]; try lia;
      rewrite byte_at_fmap by lia; reflexivity.
Qed.

(** The object [setup_memory_banks] leaves, with the content of its ROM
    image. *)
Lemma setup_memory_banks_rom v m :
  layout_ok = true -> images_ok = true -> wf m = true ->
  exists m',
    setup_memory_banks v m = Some (tt, m')
    /\ wf m' = true
    /\ (forall j, 0 <= j < sizeof_banks_ ->
          nth_Z (banks_ m') j = Some (banks_after v j))
    /\ (forall j, kBaseAddrKernal <= j < kBaseAddrKernal + 8192 ->
          nth_Z (mem_rom_ m') j
          = Some (match assoc_Z j patch_table with
                  | Some p => p
                  | None => u8 (byte_at kernalRomC64 (j - kBaseAddrKernal))
                  end))
    /\ (basic_kept = true ->
        forall j, kBaseAddrBasic <= j < kBaseAddrBasic + 8192 ->
          nth_Z (mem_rom_ m') j
          = Some (u8 (byte_at basicRomC64 (j - kBaseAddrBasic))))
    /\ (forall j, j <> kAddrMemoryLayout ->
          nth_Z (mem_ram_ m') j = nth_Z (mem_ram_ m) j)
    /\ chips m' = chips m.
Proof.
  intros Hlay Himg Hwf.
  destruct (setup_memory_banks_spec v m Hlay Himg Hwf)
    as (r & b & Er & _ & Em & Hr & Hbl & Hb).
  assert (Hfit : roms_fit = true).
  { unfold layout_ok in Hlay. rewrite !andb_true_iff in Hlay. tauto. }
  assert (Hml : 0 <= kAddrMemoryLayout < 65536).
  { unfold layout_ok in Hlay. to_prop Hlay. lia. }
  pose proof Hfit as Hfit'. unfold roms_fit, kMemSize in Hfit'. to_prop Hfit'.
  destruct (setup_rom_image Hfit Himg) as (g & Hg & HgK & HgB).
  apply wf_spec in Hwf as (Hram & Hrom & Hbanks).
  destruct (Hg _ Hrom) as (r' & Er' & _ & Hnth).
  rewrite Er in Er'. injection Er' as <-.
  eexists. split; [exact Em|]. cbn [mem_ram_ mem_rom_ banks_ chips].
  repeat split; trivial.
  - apply wf_spec. cbn [mem_ram_ mem_rom_ banks_]. rewrite length_insert. auto.
  - intros j Hj. rewrite Hnth, HgK by lia. reflexivity.
  - intros Hkept j Hj. rewrite Hnth, (HgB Hkept) by lia. reflexivity.
  - intros j Hj. apply nth_Z_insert_ne; lia.
Qed.
End RomImage.

(** ** Bank configurations *)

Section Configurations.
Context {L : MemoryH} {R : RomImages} {W : Type} {C : Chips W}.
Implicit Types (m : Memory W).

(** X6: once [setup_memory_banks] has run with the HIRAM bit set, a read
    through [read_byte] in the KERNAL area (a page of the KERNAL window
    that no earlier test of [read_byte] claims) returns the byte of
    [patch_roms] at a patched address and the byte of the KERNAL table
    elsewhere, whatever RAM holds. *)
Theorem read_byte_kernal_rom v a m :
  layout_ok = true -> images_ok = true -> wf m = true ->
  bit_set v kHIRAM = true ->
  kBaseAddrKernal <= a < kBaseAddrKernal + 8192 ->
  vic_window (Z.land a 0xff00) = false ->
  (Z.land a 0xff00 =? kAddrCIA1Page) = false ->
  (Z.land a 0xff00 =? kAddrCIA2Page) = false ->
  basic_window (Z.land a 0xff00) = false ->
  kernal_window (Z.land a 0xff00) = true ->
  exists m',
    setup_memory_banks v m = Some (tt, m')
    /\ read_byte a m'
       = Some (match assoc_Z a patch_table with
               | Some p => p
               | None => u8 (byte_at kernalRomC64 (a - kBaseAddrKernal))
               end, m').
Proof.
  intros Hlay Himg Hwf Hhi Ha Hvic Hc1 Hc2 Hbw Hkw.
  pose proof (layout_ok_banks Hlay) as Hbk.
  destruct (banks_ok_range Hbk) as (Hk & Hb & Hc).
  destruct (banks_after_rule_table v Hbk) as (Rk & _ & _).
  assert (Hfit : roms_fit = true).
  { unfold layout_ok in Hlay. rewrite !andb_true_iff in Hlay. tauto. }
  unfold roms_fit, kMemSize in Hfit. to_prop Hfit.
  destruct (setup_memory_banks_rom v m Hlay Himg Hwf)
    as (m' & Em & Hwf' & Hbanks & Hrom & _).
  exists m'. split; [exact Em|].
  destruct (wf_reads m' a Hwf' Hbk ltac:(lia))
    as (cb & bb & kb & ra & ro & Hcb & Hbb & Hkb & Hra & Hro).
  rewrite (read_byte_eq a m' cb bb kb ra ro) by assumption. cbv zeta.
  rewrite Hvic, Hc1, Hc2, Hbw, Hkw.
  rewrite Hbanks in Hkb by lia. injection Hkb as <-.
  rewrite Rk. unfold rule_kernal. rewrite Hhi.
  rewrite Hrom in Hro by lia. injection Hro as <-. reflexivity.
Qed.

(** X7: once [setup_memory_banks] has run with the LORAM and HIRAM bits
    set, a read through [read_byte] in the BASIC area returns the byte of
    the BASIC table, whatever RAM holds; this needs the BASIC area to lie
    apart from the character and KERNAL areas and from the patched
    addresses. *)
Theorem read_byte_basic_rom v a m :
  layout_ok = true -> images_ok = true -> basic_kept = true -> wf m = true ->
  bit_set v kLORAM = true -> bit_set v kHIRAM = true ->
  kBaseAddrBasic <= a < kBaseAddrBasic + 8192 ->
  vic_window (Z.land a 0xff00) = false ->
  (Z.land a 0xff00 =? kAddrCIA1Page) = false ->
  (Z.land a 0xff00 =? kAddrCIA2Page) = false ->
  basic_window (Z.land a 0xff00) = true ->
  exists m',
    setup_memory_banks v m = Some (tt, m')
    /\ read_byte a m' = Some (u8 (byte_at basicRomC64 (a - kBaseAddrBasic)), m').
Proof.
  intros Hlay Himg Hkept Hwf Hlo Hhi Ha Hvic Hc1 Hc2 Hbw.
  pose proof (layout_ok_banks Hlay) as Hbk.
  destruct (banks_ok_range Hbk) as (Hk & Hb & Hc).
  destruct (banks_after_rule_table v Hbk) as (_ & Rb & _).
  assert (Hfit : roms_fit = true).
  { unfold layout_ok in Hlay. rewrite !andb_true_iff in Hlay. tauto. }
  unfold roms_fit, kMemSize in Hfit. to_prop Hfit.
  destruct (setup_memory_banks_rom v m Hlay Himg Hwf)
    as (m' & Em & Hwf' & Hbanks & _ & Hrom & _).
  exists m'. split; [exact Em|].
  destruct (wf_reads m' a Hwf' Hbk ltac:(lia))
    as (cb & bb & kb & ra & ro & Hcb & Hbb & Hkb & Hra & Hro).
  rewrite (read_byte_eq a m' cb bb kb ra ro) by assumption. cbv zeta.
  rewrite Hvic, Hc1, Hc2, Hbw.
  rewrite Hbanks in Hbb by lia. injection Hbb as <-.
  rewrite Rb. unfold rule_basic. rewrite Hlo, Hhi. cbn [andb].
  rewrite (Hrom Hkept) in Hro by lia. injection Hro as <-. reflexivity.
Qed.

(** X5: once [setup_memory_banks] has run with CHAREN set and LORAM and
    HIRAM clear, the whole address space is RAM: [read_byte] is
    [read_byte_no_io] at every address, and [write_byte] is
    [write_byte_no_io] at every address but the latch's, apart from the
    write at 313 of a value that [write_byte]'s [uint8_t] parameter
    receives as 255 (255 itself, and 511, 767, ... as well). No chip is
    called. *)
Theorem all_ram_configuration v a x m :
  layout_ok = true -> images_ok = true -> wf m = true ->
  bit_set v kLORAM = false -> bit_set v kHIRAM = false ->
  bit_set v kCHAREN = true -> is_u16 a = true ->
  exists m',
    setup_memory_banks v m = Some (tt, m')
    /\ read_byte a m' = read_byte_no_io a m'
    /\ (a <> kAddrMemoryLayout -> ~ (a = 313 /\ u8 x = 255) ->
        write_byte a x m' = write_byte_no_io a x m').
Proof.
  intros Hlay Himg Hwf Hlo Hhi Hch Ha. apply is_u16_spec in Ha.
  pose proof (layout_ok_banks Hlay) as Hbk.
  destruct (banks_ok_range Hbk) as (Hk & Hb & Hc).
  destruct (banks_after_rule_table v Hbk) as (Rk & Rb & Rc).
  rewrite Hlo, Hhi, Hch in Rk, Rb, Rc.
  cbn [rule_kernal rule_basic rule_charen orb andb] in Rk, Rb, Rc.
  destruct (setup_memory_banks_rom v m Hlay Himg Hwf)
    as (m' & Em & Hwf' & Hbanks & _).
  exists m'. split; [exact Em|].
  destruct (wf_reads m' a Hwf' Hbk Ha)
    as (cb & bb & kb & ra & ro & Hcb & Hbb & Hkb & Hra & Hro).
  rewrite Hbanks, Rc in Hcb by lia. rewrite Hbanks, Rb in Hbb by lia.
  rewrite Hbanks, Rk in Hkb by lia.
  injection Hcb as <-. injection Hbb as <-. injection Hkb as <-.
  assert (Hcb : nth_Z (banks_ m') kBankCharen = Some kRAM)
    by (rewrite Hbanks, Rc by lia; reflexivity).
  assert (Hbb : nth_Z (banks_ m') kBankBasic = Some kRAM)
    by (rewrite Hbanks, Rb by lia; reflexivity).
  assert (Hkb : nth_Z (banks_ m') kBankKernal = Some kRAM)
    by (rewrite Hbanks, Rk by lia; reflexivity).
  pose proof Hwf' as Hwf0. apply wf_spec in Hwf0 as (Hram & _).
  assert (Hd1 : bool_decide (kRAM = kIO) = false) by reflexivity.
  assert (Hd2 : bool_decide (kRAM = kROM) = false) by reflexivity.
  split.
  - rewrite (read_byte_eq a m' kRAM kRAM kRAM ra ro) by assumption. cbv zeta.
    unfold read_byte_no_io. rewrite (on_ram_load a m' ra Hra), Hd1, Hd2.
    repeat match goal with
      | |- context [if ?c then _ else _] => destruct c
      end; reflexivity.
  - intros Hne Htrig. rewrite (write_byte_eq a x m' kRAM Hcb) by lia. cbv zeta.
    unfold write_byte_no_io. rewrite on_ram_poke, Hd1 by lia.
    destruct (Z.eqb_spec a kAddrMemoryLayout); [contradiction|].
    destruct (Z.eqb_spec a 313), (Z.eqb_spec (u8 x) 255); cbn [andb];
      try (exfalso; apply Htrig; split; assumption);
      repeat match goal with
        | |- context [if ?c then _ else _] => destruct c
        end; reflexivity.
Qed.

(** X13: while the CHAREN slot does not hold [kIO], no access calls a
    chip: [read_byte] returns a byte and leaves the object as it is, and
    [write_byte] returns and leaves the chips as they are. *)
Theorem no_chip_call_outside_io a v m cb :
  layout_ok = true -> images_ok = true -> wf m = true -> bytes_ok m = true ->
  is_u16 a = true ->
  nth_Z (banks_ m) kBankCharen = Some cb -> cb <> kIO ->
  (exists x, read_byte a m = Some (x, m))
  /\ (exists m', write_byte a v m = Some (tt, m') /\ chips m' = chips m).
Proof.
  intros Hlay Himg Hwf Hby Ha Hcb Hio. apply is_u16_spec in Ha.
  pose proof (layout_ok_banks Hlay) as Hbk.
  assert (Hdec : bool_decide (cb = kIO) = false)
    by (now apply bool_decide_eq_false).
  split.
  - destruct (wf_reads m a Hwf Hbk Ha)
      as (cb' & bb & kb & ra & ro & Hcb' & Hbb & Hkb & Hra & Hro).
    rewrite Hcb in Hcb'. injection Hcb' as <-.
    rewrite (read_byte_eq a m cb bb kb ra ro) by assumption. cbv zeta.
    rewrite Hdec.
    repeat match goal with
      | |- context [if ?c then _ else _] => destruct c
      end; eauto.
  - destruct (write_byte_total a v m Hlay Himg Hwf Hby Ha) as (m' & E & _).
    exists m'. split; [exact E|].
    pose proof Hwf as Hwf0. apply wf_spec in Hwf0 as (Hram & _).
    rewrite (write_byte_eq a v m cb Hcb) in E by lia. cbv zeta in E.
    rewrite Hdec in E.
    destruct (setup_memory_banks_spec v m Hlay Himg Hwf)
      as (r & b & _ & _ & Em & _).
    rewrite Em in E.
    destruct (patch_ram_total (ram_set m a v)) as (m2 & E2 & _);
      [exact Himg | apply ram_set_ok; assumption..|].
    assert (Hc2 : chips m2 = chips m).
    { unfold on_ram in E2. destruct (patch_ram _) as [[[] ram']|];
        [|discriminate]. now injection E2 as <-. }
    rewrite E2 in E.
    repeat match type of E with
      | context [if ?c then _ else _] => destruct c
      end; injection E as <-; trivial.
Qed.
End Configurations.

(** ** What a write changes *)

Section WriteFrame.
Context {L : MemoryH} {R : RomImages} {W : Type} {C : Chips W}.
Implicit Types (m : Memory W).

(** A write through the default branch of [write_byte]. *)
Lemma write_byte_default a v m :
  images_ok = true -> banks_ok = true -> wf m = true ->
  0 <= a < 65536 -> 0 <= v < 256 ->
  write_default (Z.land a 0xff00) = true ->
  (a = 313 -> v = 255 -> payload_covers 313 = false) ->
  exists m1,
    write_byte a v m = Some (tt, m1)
    /\ wf m1 = true
    /\ nth_Z (mem_ram_ m1) a = Some v
    /\ mem_rom_ m1 = mem_rom_ m /\ banks_ m1 = banks_ m /\ chips m1 = chips m.
Proof.
  intros Himg Hbk Hwf Ha Hv Hdef Hpay.
  destruct (wf_reads m a Hwf Hbk Ha) as (cb & _ & _ & _ & _ & Hcb & _).
  pose proof Hwf as Hwf0. apply wf_spec in Hwf0 as (Hram & Hrom & Hbanks).
  rewrite (write_byte_eq a v m cb Hcb) by lia. cbv zeta.
  rewrite (u8_id v Hv).
  destruct (write_default_spec _ Hdef) as (-> & -> & -> & -> & ->).
  assert (Hset : nth_Z (mem_ram_ (ram_set m a v)) a = Some v).
  { cbn [ram_set mem_ram_]. rewrite nth_Z_insert_eq by lia. now rewrite u8_id. }
  assert (Hwf1 : wf (ram_set m a v) = true).
  { apply wf_spec. cbn [ram_set mem_ram_ mem_rom_ banks_].
    rewrite length_insert. auto. }
  destruct (Z.eqb_spec a 313) as [->|]; [|cbn [andb]; eauto 10].
  destruct (Z.eqb_spec v 255) as [->|]; [|cbn [andb]; eauto 10].
  cbn [andb].
  destruct (patch_ram_overwrites Himg) as (g & Hg & _ & _ & _ & Hfree).
  destruct (Hg (mem_ram_ (ram_set m 313 255))) as (b' & Eb & Hb' & Hnth).
  { cbn [ram_set mem_ram_]. now rewrite length_insert. }
  unfold on_ram. rewrite Eb. eexists. split; [reflexivity|].
  cbn [mem_ram_ mem_rom_ banks_ chips ram_set]. repeat split.
  - apply wf_spec. cbn [mem_ram_ mem_rom_ banks_]. auto.
  - rewrite Hnth, Hfree by (auto; lia). exact Hset.
Qed.

(** X3: [write_byte] returns on every object of the right sizes. A write
    at an address other than the latch's leaves [banks_] and [mem_rom_]
    as they are; a write on a loaded ROM image leaves [mem_rom_] as it is
    even at the latch's address (the image is loaded again, to the same
    bytes); and a write at the latch's address in the zero page changes
    no chip and no byte of RAM but the latch's. *)
Theorem write_byte_frame a v m :
  layout_ok = true -> images_ok = true -> wf m = true -> is_u16 a = true ->
  exists m',
    write_byte a v m = Some (tt, m')
    /\ (a <> kAddrMemoryLayout ->
        banks_ m' = banks_ m /\ mem_rom_ m' = mem_rom_ m)
    /\ (rom_loaded m -> mem_rom_ m' = mem_rom_ m)
    /\ (latch_in_zero_page = true -> a = kAddrMemoryLayout ->
        chips m' = chips m
        /\ forall j, j <> a -> nth_Z (mem_ram_ m') j = nth_Z (mem_ram_ m) j).
Proof.
  intros Hlay Himg Hwf Ha. apply is_u16_spec in Ha.
  pose proof (layout_ok_banks Hlay) as Hbk.
  assert (Hfit : roms_fit = true).
  { unfold layout_ok in Hlay. rewrite !andb_true_iff in Hlay. tauto. }
  destruct (wf_reads m a Hwf Hbk Ha) as (cb & _ & _ & _ & _ & Hcb & _).
  destruct (setup_memory_banks_spec v m Hlay Himg Hwf)
    as (r & b & Er & _ & Em & _).
  pose proof Hwf as Hwf0. apply wf_spec in Hwf0 as (Hram & Hrom & Hbanks).
  destruct (patch_ram_overwrites Himg) as (g & Hg & _).
  destruct (Hg (mem_ram_ (ram_set m a v))) as (ram' & Ep & _).
  { cbn [ram_set mem_ram_]. now rewrite length_insert. }
  assert (Hloaded : rom_loaded m -> r = mem_rom_ m).
  { intros (r0 & Hr0 & Er0).
    destruct (setup_rom_overwrites Hfit Himg) as (gr & Hgr & _).
    pose proof (overwrites_idem _ _ _ _ _ _ Hgr Hr0 Er0) as Eidem.
    rewrite Er in Eidem. now injection Eidem. }
  rewrite (write_byte_eq a v m cb Hcb) by lia. cbv zeta.
  unfold latch_in_zero_page.
  destruct (Z.eqb_spec (Z.land a 0xff00) kAddrZeroPage) as [Ezp|Ezp].
  - destruct (Z.eqb_spec a kAddrMemoryLayout) as [Ea|Ea].
    + rewrite Em. eexists. split; [reflexivity|].
      cbn [mem_ram_ mem_rom_ banks_ chips]. repeat split; trivial.
      * contradiction.
      * contradiction.
      * intros j Hj. apply nth_Z_insert_ne; lia.
    + eexists. split; [reflexivity|]. repeat split; trivial; contradiction.
  - assert (Hnl : (Z.land kAddrMemoryLayout 0xff00 =? kAddrZeroPage) = true ->
                  a = kAddrMemoryLayout -> False).
    { intros E1%Z.eqb_eq E2. subst a. contradiction. }
    assert (Hgoal : forall m1, banks_ m1 = banks_ m -> mem_rom_ m1 = mem_rom_ m ->
              exists m', Some (tt, m1) = Some (tt, m')
                /\ (a <> kAddrMemoryLayout ->
                    banks_ m' = banks_ m /\ mem_rom_ m' = mem_rom_ m)
                /\ (rom_loaded m -> mem_rom_ m' = mem_rom_ m)
                /\ ((Z.land kAddrMemoryLayout 0xff00 =? kAddrZeroPage) = true ->
                    a = kAddrMemoryLayout ->
                    chips m' = chips m
                    /\ forall j, j <> a ->
                         nth_Z (mem_ram_ m') j = nth_Z (mem_ram_ m) j)).
    { intros m1 E1 E2. exists m1. split; [reflexivity|].
      split; [auto|]. split; [auto|].
      intros Hz Hl. destruct (Hnl Hz Hl). }
    unfold on_ram. rewrite Ep.
    repeat match goal with
      | |- context [if ?c then _ else _] => destruct c
      end; apply Hgoal; reflexivity.
Qed.

(** X4: RAM under ROM. A byte written through [write_byte] at an address
    of the default branch lands in RAM: while the KERNAL slot holds [kROM]
    a read of a KERNAL page still returns the ROM byte, [read_byte_no_io]
    returns the written byte, and once the latch is written with LORAM
    and HIRAM clear and CHAREN set, [read_byte] returns the written byte.
    (For the write of 255 at 313 the program of [patch_ram] must not cover
    address 313.) *)
Theorem ram_under_rom a x v m :
  layout_ok = true -> images_ok = true -> latch_in_zero_page = true ->
  wf m = true -> is_u16 a = true -> is_u8 x = true ->
  write_default (Z.land a 0xff00) = true ->
  (a = 313 -> x = 255 -> payload_covers 313 = false) ->
  bit_set v kLORAM = false -> bit_set v kHIRAM = false ->
  bit_set v kCHAREN = true ->
  exists m1 m2,
    write_byte a x m = Some (tt, m1)
    /\ (forall ro,
          nth_Z (banks_ m) kBankKernal = Some kROM ->
          kernal_window (Z.land a 0xff00) = true ->
          basic_window (Z.land a 0xff00) = false ->
          nth_Z (mem_rom_ m) a = Some ro ->
          read_byte a m1 = Some (ro, m1))
    /\ read_byte_no_io a m1 = Some (x, m1)
    /\ write_byte kAddrMemoryLayout v m1 = Some (tt, m2)
    /\ read_byte a m2 = Some (x, m2).
Proof.
  intros Hlay Himg Hzp Hwf Ha Hx Hdef Hpay Hlo Hhi Hch.
  apply is_u16_spec in Ha. apply is_u8_spec in Hx.
  pose proof (layout_ok_banks Hlay) as Hbk.
  destruct (banks_ok_range Hbk) as (Hk & Hb & Hc).
  assert (Hml : 0 <= kAddrMemoryLayout < 65536).
  { unfold layout_ok in Hlay. to_prop Hlay. lia. }
  destruct (write_byte_default a x m Himg Hbk Hwf Ha Hx Hdef Hpay)
    as (m1 & E1 & Hwf1 & Hra1 & Hrom1 & Hbanks1 & Hchips1).
  destruct (write_default_spec _ Hdef) as (Dz & Dv & Dc1 & Dc2 & Ds).
  unfold latch_in_zero_page in Hzp. apply Z.eqb_eq in Hzp.
  assert (Hne : a <> kAddrMemoryLayout).
  { intros ->. rewrite Hzp, Z.eqb_refl in Dz. discriminate. }
  destruct (setup_memory_banks_rom v m1 Hlay Himg Hwf1)
    as (m2 & E2 & Hwf2 & Hbanks2 & _ & _ & Hram2 & _).
  exists m1, m2. split; [exact E1|]. split; [|split; [|split]].
  - intros ro Hkr Hkw Hbw Hro.
    destruct (wf_reads m1 a Hwf1 Hbk Ha)
      as (cb & bb & kb & ra & ro' & Hcb & Hbb & Hkb & Hra & Hro').
    rewrite (read_byte_eq a m1 cb bb kb ra ro') by assumption. cbv zeta.
    rewrite Dv, Dc1, Dc2, Hbw, Hkw.
    rewrite Hbanks1, Hkr in Hkb. injection Hkb as <-.
    rewrite Hrom1, Hro in Hro'. injection Hro' as <-. reflexivity.
  - now apply on_ram_load.
  - destruct (wf_reads m1 kAddrMemoryLayout Hwf1 Hbk Hml)
      as (cb & _ & _ & _ & _ & Hcb & _).
    pose proof Hwf1 as Hwf0. apply wf_spec in Hwf0 as (Hram & _).
    rewrite (write_byte_eq _ v m1 cb Hcb) by lia. cbv zeta.
    rewrite Hzp, !Z.eqb_refl. exact E2.
  - destruct (banks_after_rule_table v Hbk) as (Rk & Rb & Rc).
    rewrite Hlo, Hhi, Hch in Rk, Rb, Rc.
    cbn [rule_kernal rule_basic rule_charen orb andb] in Rk, Rb, Rc.
    destruct (wf_reads m2 a Hwf2 Hbk Ha)
      as (cb & bb & kb & ra & ro & Hcb & Hbb & Hkb & Hra & Hro).
    rewrite Hbanks2, Rc in Hcb by lia. rewrite Hbanks2, Rb in Hbb by lia.
    rewrite Hbanks2, Rk in Hkb by lia.
    injection Hcb as <-. injection Hbb as <-. injection Hkb as <-.
    rewrite Hram2, Hra1 in Hra by exact Hne. injection Hra as <-.
    rewrite (read_byte_eq a m2 kRAM kRAM kRAM x ro); trivial.
    + cbv zeta. rewrite Dv, Dc1, Dc2.
      assert (Hd2 : bool_decide (kRAM = kROM) = false) by reflexivity.
      rewrite Hd2.
      assert (Hd1 : bool_decide (kRAM = kIO) = false) by reflexivity.
      rewrite ?Hd1.
      now destruct (basic_window (Z.land a 0xff00)),
        (kernal_window (Z.land a 0xff00)).
    + rewrite Hbanks2, Rc by lia. reflexivity.
    + rewrite Hbanks2, Rb by lia. reflexivity.
    + rewrite Hbanks2, Rk by lia. reflexivity.
    + rewrite Hram2, Hra1 by exact Hne. reflexivity.
Qed.
End WriteFrame.

(** ** The monitor [patch_ram] installs *)

Section Monitor.
Context {L : MemoryH} {R : RomImages} {W : Type} {C : Chips W}.
Implicit Types (m : Memory W).

(** What [patch_ram] leaves at 0x9000 and in the BRK vector. *)
Lemma patch_ram_monitor :
  images_ok = true ->
  exists g, overwrites 65536 patch_ram tt g
    /\ (forall j, 0x9000 <= j < 0x9000 + 4223 -> payload_covers j = false ->
          g j = Some (u8 (byte_at micromon (j - 0x9000 + 2))))
    /\ (payload_covers 0x316 = false -> g 0x316 = Some 0x00)
    /\ (payload_covers 0x317 = false -> g 0x317 = Some 0x90).
Proof.
  intros Himg. unfold images_ok in Himg. to_prop Himg.
  destruct (nth_Z_Some paku_prg 1) as [hi Hhi]; [lia|].
  destruct (nth_Z_Some paku_prg 0) as [lo Hlo]; [lia|].
  pose proof (u16_range paku_prg_size) as Hsz.
  pose proof (u16_range (Z.shiftl hi 8 + lo)) as HL.
  assert (HLeq : payload_address = u16 (Z.shiftl hi 8 + lo)).
  { unfold payload_address.
    now rewrite (byte_at_nth_Z _ _ _ Hhi), (byte_at_nth_Z _ _ _ Hlo). }
  assert (Hcov : forall j, payload_covers j = false ->
            (u16 (j - u16 (Z.shiftl hi 8 + lo))
             <? Z.of_nat (Z.to_nat (u16 paku_prg_size - 2))) = false).
  { intros j Hj. unfold payload_covers, payload_length in Hj.
    rewrite HLeq in Hj. apply Z.ltb_ge in Hj. apply Z.ltb_ge.
    pose proof (u16_range (j - u16 (Z.shiftl hi 8 + lo))). lia. }
  eexists. split; [|split; [|split]].
  - unfold patch_ram, for_range.
    eapply overwrites_bind;
      [apply (overwrites_copy 65536 micromon _ 0x8FFE); [intros; lia|lia..]|].
    eapply overwrites_bind; [apply overwrites_poke; lia|].
    eapply overwrites_bind; [apply overwrites_poke; lia|].
    eapply overwrites_bind; [apply overwrites_lift, Hhi|].
    eapply overwrites_bind; [apply overwrites_lift, Hlo|].
    cbv zeta.
    eapply overwrites_bind;
      [apply (overwrites_copy_wrap paku_prg); lia|].
    eapply overwrites_bind; [apply overwrites_poke; lia|].
    apply overwrites_poke; lia.
  - intros j Hj Hc. unfold over. rewrite (Hcov j Hc).
    destruct (Z.eqb_spec j 46); [lia|]. destruct (Z.eqb_spec j 45); [lia|].
    destruct (Z.eqb_spec j 791); [lia|]. destruct (Z.eqb_spec j 790); [lia|].
    destruct (Z.leb_spec (36862 + 2) j); [|lia].
    destruct (Z.ltb_spec j (36862 + 2 + Z.of_nat (Z.to_nat (4225 - 2)))); [|lia].
    cbn [andb]. rewrite byte_at_fmap by lia. do 3 f_equal. lia.
  - intros Hc. unfold over. rewrite (Hcov _ Hc). reflexivity.
  - intros Hc. unfold over. rewrite (Hcov _ Hc). reflexivity.
Qed.

(** X10: the write of 255 at 313 installs the machine-language monitor:
    afterwards RAM holds the bytes of [micromon] from its third on at
    0x9000 to 0xA07E, and the word at 0x0316 (the BRK vector) reads
    0x9000, at every address the copied program does not cover. *)
Theorem monitor_installed m :
  layout_ok = true -> images_ok = true -> wf m = true ->
  write_default (Z.land 313 0xff00) = true ->
  exists m',
    write_byte 313 255 m = Some (tt, m')
    /\ (forall k, 0 <= k < 4223 -> payload_covers (0x9000 + k) = false ->
          read_byte_no_io (0x9000 + k) m'
          = Some (u8 (byte_at micromon (k + 2)), m'))
    /\ (payload_covers 0x316 = false -> payload_covers 0x317 = false ->
        read_word_no_io 0x316 m' = Some (0x9000, m')).
Proof.
  intros Hlay Himg Hwf Hdef.
  pose proof (layout_ok_banks Hlay) as Hbk.
  destruct (wf_reads m 313 Hwf Hbk ltac:(lia)) as (cb & _ & _ & _ & _ & Hcb & _).
  apply wf_spec in Hwf as (Hram & Hrom & Hbanks).
  rewrite (write_byte_eq 313 255 m cb Hcb) by lia. cbv zeta.
  destruct (write_default_spec _ Hdef) as (-> & -> & -> & -> & ->).
  change ((313 =? 313) && (255 =? 255)) with true. cbv iota.
  destruct (patch_ram_monitor Himg) as (g & Hg & Hmon & H316 & H317).
  destruct (Hg (mem_ram_ (ram_set m 313 255))) as (b' & Eb & Hb' & Hnth).
  { cbn [ram_set mem_ram_]. now rewrite length_insert. }
  unfold on_ram. rewrite Eb. eexists. split; [reflexivity|]. split.
  - intros k Hk Hc. apply on_ram_load. cbn [mem_ram_].
    rewrite Hnth, Hmon by (trivial; lia). do 3 f_equal. lia.
  - intros Hc1 Hc2. unfold read_word_no_io, read_byte_no_io.
    set (m' := {| mem_ram_ := b' |}).
    assert (E1 : on_ram (load 0x316) m' = Some (0x00, m')).
    { apply on_ram_load. cbn [m' mem_ram_].
      rewrite Hnth, (H316 Hc1) by lia. reflexivity. }
    assert (E2 : on_ram (load 0x317) m' = Some (0x90, m')).
    { apply on_ram_load. cbn [m' mem_ram_].
      rewrite Hnth, (H317 Hc2) by lia. reflexivity. }
    rewrite (bind_Some _ _ _ _ _ E1).
    change (u16 (0x316 + 1)) with 0x317.
    rewrite (bind_Some _ _ _ _ _ E2). reflexivity.
Qed.
End Monitor.

(** ** Words *)

Section Words.
Context {W : Type}.
Implicit Types (m : Memory W).

Lemma word_split v :
  0 <= v < 65536 ->
  u16 (Z.lor (u8 (u8 v)) (Z.shiftl (u8 (u8 (Z.shiftr v 8))) 8)) = v.
Proof.
  intros Hv.
  assert (Hhi : u8 (Z.shiftr v 8) = Z.shiftr v 8).
  { apply u8_id. rewrite Z.shiftr_div_pow2 by lia. change (2 ^ 8) with 256.
    split; [apply Z.div_pos; lia | apply Z.div_lt_upper_bound; lia]. }
  rewrite Hhi, Hhi.
  assert (Hlo : u8 (u8 v) = Z.land v (Z.ones 8)).
  { unfold u8. rewrite Z.mod_mod by lia. now rewrite Z.land_ones by lia. }
  rewrite Hlo, <- Z.ldiff_ones_r by lia.
  rewrite Z.lor_comm, Z.lor_ldiff_and. now apply u16_id.
Qed.

(** X9: a word written by [write_word_no_io] is the word
    [read_word_no_io] reads back at the same address, for every 16-bit
    address (0xFFFF included, where the high byte lies at 0x0000) and every
    16-bit value; no other byte of RAM changes. *)
Theorem word_round_trip a v m :
  Z.of_nat (length (mem_ram_ m)) = 65536 ->
  is_u16 a = true -> is_u16 v = true ->
  exists m',
    write_word_no_io a v m = Some (tt, m')
    /\ read_word_no_io a m' = Some (v, m')
    /\ forall j, j <> a -> j <> u16 (a + 1) ->
         nth_Z (mem_ram_ m') j = nth_Z (mem_ram_ m) j.
Proof.
  intros Hram Ha Hv. apply is_u16_spec in Ha. apply is_u16_spec in Hv.
  pose proof (u16_range (a + 1)) as Ha1.
  assert (Hne : u16 (a + 1) <> a).
  { unfold u16. Z.div_mod_to_equations. lia. }
  unfold write_word_no_io, write_byte_no_io.
  rewrite (bind_Some _ _ _ _ _ (on_ram_poke a (u8 v) m ltac:(lia))).
  rewrite on_ram_poke
    by (cbn [ram_set mem_ram_]; rewrite length_insert; lia).
  eexists. split; [reflexivity|]. split.
  - set (m' := ram_set _ _ _).
    assert (E1 : on_ram (load a) m' = Some (u8 (u8 v), m')).
    { apply on_ram_load. cbn [m' ram_set mem_ram_].
      rewrite nth_Z_insert_ne, nth_Z_insert_eq by lia. reflexivity. }
    assert (E2 : on_ram (load (u16 (a + 1))) m'
                 = Some (u8 (u8 (Z.shiftr v 8)), m')).
    { apply on_ram_load. cbn [m' ram_set mem_ram_].
      rewrite nth_Z_insert_eq by (rewrite length_insert; lia). reflexivity. }
    unfold read_word_no_io, read_byte_no_io.
    rewrite (bind_Some _ _ _ _ _ E1), (bind_Some _ _ _ _ _ E2).
    rewrite ret_eq, word_split by lia. reflexivity.
  - intros j H1 H2. cbn [ram_set mem_ram_].
    now rewrite !nth_Z_insert_ne by lia.
Qed.
End Words.

(** ** The four video banks *)

Section VicBanks.
Context {L : MemoryH} {W : Type} {C : Chips W}.
Implicit Types (m : Memory W).

(** X8: with the second CIA's base address on one of the four 16 kB
    banks, the video chip sees the character ROM at offsets 0x1000 to
    0x1FFF of banks 0 and 2 (at the ROM's offset less 0x1000) and RAM
    everywhere else; banks 1 and 3 show RAM only. *)
Theorem vic_bank_views k addr m :
  0 <= k < 4 -> cia2_vic_base_address (chips m) = 0x4000 * k ->
  let rel := Z.land addr 0x3fff in
  (k = 1 \/ k = 3 ->
     vic_read_byte addr m = read_byte_no_io (0x4000 * k + rel) m)
  /\ (k = 0 \/ k = 2 -> 0x1000 <= rel < 0x2000 ->
      vic_read_byte addr m
      = on_rom (load (kBaseAddrChars + (rel - 0x1000))) m)
  /\ (k = 0 \/ k = 2 -> ~ (0x1000 <= rel < 0x2000) ->
      vic_read_byte addr m = read_byte_no_io (0x4000 * k + rel) m).
Proof.
  intros Hk Hbase rel.
  assert (Hrel : 0 <= rel < 0x4000).
  { unfold rel. change 0x3fff with (Z.ones 14). rewrite Z.land_ones by lia.
    apply Z.mod_pos_bound. lia. }
  assert (Hva : u16 (0x4000 * k + rel) = 0x4000 * k + rel)
    by (apply u16_id; lia).
  assert (Hoff : Z.land (0x4000 * k + rel) 0xfff = rel mod 4096).
  { change 0xfff with (Z.ones 12). rewrite Z.land_ones by lia.
    change (2 ^ 12) with 4096. Z.div_mod_to_equations. lia. }
  unfold vic_read_byte, vic_base_address. rewrite bind_eq, Hbase.
  fold rel. rewrite Hva, Hoff.
  repeat split.
  - intros Hodd.
    destruct (Z.leb_spec 0x1000 (0x4000 * k + rel)),
      (Z.ltb_spec (0x4000 * k + rel) 0x2000),
      (Z.leb_spec 0x9000 (0x4000 * k + rel)),
      (Z.ltb_spec (0x4000 * k + rel) 0xa000); cbn [andb orb];
      first [reflexivity | lia].
  - intros Heven Hwin.
    replace (rel mod 4096) with (rel - 0x1000)
      by (Z.div_mod_to_equations; lia).
    destruct (Z.leb_spec 0x1000 (0x4000 * k + rel)),
      (Z.ltb_spec (0x4000 * k + rel) 0x2000),
      (Z.leb_spec 0x9000 (0x4000 * k + rel)),
      (Z.ltb_spec (0x4000 * k + rel) 0xa000); cbn [andb orb];
      first [reflexivity | lia].
  - intros Heven Hout.
    destruct (Z.leb_spec 0x1000 (0x4000 * k + rel)),
      (Z.ltb_spec (0x4000 * k + rel) 0x2000),
      (Z.leb_spec 0x9000 (0x4000 * k + rel)),
      (Z.ltb_spec (0x4000 * k + rel) 0xa000); cbn [andb orb];
      first [reflexivity | lia].
Qed.
End VicBanks.

(** ** The machine at power-on *)

Section PowerOn.
Context {L : MemoryH} {R : RomImages} {W : Type} {C : Chips W}.
Implicit Types (m : Memory W).

Lemma land_lor_absorb x y : Z.land (Z.lor x y) x = x.
Proof.
  apply Z.bits_inj'. intros n Hn.
  rewrite Z.land_spec, Z.lor_spec. now destruct (Z.testbit x n), (Z.testbit y n).
Qed.

(** The constructor's argument of [setup_memory_banks] has the three bits
    set. *)
Lemma power_on_bits :
  masks_ok = true ->
  let v := u8 (Z.lor (Z.lor kLORAM kHIRAM) kCHAREN) in
  bit_set v kLORAM = true /\ bit_set v kHIRAM = true
  /\ bit_set v kCHAREN = true.
Proof.
  intros Hm v. unfold masks_ok in Hm. to_prop Hm.
  destruct Hm as (((Hl & Hh) & Hc) & Hu).
  assert (Hv : v = Z.lor (Z.lor kLORAM kHIRAM) kCHAREN)
    by (apply u8_id; lia).
  unfold bit_set. rewrite Hv.
  replace (Z.land (Z.lor (Z.lor kLORAM kHIRAM) kCHAREN) kLORAM) with kLORAM.
  2:{ rewrite <- Z.lor_assoc. symmetry. apply land_lor_absorb. }
  replace (Z.land (Z.lor (Z.lor kLORAM kHIRAM) kCHAREN) kHIRAM) with kHIRAM.
  2:{ rewrite (Z.lor_comm kLORAM), <- Z.lor_assoc. symmetry.
      apply land_lor_absorb. }
  replace (Z.land (Z.lor (Z.lor kLORAM kHIRAM) kCHAREN) kCHAREN) with kCHAREN.
  2:{ rewrite Z.lor_comm. symmetry. apply land_lor_absorb. }
  repeat split; apply negb_true_iff, Z.eqb_neq; assumption.
Qed.

(** X1: the constructor returns an object whose bank slots are KERNAL
    ROM, BASIC ROM and I/O, whose RAM holds 0x2f at the data-direction
    address, the three mask bits at the bank-configuration address and
    0x00 at every other even, 0xFF at every other odd address, and whose
    chips are the ones it was given. *)
Theorem Memory_ctor_power_on b0 w :
  layout_ok = true -> images_ok = true -> masks_ok = true ->
  Z.of_nat (length b0) = sizeof_banks_ ->
  exists m,
    Memory_ctor (fresh b0 w) = Some (tt, m)
    /\ chips m = w
    /\ nth_Z (banks_ m) kBankKernal = Some kROM
    /\ nth_Z (banks_ m) kBankBasic = Some kROM
    /\ nth_Z (banks_ m) kBankCharen = Some kIO
    /\ forall j, 0 <= j < 65536 ->
         nth_Z (mem_ram_ m) j
         = Some (if j =? kAddrDataDirection then 0x2f
                 else if j =? kAddrMemoryLayout
                      then Z.lor (Z.lor kLORAM kHIRAM) kCHAREN
                      else if Z.even j then 0x00 else 0xFF).
Proof.
  intros Hlay Himg Hmask Hb0.
  pose proof (layout_ok_banks Hlay) as Hbk.
  destruct (banks_ok_range Hbk) as (Hk & Hb & Hc).
  destruct (power_on_bits Hmask) as (Bl & Bh & Bc).
  assert (Hu : u8 (Z.lor (Z.lor kLORAM kHIRAM) kCHAREN)
               = Z.lor (Z.lor kLORAM kHIRAM) kCHAREN).
  { unfold masks_ok in Hmask. to_prop Hmask. apply u8_id. lia. }
  cbv zeta in Bl, Bh, Bc.
  remember (u8 (Z.lor (Z.lor kLORAM kHIRAM) kCHAREN)) as V eqn:HV.
  destruct (banks_after_rule_table V Hbk) as (Rk & Rb & Rc).
  cbv zeta in Rk, Rb, Rc. rewrite Bl, Bh, Bc in Rk, Rb, Rc.
  pose proof Hlay as Hlay'. unfold layout_ok in Hlay'.
  apply andb_true_iff in Hlay' as [Hlay' Hdd].
  apply andb_true_iff in Hlay' as [_ Hml].
  apply is_u16_spec in Hdd. apply is_u16_spec in Hml.
  set (h := fun i => u8 (if Z.shiftl (Z.shiftr i 1) 1 =? i then 0 else 0xFF)).
  unfold Memory_ctor, fresh, for_range. rewrite <- HV.
  assert (Hzl : Z.of_nat (length (replicate (Z.to_nat kMemSize) 0)) = 65536).
  { rewrite length_replicate. unfold kMemSize. lia. }
  assert (Hn : Z.of_nat (Z.to_nat (kMemSize - 0)) = 65536)
    by (unfold kMemSize; lia).
  revert Hzl Hn.
  generalize (replicate (Z.to_nat kMemSize) 0), (Z.to_nat (kMemSize - 0)).
  intros zeros n Hzl Hn.
  destruct (overwrites_tabulate 65536 h n 0 ltac:(lia) ltac:(lia) zeros Hzl)
    as (ram1 & E1 & Hl1 & Hn1).
  set (m1 := mkMemory ram1 zeros b0 w).
  assert (Hwf1 : wf m1 = true) by (apply wf_spec; auto).
  destruct (setup_memory_banks_spec V m1 Hlay Himg Hwf1)
    as (r & b & _ & _ & E2 & _ & _ & Hbv).
  set (m2 := mkMemory _ r b (chips m1)) in *.
  exists (ram_set m2 kAddrDataDirection 0x2f).
  split; [|split; [reflexivity|]].
  - rewrite bind_eq. unfold on_ram at 1. cbn [mem_ram_ mem_rom_ banks_ chips].
    change (for_loop n 0 ()
              (fun i _ => poke i (if Z.shiftl (Z.shiftr i 1) 1 =? i then 0 else 255)))
      with (for_loop n 0 () (fun (i : Z) (_ : ()) => store i (h i))).
    rewrite E1. fold m1. rewrite bind_eq, E2.
    apply on_ram_poke. unfold m2. cbn [mem_ram_ m1]. rewrite length_insert. lia.
  - cbn [ram_set banks_ m2].
    split; [rewrite Hbv, Rk by lia; reflexivity|].
    split; [rewrite Hbv, Rb by lia; reflexivity|].
    split; [rewrite Hbv, Rc by lia; reflexivity|].
    intros j Hj. unfold m2. cbn [ram_set mem_ram_ m1].
    destruct (Z.eqb_spec j kAddrDataDirection) as [->|Hne1].
    { rewrite nth_Z_insert_eq by (rewrite length_insert; lia). reflexivity. }
    rewrite nth_Z_insert_ne by lia.
    destruct (Z.eqb_spec j kAddrMemoryLayout) as [->|Hne2].
    { rewrite nth_Z_insert_eq by lia. rewrite <- Hu, HV. unfold u8.
      now rewrite Z.mod_mod. }
    rewrite nth_Z_insert_ne by lia.
    rewrite Hn1 by lia.
    destruct (Z.leb_spec 0 j), (Z.ltb_spec j (0 + Z.of_nat n));
      cbn [andb]; try lia.
    unfold h. rewrite even_pattern. now destruct (Z.even j).
Qed.
End PowerOn.

(** ** Programs *)

Section Programs.
Context {L : MemoryH} {R : RomImages} {W : Type} {C : Chips W}.
Implicit Types (m : Memory W).

(** Loading the ROM images over a loaded image changes nothing. *)
Lemma setup_rom_loaded m :
  roms_fit = true -> images_ok = true -> rom_loaded m ->
  setup_rom (mem_rom_ m) = Some (tt, mem_rom_ m).
Proof.
  intros Hfit Himg (r0 & Hr0 & E0).
  destruct (setup_rom_overwrites Hfit Himg) as (g & Hg & _).
  exact (overwrites_idem _ _ _ _ _ _ Hg Hr0 E0).
Qed.

(** [write_byte] leaves a loaded [mem_rom_] as it is. *)
Lemma write_byte_rom_fixed a v m m' :
  layout_ok = true -> images_ok = true -> wf m = true -> 0 <= a < 65536 ->
  rom_loaded m -> write_byte a v m = Some (tt, m') -> mem_rom_ m' = mem_rom_ m.
Proof.
  intros Hlay Himg Hwf Ha Hrl.
  pose proof (layout_ok_banks Hlay) as Hbk.
  assert (Hfit : roms_fit = true).
  { unfold layout_ok in Hlay. rewrite !andb_true_iff in Hlay. tauto. }
  destruct (wf_reads m a Hwf Hbk Ha) as (cb & _ & _ & _ & _ & Hcb & _).
  destruct (setup_memory_banks_spec v m Hlay Himg Hwf)
    as (r & b & Er & _ & Em & _).
  rewrite (setup_rom_loaded m Hfit Himg Hrl) in Er. injection Er as <-.
  apply wf_spec in Hwf as (Hram & Hrom & Hbanks).
  rewrite (write_byte_eq a v m cb Hcb) by lia. cbv zeta.
  assert (Hsame : forall m1, mem_rom_ m1 = mem_rom_ m ->
            Some (tt, m1) = Some (tt, m') -> mem_rom_ m' = mem_rom_ m).
  { now intros m1 E [= <-]. }
  repeat match goal with
    | |- context [if ?c then _ else _] => destruct c
    end;
    try (apply Hsame; reflexivity).
  - rewrite Em. now intros [= <-].
  - unfold on_ram. destruct (patch_ram _) as [[[] ram']|]; [|discriminate].
    apply Hsame. reflexivity.
Qed.

(** No call changes a loaded [mem_rom_]. *)
Lemma perform_rom_fixed x m :
  layout_ok = true -> images_ok = true -> typed x = true ->
  wf m = true -> bytes_ok m = true -> rom_loaded m ->
  exists m', perform x m = Some (tt, m')
             /\ wf m' = true /\ bytes_ok m' = true /\ rom_loaded m'
             /\ mem_rom_ m' = mem_rom_ m.
Proof.
  intros Hlay Himg Hx Hwf Hby Hrl.
  destruct (perform_invariant x m Hlay Himg Hx Hwf Hby Hrl)
    as (m' & E & Hwf' & Hby' & Hrl').
  exists m'. repeat split; trivial.
  pose proof (layout_ok_banks Hlay) as Hbk.
  assert (Hfit : roms_fit = true).
  { unfold layout_ok in Hlay. rewrite !andb_true_iff in Hlay. tauto. }
  revert E.
  destruct x as [a|a v|a|a v|a|a v|a|a v|a]; simpl in Hx;
    apply is_u16_spec in Hx; unfold perform.
  - destruct (read_byte_total a m Hbk Hwf Hby Hx) as (x & w & E & _).
    rewrite (bind_Some _ _ _ _ _ E). now intros [= <-].
  - apply write_byte_rom_fixed; assumption.
  - destruct (read_byte_no_io_total a m Hwf Hby Hx) as (x & E & _).
    rewrite (bind_Some _ _ _ _ _ E). now intros [= <-].
  - destruct (write_byte_no_io_total a v m Hwf Hby Hx) as (E & _).
    rewrite E. now intros [= <-].
  - destruct (read_word_total a m Hbk Hwf Hby Hx)
      as (lo & w1 & hi & w2 & _ & _ & E & _).
    rewrite (bind_Some _ _ _ _ _ E). now intros [= <-].
  - destruct (write_word_total a v m Hlay Himg Hwf Hby Hx)
      as (m1 & m2 & E1 & E2 & E & _).
    rewrite E. intros [= <-].
    destruct (write_byte_total a (u8 v) m Hlay Himg Hwf Hby Hx)
      as (m1' & E1' & Hwf1 & _).
    rewrite E1 in E1'. injection E1' as <-.
    pose proof (write_byte_rom_loaded _ _ _ _ Hlay Himg Hwf Hx Hrl E1) as Hrl1.
    rewrite (write_byte_rom_fixed _ _ _ _ Hlay Himg Hwf1 (u16_range _) Hrl1 E2).
    exact (write_byte_rom_fixed _ _ _ _ Hlay Himg Hwf Hx Hrl E1).
  - destruct (read_word_no_io_total a m Hwf Hby Hx) as (lo & hi & _ & _ & E & _).
    rewrite (bind_Some _ _ _ _ _ E). now intros [= <-].
  - destruct (write_word_no_io_total a v m Hwf Hby Hx) as (E & _).
    rewrite E. now intros [= <-].
  - destruct (vic_read_byte_total a m Hfit Hwf) as (x & E).
    rewrite (bind_Some _ _ _ _ _ E). now intros [= <-].
Qed.

Lemma perform_all_rom_fixed xs : forall m,
  layout_ok = true -> images_ok = true -> forallb typed xs = true ->
  wf m = true -> bytes_ok m = true -> rom_loaded m ->
  exists m', perform_all xs m = Some (tt, m')
             /\ wf m' = true /\ bytes_ok m' = true
             /\ mem_rom_ m' = mem_rom_ m.
Proof.
  induction xs as [|x xs IH]; intros m Hlay Himg Hxs Hwf Hby Hrl.
  - exists m. auto.
  - cbn [forallb] in Hxs. apply andb_true_iff in Hxs as [Hx Hxs].
    destruct (perform_rom_fixed x m Hlay Himg Hx Hwf Hby Hrl)
      as (m1 & E1 & Hwf1 & Hby1 & Hrl1 & Hr1).
    destruct (IH m1 Hlay Himg Hxs Hwf1 Hby1 Hrl1)
      as (m2 & E2 & Hwf2 & Hby2 & Hr2).
    exists m2. cbn [perform_all]. rewrite (bind_Some _ _ _ _ _ E1).
    repeat split; trivial. congruence.
Qed.

(** X12: a program, that is the constructor followed by any sequence of
    calls of the nine accessors with 16-bit addresses, never indexes a
    buffer out of its bounds: every call returns, both buffers keep
    65536 bytes, and [mem_rom_] holds at the end what the constructor
    loaded, whatever was written and whichever bank configurations were
    selected on the way. *)
Theorem program_keeps_rom b0 w0 xs :
  layout_ok = true -> images_ok = true ->
  Z.of_nat (length b0) = sizeof_banks_ ->
  forallb typed xs = true ->
  exists m0 m,
    Memory_ctor (fresh b0 w0) = Some (tt, m0)
    /\ perform_all xs m0 = Some (tt, m)
    /\ (Memory_ctor ;; perform_all xs) (fresh b0 w0) = Some (tt, m)
    /\ wf m = true /\ bytes_ok m = true
    /\ mem_rom_ m = mem_rom_ m0.
Proof.
  intros Hlay Himg Hb0 Hxs.
  destruct (Memory_ctor_spec b0 w0 Hlay Himg Hb0)
    as (m0 & E0 & Hwf0 & Hby0 & Hrl0 & _).
  destruct (perform_all_rom_fixed xs m0 Hlay Himg Hxs Hwf0 Hby0 Hrl0)
    as (m & E & Hwf & Hby & Hr).
  exists m0, m. split; [exact E0|]. split; [exact E|].
  split; [|auto].
  exact (eq_trans (bind_Some Memory_ctor (fun _ => perform_all xs)
                     (fresh b0 w0) tt m0 E0) E).
Qed.
End Programs.

(** ** Mirrored chip registers *)

Section Mirrors.
Context {L : MemoryH} {R : RomImages} {W : Type} {C : Chips W}.
Implicit Types (m : Memory W).

(** X11: with the CHAREN slot on [kIO] the chips' registers are
    mirrored through their windows: two addresses of the video window
    that agree on their low seven bits, or two addresses of the same CIA
    page that agree on their low four bits, read the same through
    [read_byte] and, outside the page of the bank-configuration address,
    are written the same by [write_byte]. *)
Theorem chip_registers_mirrored a a' v m :
  wf m = true -> banks_ok = true ->
  is_u16 a = true -> is_u16 a' = true ->
  nth_Z (banks_ m) kBankCharen = Some kIO ->
  let page := Z.land a 0xff00 in
  let page' := Z.land a' 0xff00 in
  (vic_window page = true -> vic_window page' = true ->
   Z.land a 0x7f = Z.land a' 0x7f ->
     read_byte a m = read_byte a' m
     /\ (page <> kAddrZeroPage -> page' <> kAddrZeroPage ->
         write_byte a v m = write_byte a' v m))
  /\ (vic_window page = false -> page = page' ->
      page = kAddrCIA1Page \/ page = kAddrCIA2Page ->
      Z.land a 0x0f = Z.land a' 0x0f ->
        read_byte a m = read_byte a' m
        /\ (page <> kAddrZeroPage ->
            write_byte a v m = write_byte a' v m)).
Proof.
  intros Hwf Hbk Ha Ha' Hio page page'.
  apply is_u16_spec in Ha. apply is_u16_spec in Ha'.
  destruct (chip_windows_forwarded a v m Hwf Hbk Ha Hio)
    as (Hv & H1 & H2 & _).
  destruct (chip_windows_forwarded a' v m Hwf Hbk Ha' Hio)
    as (Hv' & H1' & H2' & _).
  cbv zeta in Hv, H1, H2, Hv', H1', H2'. fold page in Hv, H1, H2.
  fold page' in Hv', H1', H2'.
  split.
  - intros Hw Hw' Hlow.
    destruct (Hv Hw) as [Er Ew]. destruct (Hv' Hw') as [Er' Ew'].
    rewrite Er, Er', Hlow. split; [reflexivity|].
    intros Hz Hz'. now rewrite (Ew Hz), (Ew' Hz'), Hlow.
  - intros Hw Hpp Hcia Hlow.
    assert (Hw' : vic_window page' = false) by now rewrite <- Hpp.
    destruct (Z.eq_dec page kAddrCIA1Page) as [Hp1|Hp1].
    + destruct (H1 Hw Hp1) as [Er Ew].
      destruct (H1' Hw' ltac:(congruence)) as [Er' Ew'].
      rewrite Er, Er', Hlow. split; [reflexivity|].
      intros Hz. now rewrite (Ew Hz), (Ew' ltac:(congruence)), Hlow.
    + assert (Hp2 : page = kAddrCIA2Page) by tauto.
      destruct (H2 Hw Hp1 Hp2) as [Er Ew].
      destruct (H2' Hw' ltac:(congruence) ltac:(congruence)) as [Er' Ew'].
      rewrite Er, Er', Hlow. split; [reflexivity|].
      intros Hz. now rewrite (Ew Hz), (Ew' ltac:(congruence)), Hlow.
Qed.
End Mirrors.

(** ** A bank configuration replaces the one before *)

Section LastWins.
Context {L : MemoryH} {R : RomImages} {W : Type} {C : Chips W}.
Implicit Types (m : Memory W).

(** X14: of two calls of [setup_memory_banks] in a row the second
    decides: the object after both is the object the second call alone
    produces, in RAM, ROM, bank slots and chips, so that no bank
    configuration leaves a trace in the next. *)
Theorem setup_memory_banks_last_wins v1 v2 m :
  layout_ok = true -> images_ok = true -> wf m = true ->
  exists m1 m2,
    setup_memory_banks v1 m = Some (tt, m1)
    /\ setup_memory_banks v2 m1 = Some (tt, m2)
    /\ setup_memory_banks v2 m = Some (tt, m2)
    /\ (setup_memory_banks v1 ;; setup_memory_banks v2) m = Some (tt, m2).
Proof.
  intros Hlay Himg Hwf.
  destruct (setup_memory_banks_spec v1 m Hlay Himg Hwf)
    as (r & b & Er & Eb & Em & Hr & Hbl & Hb).
  destruct (setup_memory_banks_spec v2 m Hlay Himg Hwf)
    as (r' & b' & Er' & Eb' & Em' & _ & Hbl' & Hb').
  rewrite Er in Er'. injection Er' as <-.
  pose proof (layout_ok_banks Hlay) as Hbk.
  pose proof Hwf as Hwf0. apply wf_spec in Hwf0 as (Hram & Hrom & Hbanks).
  set (m1 := mkMemory _ r b (chips m)) in Em.
  assert (Hwf1 : wf m1 = true).
  { apply wf_spec. simpl. rewrite length_insert. auto. }
  destruct (setup_memory_banks_spec v2 m1 Hlay Himg Hwf1)
    as (r2 & b2 & Er2 & Eb2 & Em2 & _ & Hbl2 & Hb2).
  simpl in Er2, Eb2, Em2.
  assert (Hfit : roms_fit = true).
  { unfold layout_ok in Hlay. rewrite !andb_true_iff in Hlay. tauto. }
  destruct (setup_rom_overwrites Hfit Himg) as (g & Hg & _).
  rewrite (overwrites_idem _ _ _ _ _ _ Hg Hrom Er) in Er2.
  injection Er2 as <-.
  assert (b2 = b') as ->.
  { apply nth_Z_ext; [lia|]. intros j Hj. rewrite Hb2, Hb' by lia. reflexivity. }
  rewrite list_insert_insert_eq in Em2.
  exists m1. eexists. split; [exact Em|]. split; [exact Em2|].
  split; [exact Em'|]. rewrite (bind_Some _ _ _ _ _ Em). exact Em2.
Qed.
End LastWins.

(** ** The further properties on the Commodore 64 memory map *)

Section C64Further.
#[local] Existing Instance c64_layout.
#[local] Existing Instance demo_images.
#[local] Existing Instance logging_chips.

Local Ltac side :=
  first [ vm_compute; reflexivity
        | cbn; lia
        | discriminate
        | intros _ _; vm_compute; reflexivity ].

Lemma Memory_ctor_power_on_witness :
  exists m,
    Memory_ctor (fresh (replicate 7 kRAM) ([] : list io_event)) = Some (tt, m)
    /\ chips m = []
    /\ nth_Z (banks_ m) kBankKernal = Some kROM
    /\ nth_Z (banks_ m) kBankBasic = Some kROM
    /\ nth_Z (banks_ m) kBankCharen = Some kIO
    /\ forall j, 0 <= j < 65536 ->
         nth_Z (mem_ram_ m) j
         = Some (if j =? kAddrDataDirection then 0x2f
                 else if j =? kAddrMemoryLayout
                      then Z.lor (Z.lor kLORAM kHIRAM) kCHAREN
                      else if Z.even j then 0x00 else 0xFF).
Proof.
  refine (Memory_ctor_power_on (replicate 7 kRAM) ([] : list io_event) _ _ _ _);
    side.
Defined.

Lemma patch_roms_exact_witness :
  let b := replicate (Z.to_nat 65536) 0xE0 in
  exists b',
    patch_roms b = Some (tt, b')
    /\ Z.of_nat (length b') = 65536
    /\ (forall j p, assoc_Z j patch_table = Some p -> nth_Z b' j = Some p)
    /\ (forall j, assoc_Z j patch_table = None -> nth_Z b' j = nth_Z b j)
    /\ patch_roms b' = Some (tt, b').
Proof.
  refine (patch_roms_exact (replicate (Z.to_nat 65536) 0xE0) _); side.
Defined.

(** A write into the RAM under the KERNAL ROM. *)
Lemma write_byte_frame_witness :
  let m := flat_memory 0xAA 0x55 kROM in
  exists m',
    write_byte 0xE000 0x42 m = Some (tt, m')
    /\ (0xE000 <> kAddrMemoryLayout ->
        banks_ m' = banks_ m /\ mem_rom_ m' = mem_rom_ m)
    /\ (rom_loaded m -> mem_rom_ m' = mem_rom_ m)
    /\ (latch_in_zero_page = true -> 0xE000 = kAddrMemoryLayout ->
        chips m' = chips m
        /\ forall j, j <> 0xE000 -> nth_Z (mem_ram_ m') j = nth_Z (mem_ram_ m) j).
Proof.
  refine (write_byte_frame 0xE000 0x42 (flat_memory 0xAA 0x55 kROM) _ _ _ _);
    side.
Defined.

Lemma ram_under_rom_witness :
  let m := flat_memory 0xAA 0x55 kROM in
  exists m1 m2,
    write_byte 0xE000 0x42 m = Some (tt, m1)
    /\ (forall ro,
          nth_Z (banks_ m) kBankKernal = Some kROM ->
          kernal_window (Z.land 0xE000 0xff00) = true ->
          basic_window (Z.land 0xE000 0xff00) = false ->
          nth_Z (mem_rom_ m) 0xE000 = Some ro ->
          read_byte 0xE000 m1 = Some (ro, m1))
    /\ read_byte_no_io 0xE000 m1 = Some (0x42, m1)
    /\ write_byte kAddrMemoryLayout 4 m1 = Some (tt, m2)
    /\ read_byte 0xE000 m2 = Some (0x42, m2).
Proof.
  refine (ram_under_rom 0xE000 0x42 4 (flat_memory 0xAA 0x55 kROM)
            _ _ _ _ _ _ _ _ _ _ _); side.
Defined.

Lemma all_ram_configuration_witness :
  exists m',
    setup_memory_banks 4 (flat_memory 0xAA 0x55 kROM) = Some (tt, m')
    /\ read_byte 0xD020 m' = read_byte_no_io 0xD020 m'
    /\ (0xD020 <> kAddrMemoryLayout -> ~ (0xD020 = 313 /\ u8 0x42 = 255) ->
        write_byte 0xD020 0x42 m' = write_byte_no_io 0xD020 0x42 m').
Proof.
  refine (all_ram_configuration 4 0xD020 0x42 (flat_memory 0xAA 0x55 kROM)
            _ _ _ _ _ _ _); side.
Defined.

(** The first byte of the LOAD hook of [patch_roms]. *)
Lemma read_byte_kernal_rom_witness :
  exists m',
    setup_memory_banks 7 (flat_memory 0xAA 0x55 kRAM) = Some (tt, m')
    /\ read_byte 0xF4C4 m'
       = Some (match assoc_Z 0xF4C4 patch_table with
               | Some p => p
               | None => u8 (byte_at kernalRomC64 (0xF4C4 - kBaseAddrKernal))
               end, m').
Proof.
  refine (read_byte_kernal_rom 7 0xF4C4 (flat_memory 0xAA 0x55 kRAM)
            _ _ _ _ _ _ _ _ _ _); side.
Defined.

Lemma read_byte_basic_rom_witness :
  exists m',
    setup_memory_banks 7 (flat_memory 0xAA 0x55 kRAM) = Some (tt, m')
    /\ read_byte 0xA000 m'
       = Some (u8 (byte_at basicRomC64 (0xA000 - kBaseAddrBasic)), m').
Proof.
  refine (read_byte_basic_rom 7 0xA000 (flat_memory 0xAA 0x55 kRAM)
            _ _ _ _ _ _ _ _ _ _ _); side.
Defined.

(** The video bank at 0 and an address of its character window. *)
Lemma vic_bank_views_witness :
  let m := flat_memory 0xAA 0x55 kIO in
  let rel := Z.land 0x1234 0x3fff in
  (0 = 1 \/ 0 = 3 ->
     vic_read_byte 0x1234 m = read_byte_no_io (0x4000 * 0 + rel) m)
  /\ (0 = 0 \/ 0 = 2 -> 0x1000 <= rel < 0x2000 ->
      vic_read_byte 0x1234 m
      = on_rom (load (kBaseAddrChars + (rel - 0x1000))) m)
  /\ (0 = 0 \/ 0 = 2 -> ~ (0x1000 <= rel < 0x2000) ->
      vic_read_byte 0x1234 m = read_byte_no_io (0x4000 * 0 + rel) m).
Proof.
  refine (vic_bank_views 0 0x1234 (flat_memory 0xAA 0x55 kIO) _ _); side.
Defined.

(** A word written at the last address. *)
Lemma word_round_trip_witness :
  let m := flat_memory 0xAA 0x55 kRAM in
  exists m',
    write_word_no_io 0xFFFF 0x1234 m = Some (tt, m')
    /\ read_word_no_io 0xFFFF m' = Some (0x1234, m')
    /\ forall j, j <> 0xFFFF -> j <> u16 (0xFFFF + 1) ->
         nth_Z (mem_ram_ m') j = nth_Z (mem_ram_ m) j.
Proof.
  refine (word_round_trip 0xFFFF 0x1234 (flat_memory 0xAA 0x55 kRAM) _ _ _);
    side.
Defined.

Lemma monitor_installed_witness :
  exists m',
    write_byte 313 255 (flat_memory 0 0 kRAM) = Some (tt, m')
    /\ (forall k, 0 <= k < 4223 -> payload_covers (0x9000 + k) = false ->
          read_byte_no_io (0x9000 + k) m'
          = Some (u8 (byte_at micromon (k + 2)), m'))
    /\ (payload_covers 0x316 = false -> payload_covers 0x317 = false ->
        read_word_no_io 0x316 m' = Some (0x9000, m')).
Proof.
  refine (monitor_installed (flat_memory 0 0 kRAM) _ _ _ _); side.
Defined.

(** The border colour register 0xD020 and its mirror 0xD0A0. *)
Lemma chip_registers_mirrored_witness :
  let m := flat_memory 0xAA 0x55 kIO in
  let page := Z.land 0xD020 0xff00 in
  let page' := Z.land 0xD0A0 0xff00 in
  (vic_window page = true -> vic_window page' = true ->
   Z.land 0xD020 0x7f = Z.land 0xD0A0 0x7f ->
     read_byte 0xD020 m = read_byte 0xD0A0 m
     /\ (page <> kAddrZeroPage -> page' <> kAddrZeroPage ->
         write_byte 0xD020 0x0F m = write_byte 0xD0A0 0x0F m))
  /\ (vic_window page = false -> page = page' ->
      page = kAddrCIA1Page \/ page = kAddrCIA2Page ->
      Z.land 0xD020 0x0f = Z.land 0xD0A0 0x0f ->
        read_byte 0xD020 m = read_byte 0xD0A0 m
        /\ (page <> kAddrZeroPage ->
            write_byte 0xD020 0x0F m = write_byte 0xD0A0 0x0F m)).
Proof.
  refine (chip_registers_mirrored 0xD020 0xD0A0 0x0F
            (flat_memory 0xAA 0x55 kIO) _ _ _ _ _); side.
Defined.

(** A program that writes under the KERNAL ROM, selects the all-RAM
    configuration, reads, and writes a word across the end of memory. *)
Lemma program_keeps_rom_witness :
  let xs := [WriteByte 0xE000 0x42; WriteByte 0x0001 4; ReadByte 0xE000;
             WriteWord 0xFFFF 0x1234; VicReadByte 0x1234] in
  exists m0 m,
    Memory_ctor (fresh (replicate 7 kRAM) ([] : list io_event)) = Some (tt, m0)
    /\ perform_all xs m0 = Some (tt, m)
    /\ (Memory_ctor ;; perform_all xs)
         (fresh (replicate 7 kRAM) ([] : list io_event)) = Some (tt, m)
    /\ wf m = true /\ bytes_ok m = true
    /\ mem_rom_ m = mem_rom_ m0.
Proof.
  refine (program_keeps_rom (replicate 7 kRAM) ([] : list io_event)
            [WriteByte 0xE000 0x42; WriteByte 0x0001 4; ReadByte 0xE000;
             WriteWord 0xFFFF 0x1234; VicReadByte 0x1234] _ _ _ _); side.
Defined.

Lemma no_chip_call_outside_io_witness :
  let m := flat_memory 0xAA 0x55 kROM in
  (exists x, read_byte 0xD020 m = Some (x, m))
  /\ (exists m', write_byte 0xD020 0x0F m = Some (tt, m') /\ chips m' = chips m).
Proof.
  refine (no_chip_call_outside_io 0xD020 0x0F (flat_memory 0xAA 0x55 kROM) kROM
            _ _ _ _ _ _ _); side.
Defined.

Lemma setup_memory_banks_last_wins_witness :
  let m := flat_memory 0xAA 0x55 kROM in
  exists m1 m2,
    setup_memory_banks 7 m = Some (tt, m1)
    /\ setup_memory_banks 4 m1 = Some (tt, m2)
    /\ setup_memory_banks 4 m = Some (tt, m2)
    /\ (setup_memory_banks 7 ;; setup_memory_banks 4) m = Some (tt, m2).
Proof.
  refine (setup_memory_banks_last_wins 7 4 (flat_memory 0xAA 0x55 kROM) _ _ _);
    side.
Defined.
End C64Further.
